(** * ntp-exporter: the measurement and fault-tolerance core

    A shallow embedding of the Go packages [internal/ntp] (statistics,
    validator, adaptive sampler, circuit-breaker client, DNS cache, pool,
    worker pool) and of [internal/collector]'s coherence score, followed by
    the properties established about them.

    Conventions.
    - [time.Duration] and Go's [int] are 64-bit signed integers: values of
      [Z] with the wrap-around of the machine operation written out
      ([wrap64]).  [time.Time] instants are nanosecond counts in [Z].
    - [float64] quantities that are quotients of integers (packet loss,
      trust score, failure ratio) are exact rationals [Q]; the coherence
      score, which needs [exp], is a real number: for these, rounding is
      not modelled.  The statistics of offsets and round-trip times, which
      the source computes on [float64] seconds and converts back to
      durations, are computed on binary64 floats as the source does.
    - Effects are explicit: every operation that talks to the outside takes
      a world [W] and returns the next one.  The world carries the wall
      clock ([now]) and whatever state the injected querier keeps.
    - Go's [(value, error)] results are pairs whose second component is an
      [option Error]; both components can be present at once, as in Go. *)

From Stdlib Require Import ZArith QArith Reals Lia Lra.
From Stdlib Require Floats.
From stdpp Require Import base option list sorting strings gmap fin_maps.

Local Open Scope Z_scope.

(** ** Machine integers and durations *)

Definition int_min : Z := - 2 ^ 63.
Definition int_max : Z := 2 ^ 63 - 1.

(** Two's-complement wrap-around of a 64-bit signed result. *)
Definition wrap64 (x : Z) : Z := (x + 2 ^ 63) mod 2 ^ 64 - 2 ^ 63.

Definition in_int64 (x : Z) : Prop := int_min <= x <= int_max.

Definition Duration := Z.

Definition Nanosecond : Duration := 1.
Definition Microsecond : Duration := 1000 * Nanosecond.
Definition Millisecond : Duration := 1000 * Microsecond.
Definition Second : Duration := 1000 * Millisecond.
Definition Minute : Duration := 60 * Second.
Definition Hour : Duration := 60 * Minute.

(** ** Floating point

    [float64] is IEEE 754 binary64, the primitive floats; the arithmetic is
    that of the processor, operation by operation (no fused multiply-add,
    as on amd64). *)

Definition float64 := PrimFloat.float.

(** [float64(n)] of an integer: the nearest float, ties to even. *)
Definition float64_of_int (n : Z) : float64 :=
  FloatOps.SF2Prim
    (SpecFloat.binary_normalize FloatOps.prec FloatOps.emax n 0 false).

(** [int64(f)] of a float: the fraction is discarded.  For a value outside
    the 64-bit range, an infinity or a NaN the result is that of the
    processor's conversion instruction, on amd64 the smallest integer. *)
Definition int64_of_float (f : float64) : Z :=
  match FloatOps.Prim2SF f with
  | SpecFloat.S754_zero _ => 0
  | SpecFloat.S754_finite s m e =>
      let magnitude := Z.shiftl (Z.pos m) e in
      let v := if s then - magnitude else magnitude in
      if (int_min <=? v) && (v <=? int_max) then v else int_min
  | _ => int_min
  end.

(** [d.Seconds()]: whole seconds plus the float quotient of the rest. *)
Definition Duration_Seconds (d : Duration) : float64 :=
  let sec := Z.quot d Second in
  let nsec := Z.rem d Second in
  PrimFloat.add (float64_of_int sec)
                (PrimFloat.div (float64_of_int nsec) (float64_of_int 1000000000)).

(** [time.Duration(x * float64(time.Second))] *)
Definition Duration_of_seconds (x : float64) : Duration :=
  int64_of_float (PrimFloat.mul x (float64_of_int Second)).

Definition float_le (x y : float64) : Prop := PrimFloat.leb x y = true.

#[global] Instance float_le_dec : RelDecision float_le :=
  fun x y => decide (PrimFloat.leb x y = true).

#[global] Instance float64_inhabited : Inhabited float64 :=
  populate PrimFloat.zero.

(** ** Errors *)

Inductive CtxErr :=
| Canceled
| DeadlineExceeded.

Inductive Error :=
| ErrNoServers                               (* "no servers to query" *)
| ErrAlreadyRunning                          (* "worker pool already running" *)
| ErrNoResults                               (* "no results collected" *)
| ErrContext (e : CtxErr)                    (* ctx.Err() *)
| ErrOpenState                               (* gobreaker.ErrOpenState *)
| ErrTooManyRequests                         (* gobreaker.ErrTooManyRequests *)
| ErrCircuitOpen (server : string) (cause : Error)
                                             (* "circuit breaker open for %s: %w" *)
| ErrResolvePool                             (* "failed to resolve pool" *)
| ErrOther (msg : string).

(** [errors.Is(err, gobreaker.ErrOpenState)]: follows the [%w] chain. *)
Fixpoint is_ErrOpenState (e : Error) : bool :=
  match e with
  | ErrOpenState => true
  | ErrCircuitOpen _ cause => is_ErrOpenState cause
  | _ => false
  end.

(** ** Contexts

    Only what the code under study does with a [context.Context]: derivation
    of a child with a timeout, and polling.  A context that is already done
    is [Done]; a cancellation or deadline that arrives while an operation
    runs is seen by the querier, which receives the context, and by the
    worker pool through its schedule. *)

Inductive Ctx :=
| Background
| Done (e : CtxErr)
| WithTimeout (parent : Ctx) (timeout : Duration).

(** [ctx.Err()] as seen by a non-blocking [select] on [ctx.Done()]; a child
    of a finished context is finished. *)
Fixpoint ctx_err (c : Ctx) : option CtxErr :=
  match c with
  | Background => None
  | Done e => Some e
  | WithTimeout parent _ => ctx_err parent
  end.

(** ** package mathutil *)

Module mathutil.

(** [AbsDuration] (pkg/mathutil): [-d] for a negative [d].  The negation
    is the machine's: it wraps, so the smallest duration is its own
    "absolute value". *)
Definition AbsDuration (d : Duration) : Duration :=
  if d <? 0 then wrap64 (- d) else d.

End mathutil.

(** ** Responses ([Response] of package ntp) *)

Record Response := mkResponse {
  Server : string;
  Offset : Duration;
  RTT : Duration;
  Stratum : Z;                     (* uint8 *)
  ReferenceTimeIsZero : bool;      (* ReferenceTime.IsZero() *)
  RootDelay : Duration;
  RootDispersion : Duration;
  LeapIndicator : Z;               (* uint8 *)
  ValidateError : option Error;
  KissCode : string
}.

Definition IsKissOfDeath (r : Response) : bool :=
  negb (String.eqb (KissCode r) "").

Definition IsValid (r : Response) : bool :=
  match ValidateError r with None => true | Some _ => false end.

(** Thresholds of constants.go. *)
Definition MaxAcceptableRTT : Duration := 10 * Second.
Definition SuspiciousOffsetThreshold : Duration := 3600 * Second.

(** [Response.IsSuspicious]: the response has suspicious characteristics. *)
Definition IsSuspicious (r : Response) : bool :=
  (* Check for invalid stratum *)
  if (Stratum r =? 0) || (Stratum r >? 15) then true
  (* Check for Kiss-of-Death *)
  else if IsKissOfDeath r then true
  (* Check for validation errors *)
  else if negb (IsValid r) then true
  (* Check for unreasonable offset *)
  else if mathutil.AbsDuration (Offset r) >? SuspiciousOffsetThreshold then true
  (* Check for unreasonable RTT *)
  else if RTT r >? MaxAcceptableRTT then true
  else false.

(** The querier capability ([NTPQuerier] in adaptive.go).  An implementation
    keeps its state in the world. *)
Class NTPQuerier (W : Type) := {
  Query : Ctx -> string -> W -> (option Response * option Error) * W;
  QueryMultiple : Ctx -> string -> Z -> W -> (list Response * option Error) * W
}.

(** The wall clock, [time.Now()], in nanoseconds. *)
Class Clock (W : Type) := { now : W -> Z }.

(** ** Statistics ([CalculateStatistics] of package ntp) *)

Module Stats.

Record Statistics := mkStatistics {
  MedianOffset : Duration;
  MeanOffset : Duration;
  StdDevOffset : Duration;
  Jitter : Duration;
  Asymmetry : Duration;
  SamplesCount : Z;
  PacketLossRatio : Q
}.

(** Go's zero value of the struct. *)
Definition zero : Statistics := mkStatistics 0 0 0 0 0 0 0%Q.

Definition calculatePacketLoss (received total : Z) : Q :=
  if total =? 0 then 0%Q
  else
    let lost := wrap64 (total - received) in
    let lost := if lost <? 0 then 0 else lost in
    (inject_Z lost / inject_Z total)%Q.

(** The numeric helpers, on float seconds. *)

(** [sort.Float64s]: ascending order.  The values sorted here are finite,
    so the sorted slice is the same for every sorting algorithm. *)
Definition sortFloat64 (values : list float64) : list float64 :=
  merge_sort float_le values.

Definition median (values : list float64) : float64 :=
  match values with
  | [] => PrimFloat.zero
  | _ =>
      let sorted := sortFloat64 values in
      let n := length sorted in
      if (n mod 2 =? 0)%nat
      then PrimFloat.div
             (PrimFloat.add (sorted !!! (n / 2 - 1)%nat) (sorted !!! (n / 2)%nat))
             (float64_of_int 2)
      else sorted !!! (n / 2)%nat
  end.

Definition mean (values : list float64) : float64 :=
  match values with
  | [] => PrimFloat.zero
  | _ =>
      let sum := foldl PrimFloat.add PrimFloat.zero values in
      PrimFloat.div sum (float64_of_int (Z.of_nat (length values)))
  end.

(** Sample standard deviation ([N-1] denominator). *)
Definition stdDev (values : list float64) : float64 :=
  if (length values <=? 1)%nat then PrimFloat.zero
  else
    let m := mean values in
    let sumSquaredDiff :=
      foldl (fun acc v =>
               let diff := PrimFloat.sub v m in
               PrimFloat.add acc (PrimFloat.mul diff diff))
            PrimFloat.zero values in
    let variance :=
      PrimFloat.div sumSquaredDiff
        (float64_of_int (Z.of_nat (length values) - 1)) in
    PrimFloat.sqrt variance.

Definition min (values : list float64) : float64 :=
  match values with
  | [] => PrimFloat.zero
  | v0 :: rest =>
      foldl (fun minVal v => if PrimFloat.ltb v minVal then v else minVal) v0 rest
  end.

Definition max (values : list float64) : float64 :=
  match values with
  | [] => PrimFloat.zero
  | v0 :: rest =>
      foldl (fun maxVal v => if PrimFloat.ltb maxVal v then v else maxVal) v0 rest
  end.

Definition CalculateStatistics (responses : list Response) (totalSamples : Z)
  : Statistics :=
  match responses with
  | [] => mkStatistics 0 0 0 0 0 0 1%Q
  | _ =>
      let offsets := map (fun resp => Duration_Seconds (Offset resp)) responses in
      let rtts := map (fun resp => Duration_Seconds (RTT resp)) responses in
      {| SamplesCount := Z.of_nat (length responses);
         PacketLossRatio :=
           calculatePacketLoss (Z.of_nat (length responses)) totalSamples;
         MedianOffset := Duration_of_seconds (median offsets);
         MeanOffset := Duration_of_seconds (mean offsets);
         StdDevOffset := Duration_of_seconds (stdDev offsets);
         Jitter := Duration_of_seconds (stdDev rtts);
         Asymmetry :=
           if (2 <=? length rtts)%nat
           then Duration_of_seconds (PrimFloat.sub (max rtts) (min rtts))
           else 0 |}
  end.

(** The packet-loss formula as the specification words it:
    [max(0, requested - received) / requested], and [0] when nothing was
    requested. *)
Definition spec_packet_loss (received requested : Z) : Q :=
  if requested =? 0 then 0%Q
  else (inject_Z (Z.max 0 (requested - received)) / inject_Z requested)%Q.

End Stats.

(** ** Validator (validator.go) *)

Module Validator.

(** The messages appended to [Errors] and [Warnings], with the values the
    source formats into them. *)
Inductive Issue :=
| StratumBelowMinimum (stratum minimum : Z)
| StratumAboveMaximum (stratum maximum : Z)
| KissOfDeathReceived (code : string)
| LargeClockOffset (offset : Duration)
| HighRTT (rtt : Duration)
| NegativeRTT
| ClockNotSynchronized
| NegativeRootDelay
| NegativeRootDispersion
| ZeroReferenceTime.

#[global] Instance Issue_eq_dec : EqDecision Issue.
Proof. solve_decision. Defined.

Record Validator := mkValidator {
  maxClockSkew : Duration;
  minStratum : Z;
  maxStratum : Z;
  validateRefID : bool;
  checkKissOfDeath : bool
}.

Record ValidationResult := mkValidationResult {
  Valid : bool;
  Errors : list Issue;
  Warnings : list Issue;
  TrustScore : Q
}.

Definition NewValidator : Validator :=
  {| maxClockSkew := 1 * Hour;
     minStratum := 1;
     maxStratum := 15;
     validateRefID := true;
     checkKissOfDeath := true |}.

(** [result.Errors = append(...); result.Valid = false; result.TrustScore -= p] *)
Definition addError (result : ValidationResult) (e : Issue) (penalty : Q)
  : ValidationResult :=
  {| Valid := false;
     Errors := Errors result ++ [e];
     Warnings := Warnings result;
     TrustScore := (TrustScore result - penalty)%Q |}.

(** [result.Warnings = append(...); result.TrustScore -= p] *)
Definition addWarning (result : ValidationResult) (w : Issue) (penalty : Q)
  : ValidationResult :=
  {| Valid := Valid result;
     Errors := Errors result;
     Warnings := Warnings result ++ [w];
     TrustScore := (TrustScore result - penalty)%Q |}.

Definition setTrustScore (result : ValidationResult) (t : Q) : ValidationResult :=
  {| Valid := Valid result;
     Errors := Errors result;
     Warnings := Warnings result;
     TrustScore := t |}.

Definition Qlt_bool (x y : Q) : bool := negb (Qle_bool y x).

Definition Validate (v : Validator) (resp : Response) : ValidationResult :=
  let result := {| Valid := true; Errors := []; Warnings := []; TrustScore := 1%Q |} in
  (* Check stratum *)
  let result :=
    if Stratum resp <? minStratum v
    then addError result (StratumBelowMinimum (Stratum resp) (minStratum v)) (3 # 10)
    else result in
  let result :=
    if Stratum resp >? maxStratum v
    then addError result (StratumAboveMaximum (Stratum resp) (maxStratum v)) (3 # 10)
    else result in
  (* Check for Kiss-of-Death *)
  let result :=
    if checkKissOfDeath v && IsKissOfDeath resp
    then addError result (KissOfDeathReceived (KissCode resp)) (5 # 10)
    else result in
  (* Check clock skew *)
  let result :=
    if mathutil.AbsDuration (Offset resp) >? maxClockSkew v
    then addWarning result (LargeClockOffset (Offset resp)) (2 # 10)
    else result in
  (* Check for unreasonable RTT *)
  let result :=
    if RTT resp >? 10 * Second
    then addWarning result (HighRTT (RTT resp)) (1 # 10)
    else result in
  let result :=
    if RTT resp <? 0
    then addError result NegativeRTT (3 # 10)
    else result in
  (* Check leap indicator *)
  let result :=
    if LeapIndicator resp =? 3
    then addWarning result ClockNotSynchronized (2 # 10)
    else result in
  (* Check root delay and dispersion *)
  let result :=
    if RootDelay resp <? 0
    then addError result NegativeRootDelay (2 # 10)
    else result in
  let result :=
    if RootDispersion resp <? 0
    then addError result NegativeRootDispersion (2 # 10)
    else result in
  (* Check reference time *)
  let result :=
    if ReferenceTimeIsZero resp
    then addWarning result ZeroReferenceTime (1 # 10)
    else result in
  (* Ensure trust score is in valid range [0, 1] *)
  let result :=
    if Qlt_bool (TrustScore result) 0 then setTrustScore result 0%Q else result in
  let result :=
    if Qlt_bool 1 (TrustScore result) then setTrustScore result 1%Q else result in
  result.

Definition GetSuspicionReason (v : Validator) (resp : Response) : string :=
  if Stratum resp =? 0 then "invalid_stratum"
  else if Stratum resp >? maxStratum v then "stratum_too_high"
  else if IsKissOfDeath resp then "kod_received"
  else if mathutil.AbsDuration (Offset resp) >? maxClockSkew v then "time_mismatch"
  else if RTT resp >? 10 * Second then "high_rtt"
  else if negb (IsValid resp) then "validation_failed"
  else "unknown".

(** [ValidateStratum], of the same file: "Stratum 0 is valid with
    Kiss-of-Death". *)
Definition ValidateStratum (stratum : Z) (kissCode : string) : option Error :=
  if (stratum =? 0) && negb (String.eqb kissCode "") then None
  else if stratum =? 0
  then Some (ErrOther "invalid stratum 0 without Kiss-of-Death")
  else if stratum >? 15
  then Some (ErrOther "invalid stratum (must be 1-15)")
  else None.

(** The ordered list as the specification words it: [invalid_stratum]
    needs stratum 0 and no kiss code. *)
Definition spec_GetSuspicionReason (v : Validator) (resp : Response) : string :=
  if (Stratum resp =? 0) && negb (IsKissOfDeath resp) then "invalid_stratum"
  else if Stratum resp >? 15 then "stratum_too_high"
  else if IsKissOfDeath resp then "kod_received"
  else if Z.abs (Offset resp) >? Hour then "time_mismatch"
  else if RTT resp >? 10 * Second then "high_rtt"
  else if negb (IsValid resp) then "validation_failed"
  else "unknown".

(** The large-offset warning is among the warnings of a verdict. *)
Definition has_large_offset_warning (r : ValidationResult) : bool :=
  existsb (fun w => match w with LargeClockOffset _ => true | _ => false end)
          (Warnings r).

(** [ValidateTimeout]: the error message, or [None] for an accepted timeout. *)
Definition ValidateTimeout (timeout : Duration) : option string :=
  if timeout <=? 0 then Some "timeout must be positive"%string
  else if timeout <? 500 * Millisecond
  then Some "timeout too short (minimum 500ms)"%string
  else if timeout >? 60 * Second
  then Some "timeout too long (maximum 60s)"%string
  else None.

(** [CalculateTrustScore]; a nil response is [None]. *)
Definition CalculateTrustScore (resp : option Response) : Q :=
  match resp with
  | None => 0%Q
  | Some resp =>
      let score := 1%Q in
      (* Penalize invalid stratum *)
      if (Stratum resp =? 0) || (Stratum resp >? 15) then 0%Q
      else
        (* Penalize high stratum *)
        let score := if Stratum resp >? 5 then (score - (2 # 10))%Q else score in
        (* Penalize large offset *)
        let offsetAbs := mathutil.AbsDuration (Offset resp) in
        let score :=
          if offsetAbs >? 100 * Millisecond then (score - (3 # 10))%Q
          else if offsetAbs >? 50 * Millisecond then (score - (1 # 10))%Q
          else score in
        (* Penalize Kiss-of-Death *)
        let score :=
          if negb (String.eqb (KissCode resp) "") then (score - (5 # 10))%Q
          else score in
        (* Penalize validation errors *)
        let score :=
          match ValidateError resp with
          | Some _ => (score - (3 # 10))%Q
          | None => score
          end in
        (* Ensure score is in [0, 1] *)
        let score := if Qlt_bool score 0 then 0%Q else score in
        let score := if Qlt_bool 1 score then 1%Q else score in
        score
  end.

(** [IsSuspiciousResponse]; a nil response is [None]. *)
Definition IsSuspiciousResponse (resp : option Response) : bool :=
  match resp with
  | None => true
  | Some resp =>
      if (Stratum resp =? 0) && String.eqb (KissCode resp) "" then true
      else if Stratum resp >? 15 then true
      else if mathutil.AbsDuration (Offset resp) >? 10 * Second then true
      else if negb (String.eqb (KissCode resp) "") then true
      else if negb (IsValid resp) then true
      else false
  end.

(** [DetectTimeAnomaly]: whether the offset is anomalous, and how badly. *)
Definition DetectTimeAnomaly (resp : option Response) : bool * string :=
  match resp with
  | None => (false, ""%string)
  | Some resp =>
      let offsetAbs := mathutil.AbsDuration (Offset resp) in
      if offsetAbs >? 5 * Second then (true, "critical"%string)
      else if offsetAbs >? 1 * Second then (true, "major"%string)
      else if offsetAbs >? 500 * Millisecond then (true, "moderate"%string)
      else if offsetAbs >? 100 * Millisecond then (true, "minor"%string)
      else (false, ""%string)
  end.

End Validator.

(** ** Coherence score (collector/hybrid.go) *)

Module Hybrid.

Local Open Scope R_scope.

Definition perfectThreshold : R := 0.001.
Definition excellentThreshold : R := 0.005.
Definition goodThreshold : R := 0.010.
Definition acceptableThreshold : R := 0.050.

(** The source also takes the configuration, which it never reads.  The
    score is taken over the reals: the [float64] of the source differs from
    it by rounding, and by the underflow of [exp], which makes the source
    return 0 for divergences from about 149 s. *)
Definition calculateCoherence (ntpOffset kernelOffset : R) : R :=
  let divergence := Rabs (ntpOffset - kernelOffset) in
  if Rlt_dec divergence perfectThreshold then
    1.0
  else if Rlt_dec divergence excellentThreshold then
    1.0 - ((divergence - perfectThreshold)
             / (excellentThreshold - perfectThreshold) * 0.1)
  else if Rlt_dec divergence goodThreshold then
    0.9 - ((divergence - excellentThreshold)
             / (goodThreshold - excellentThreshold) * 0.2)
  else if Rlt_dec divergence acceptableThreshold then
    0.7 - ((divergence - goodThreshold)
             / (acceptableThreshold - goodThreshold) * 0.2)
  else
    let score := 0.5 * exp (- divergence * 5) in
    if Rlt_dec score 0 then 0 else score.

(** The scale as the specification words it. *)

(** The line through [(x0, y0)] and [(x1, y1)]. *)
Definition linear (x0 y0 x1 y1 d : R) : R :=
  y0 + (d - x0) * (y1 - y0) / (x1 - x0).

Definition clamp01 (x : R) : R := Rmax 0 (Rmin 1 x).

Definition spec_coherence (d : R) : R :=
  if Rlt_dec d 0.001 then 1.0
  else if Rlt_dec d 0.005 then linear 0.001 1.0 0.005 0.9 d
  else if Rlt_dec d 0.010 then linear 0.005 0.9 0.010 0.7 d
  else if Rlt_dec d 0.050 then linear 0.010 0.7 0.050 0.5 d
  else clamp01 (0.5 * exp (- 5 * d)).

End Hybrid.

(** [t.Sub(u)] on instants: the difference, saturated to the range of a
    [Duration]. *)
Definition time_Sub (t u : Z) : Duration :=
  Z.max int_min (Z.min int_max (t - u)).

(** ** Adaptive sampler (adaptive.go) *)

Module Adaptive.

Record AdaptiveSamplingConfig := mkConfig {
  DefaultSamples : Z;
  HighDriftSamples : Z;
  DriftThreshold : Duration;
  MaxDuration : Duration;
  ConfidenceLevel : Q
}.

(** The sampler is its configuration; the querier is the world's. *)
Definition NewAdaptiveSampler (config : AdaptiveSamplingConfig)
  : AdaptiveSamplingConfig :=
  let config :=
    if DefaultSamples config =? 0
    then mkConfig 3 (HighDriftSamples config) (DriftThreshold config)
                  (MaxDuration config) (ConfidenceLevel config)
    else config in
  let config :=
    if HighDriftSamples config =? 0
    then mkConfig (DefaultSamples config) 10 (DriftThreshold config)
                  (MaxDuration config) (ConfidenceLevel config)
    else config in
  let config :=
    if DriftThreshold config =? 0
    then mkConfig (DefaultSamples config) (HighDriftSamples config)
                  (50 * Millisecond) (MaxDuration config) (ConfidenceLevel config)
    else config in
  let config :=
    if MaxDuration config =? 0
    then mkConfig (DefaultSamples config) (HighDriftSamples config)
                  (DriftThreshold config) (30 * Second) (ConfidenceLevel config)
    else config in
  let config :=
    if Qeq_bool (ConfidenceLevel config) 0
    then mkConfig (DefaultSamples config) (HighDriftSamples config)
                  (DriftThreshold config) (MaxDuration config) (95 # 100)
    else config in
  config.

Section Sampler.
Context {W : Type} `{!NTPQuerier W} `{!Clock W}.
Variable a : AdaptiveSamplingConfig.

(** Logging is left out; phase 3 of the source only logs a confidence
    score and changes nothing that is returned. *)
Definition Sample (ctx : Ctx) (server : string) (w : W)
  : (list Response * option Error) * W :=
  let start := now w in
  (* Phase 1: initial sampling with default samples *)
  let '((responses, err), w) := QueryMultiple ctx server (DefaultSamples a) w in
  match err with
  | Some e => (([], Some e), w)
  | None =>
      if (length responses =? 0)%nat then ((responses, None), w)
      else
        let stats := Stats.CalculateStatistics responses (DefaultSamples a) in
        (* Phase 2: high drift detected - need more samples *)
        let absMedian := mathutil.AbsDuration (Stats.MedianOffset stats) in
        if absMedian >? DriftThreshold a then
          let elapsed := time_Sub (now w) start in
          if elapsed <? MaxDuration a then
            let additionalSamples :=
              wrap64 (HighDriftSamples a - DefaultSamples a) in
            let remainingTime := wrap64 (MaxDuration a - elapsed) in
            let samplingCtx := WithTimeout ctx remainingTime in
            let '((extraResponses, err), w) :=
              QueryMultiple samplingCtx server additionalSamples w in
            if bool_decide (err = None) && (0 <? length extraResponses)%nat
            then ((responses ++ extraResponses, None), w)
            else ((responses, None), w)
          else ((responses, None), w)
        else ((responses, None), w)
  end.


Definition GetOptimalSampleCount (initialOffset : Duration) : Z :=
  let absOffset := mathutil.AbsDuration initialOffset in
  if absOffset >? DriftThreshold a then HighDriftSamples a
  else DefaultSamples a.

End Sampler.

End Adaptive.

(** ** Circuit breaker *)

Module gobreaker.

(** The breaker is the imported library [sony/gobreaker], which is not part
    of the sources.  Its model below follows the specification's
    description of the circuit breaker (states, trip condition, timeout,
    interval) and the field comments of [CircuitBreakerConfig] in
    circuitbreaker.go. *)

(** Modelled from the spec: the states of a breaker, [Closed], [Open] and
    [HalfOpen] (the library's file is not in the sources). *)
Inductive State :=
| StateClosed
| StateHalfOpen
| StateOpen.

#[global] Instance State_eq_dec : EqDecision State.
Proof. solve_decision. Defined.

(** Modelled from the spec: the counters of a breaker, [requests],
    [total_failures], [consecutive_failures] and their success
    counterparts (the library's [Counts], not in the sources). *)
Record Counts := mkCounts {
  Requests : Z;
  TotalSuccesses : Z;
  TotalFailures : Z;
  ConsecutiveSuccesses : Z;
  ConsecutiveFailures : Z
}.

Definition noCounts : Counts := mkCounts 0 0 0 0 0.

(** Modelled from the spec: the library's [Settings], not in the sources;
    the fields are those [getBreakerForServer] fills in: the number of
    probes allowed half-open, the interval that clears the closed-state
    counters, the timeout of the open state and the trip rule. *)
Record Settings := mkSettings {
  MaxRequests : Z;
  Interval : Duration;
  Timeout : Duration;
  ReadyToTrip : Counts -> bool
}.

(** Modelled from the spec: the state of one breaker (the library's
    [CircuitBreaker], not in the sources): its state, the counters of the
    current generation and the instant at which the state expires. *)
Record CircuitBreaker := mkBreaker {
  settings : Settings;
  state : State;
  generation : Z;
  counts : Counts;
  expiry : option Z          (* [None]: the zero time, no expiry *)
}.

Definition onRequest (c : Counts) : Counts :=
  mkCounts (Requests c + 1) (TotalSuccesses c) (TotalFailures c)
           (ConsecutiveSuccesses c) (ConsecutiveFailures c).

Definition onSuccessCounts (c : Counts) : Counts :=
  mkCounts (Requests c) (TotalSuccesses c + 1) (TotalFailures c)
           (ConsecutiveSuccesses c + 1) 0.

Definition onFailureCounts (c : Counts) : Counts :=
  mkCounts (Requests c) (TotalSuccesses c) (TotalFailures c + 1)
           0 (ConsecutiveFailures c + 1).

Definition withCounts (cb : CircuitBreaker) (c : Counts) : CircuitBreaker :=
  {| settings := settings cb; state := state cb; generation := generation cb;
     counts := c; expiry := expiry cb |}.

(** Modelled from the spec: the library's generation change, not in the
    sources.  It clears the counters and sets the expiry of the state the
    breaker is in: the interval for [Closed] ("Interval periodically resets
    the Closed-state counters"; an interval of 0 never expires), the timeout
    for [Open] ("Open → HalfOpen after timeout elapsed"), none for
    [HalfOpen]. *)
Definition toNewGeneration (cb : CircuitBreaker) (t : Z) : CircuitBreaker :=
  let st := settings cb in
  {| settings := st;
     state := state cb;
     generation := generation cb + 1;
     counts := noCounts;
     expiry :=
       match state cb with
       | StateClosed => if Interval st =? 0 then None else Some (t + Interval st)
       | StateOpen => Some (t + Timeout st)
       | StateHalfOpen => None
       end |}.

(** Modelled from the spec: a state transition of the library, not in the
    sources; every transition starts a new generation. *)
Definition setState (cb : CircuitBreaker) (s : State) (t : Z) : CircuitBreaker :=
  if bool_decide (state cb = s) then cb
  else
    toNewGeneration
      {| settings := settings cb; state := s; generation := generation cb;
         counts := counts cb; expiry := expiry cb |} t.

(** The expiry lies strictly before [t]. *)
Definition expired (cb : CircuitBreaker) (t : Z) : bool :=
  match expiry cb with
  | Some e => e <? t
  | None => false
  end.

(** Modelled from the spec: the state of the breaker at time [t] (library
    code, not in the sources): a closed breaker past its interval starts a
    new generation, an open breaker past its timeout becomes half-open. *)
Definition currentState (cb : CircuitBreaker) (t : Z) : CircuitBreaker :=
  match state cb with
  | StateClosed => if expired cb t then toNewGeneration cb t else cb
  | StateOpen => if expired cb t then setState cb StateHalfOpen t else cb
  | StateHalfOpen => cb
  end.

(** Modelled from the spec: the library's constructor, not in the sources;
    "a newly seen target starts Closed with zeroed counters". *)
Definition NewCircuitBreaker (st : Settings) (t : Z) : CircuitBreaker :=
  toNewGeneration
    {| settings := st; state := StateClosed; generation := 0;
       counts := noCounts; expiry := None |} t.

(** Modelled from the spec: admission of a request (library code, not in
    the sources).  [Open] rejects immediately, [HalfOpen] allows up to
    [MaxRequests] probes, [Closed] passes through; an admitted request is
    counted. *)
Definition beforeRequest (cb : CircuitBreaker) (t : Z)
  : CircuitBreaker * (Z + Error) :=
  let cb := currentState cb t in
  match state cb with
  | StateOpen => (cb, inr ErrOpenState)
  | StateHalfOpen =>
      if Requests (counts cb) >=? MaxRequests (settings cb)
      then (cb, inr ErrTooManyRequests)
      else (withCounts cb (onRequest (counts cb)), inl (generation cb))
  | StateClosed => (withCounts cb (onRequest (counts cb)), inl (generation cb))
  end.

(** Modelled from the spec: a success (library code, not in the sources);
    half-open, "successes reaching the threshold close". *)
Definition onSuccess (cb : CircuitBreaker) (t : Z) : CircuitBreaker :=
  match state cb with
  | StateClosed => withCounts cb (onSuccessCounts (counts cb))
  | StateHalfOpen =>
      let cb := withCounts cb (onSuccessCounts (counts cb)) in
      if ConsecutiveSuccesses (counts cb) >=? MaxRequests (settings cb)
      then setState cb StateClosed t
      else cb
  | StateOpen => cb
  end.

(** Modelled from the spec: a failure (library code, not in the sources).
    Closed, the trip rule is asked after the failure is counted
    ("ReadyToTrip is called with a copy of Counts whenever a request fails
    in the closed state"); half-open, "any failure re-opens". *)
Definition onFailure (cb : CircuitBreaker) (t : Z) : CircuitBreaker :=
  match state cb with
  | StateClosed =>
      let cb := withCounts cb (onFailureCounts (counts cb)) in
      if ReadyToTrip (settings cb) (counts cb)
      then setState cb StateOpen t
      else cb
  | StateHalfOpen => setState cb StateOpen t
  | StateOpen => cb
  end.

(** Modelled from the spec: recording of an outcome (library code, not in
    the sources); an outcome is counted only in the generation that
    admitted the request. *)
Definition afterRequest (cb : CircuitBreaker) (before : Z) (success : bool) (t : Z)
  : CircuitBreaker :=
  let cb := currentState cb t in
  if generation cb =? before
  then (if success then onSuccess cb t else onFailure cb t)
  else cb.

(** Modelled from the spec: the library's [Execute], not in the sources.
    It runs the request unless the breaker rejects it, and records the
    outcome: failed when the request returns an error. *)
Definition Execute {A W : Type} `{!Clock W} (cb : CircuitBreaker)
    (req : W -> (A * option Error) * W) (w : W)
  : (option A * option Error) * CircuitBreaker * W :=
  match beforeRequest cb (now w) with
  | (cb, inr err) => ((None, Some err), cb, w)
  | (cb, inl generation) =>
      let '((result, err), w) := req w in
      let cb := afterRequest cb generation (bool_decide (err = None)) (now w) in
      ((Some result, err), cb, w)
  end.

End gobreaker.

(** The client of circuitbreaker.go, over the breaker above. *)

Module CircuitBreakerClient.

Record CircuitBreakerConfig := mkConfig {
  MaxRequests : Z;                                  (* uint32 *)
  Interval : Duration;
  Timeout : Duration;
  ReadyToTrip : gobreaker.Counts -> bool
}.

(** The trip rule both constructors install: at least three requests and
    a failure ratio at or above the threshold. *)
Definition tripAt (failureThreshold : Q) (counts : gobreaker.Counts) : bool :=
  let failureRatio :=
    (inject_Z (gobreaker.TotalFailures counts)
       / inject_Z (gobreaker.Requests counts))%Q in
  (gobreaker.Requests counts >=? 3) && Qle_bool failureThreshold failureRatio.

Definition DefaultCircuitBreakerConfig : CircuitBreakerConfig :=
  {| MaxRequests := 3;
     Interval := 60 * Second;
     Timeout := 30 * Second;
     ReadyToTrip := tripAt (6 # 10) |}.

Definition NewCircuitBreakerConfigWithThreshold
    (maxRequests : Z) (interval timeout : Duration) (failureThreshold : Q)
  : CircuitBreakerConfig :=
  {| MaxRequests := maxRequests;
     Interval := interval;
     Timeout := timeout;
     ReadyToTrip := tripAt failureThreshold |}.

(** The querier is the world's; the client owns the per-server breakers. *)
Record CircuitBreakerClient := mkClient {
  breakers : gmap string gobreaker.CircuitBreaker;
  config : CircuitBreakerConfig
}.

Definition NewCircuitBreakerClient (config : CircuitBreakerConfig)
  : CircuitBreakerClient :=
  let config :=
    if MaxRequests config =? 0 then DefaultCircuitBreakerConfig else config in
  {| breakers := ∅; config := config |}.

(** The [gobreaker.Settings] literal of [getBreakerForServer]. *)
Definition settingsOf (config : CircuitBreakerConfig) : gobreaker.Settings :=
  {| gobreaker.MaxRequests := MaxRequests config;
     gobreaker.Interval := Interval config;
     gobreaker.Timeout := Timeout config;
     gobreaker.ReadyToTrip := ReadyToTrip config |}.

(** Returns the breaker of the server, creating it at time [t] when the
    server is seen for the first time. *)
Definition getBreakerForServer (cb : CircuitBreakerClient) (server : string) (t : Z)
  : gobreaker.CircuitBreaker * CircuitBreakerClient :=
  match breakers cb !! server with
  | Some breaker => (breaker, cb)
  | None =>
      let breaker := gobreaker.NewCircuitBreaker (settingsOf (config cb)) t in
      (breaker, {| breakers := <[server := breaker]> (breakers cb);
                   config := config cb |})
  end.

(** The breaker is shared through the map: what [Execute] does to it is
    what the map holds afterwards. *)
Definition store (cb : CircuitBreakerClient) (server : string)
    (breaker : gobreaker.CircuitBreaker) : CircuitBreakerClient :=
  {| breakers := <[server := breaker]> (breakers cb); config := config cb |}.

Section Client.
Context {W : Type} `{!NTPQuerier W} `{!Clock W}.

Definition Query (ctx : Ctx) (server : string)
    (s : CircuitBreakerClient * W)
  : (option Response * option Error) * (CircuitBreakerClient * W) :=
  let '(cb, w) := s in
  let '(breaker, cb) := getBreakerForServer cb server (now w) in
  let '((result, err), breaker, w) :=
    gobreaker.Execute breaker (Query ctx server) w in
  let cb := store cb server breaker in
  match err with
  | Some e =>
      if is_ErrOpenState e
      then ((None, Some (ErrCircuitOpen server e)), (cb, w))
      else ((None, Some e), (cb, w))
  | None => ((mjoin result, None), (cb, w))
  end.

Definition QueryMultiple (ctx : Ctx) (server : string) (samples : Z)
    (s : CircuitBreakerClient * W)
  : (list Response * option Error) * (CircuitBreakerClient * W) :=
  let '(cb, w) := s in
  let '(breaker, cb) := getBreakerForServer cb server (now w) in
  let '((result, err), breaker, w) :=
    gobreaker.Execute breaker (QueryMultiple ctx server samples) w in
  let cb := store cb server breaker in
  match err with
  | Some e =>
      if is_ErrOpenState e
      then (([], Some (ErrCircuitOpen server e)), (cb, w))
      else (([], Some e), (cb, w))
  | None => ((default [] result, None), (cb, w))
  end.

(** The state at time [t]; the library's [State()] looks at the clock. *)
Definition GetState (cb : CircuitBreakerClient) (server : string) (t : Z)
  : gobreaker.State :=
  match breakers cb !! server with
  | None => gobreaker.StateClosed
  | Some breaker => gobreaker.state (gobreaker.currentState breaker t)
  end.

End Client.

(** The protected client is itself a querier, over the world extended
    with its breakers. *)
#[global] Instance querier {W : Type} `{!NTPQuerier W} `{!Clock W}
  : NTPQuerier (CircuitBreakerClient * W) :=
  Build_NTPQuerier (CircuitBreakerClient * W) Query QueryMultiple.

End CircuitBreakerClient.

(** ** DNS cache (dnscache.go) *)

Module DNSCache.

Record DNSCacheEntry := mkEntry {
  IPs : list string;
  ExpiresAt : Z;
  TTL : Duration;
  ErrorCount : Z
}.

Record DNSCache := mkCache {
  cache : gmap string DNSCacheEntry;
  minTTL : Duration;
  maxTTL : Duration
}.

Record DNSCacheConfig := mkConfig {
  MinTTL : Duration;
  MaxTTL : Duration
}.

Definition NewDNSCache (config : DNSCacheConfig) : DNSCache :=
  let minT := if MinTTL config =? 0 then 5 * Minute else MinTTL config in
  let maxT := if MaxTTL config =? 0 then 60 * Minute else MaxTTL config in
  {| cache := ∅; minTTL := minT; maxTTL := maxT |}.

(** What the cache asks of the outside: the resolver, and the test for an
    IP literal ([net.ParseIP(hostname) != nil]). *)
Class Resolver (W : Type) := {
  ParseIP : string -> bool;
  LookupHost : Ctx -> string -> W -> (list string + Error) * W
}.

Definition withCache (c : DNSCache) (m : gmap string DNSCacheEntry) : DNSCache :=
  {| cache := m; minTTL := minTTL c; maxTTL := maxTTL c |}.

Definition calculateAdaptiveTTL (c : DNSCache) (entry : option DNSCacheEntry)
  : Duration :=
  let ttl := Z.quot (wrap64 (minTTL c + maxTTL c)) 2 in
  match entry with
  | Some entry => if ErrorCount entry >? 0 then minTTL c else maxTTL c
  | None => ttl
  end.

Definition Invalidate (c : DNSCache) (hostname : string) : DNSCache :=
  withCache c (delete hostname (cache c)).

Definition Clear (c : DNSCache) : DNSCache := withCache c ∅.

(** The counters of [Stats()] (the two TTLs it also reports are the
    cache's own). *)
Record CacheStats := mkStats {
  total_entries : Z;
  valid_entries : Z;
  expired_entries : Z
}.

(** [Stats] at time [t]: one pass over the entries. *)
Definition StatsAt (c : DNSCache) (t : Z) : CacheStats :=
  let totalEntries := Z.of_nat (size (cache c)) in
  let '(validEntries, expiredEntries) :=
    map_fold (fun _ entry '(valid, expired) =>
                if t <? ExpiresAt entry then (valid + 1, expired)
                else (valid, expired + 1))
             (0, 0) (cache c) in
  {| total_entries := totalEntries;
     valid_entries := validEntries;
     expired_entries := expiredEntries |}.

(** [CleanupExpired] at time [t]: one pass that deletes the entries whose
    expiry lies before [t] and counts them. *)
Definition CleanupExpiredAt (c : DNSCache) (t : Z) : Z * DNSCache :=
  let '(m, removed) :=
    map_fold (fun hostname entry '(m, removed) =>
                if ExpiresAt entry <? t then (delete hostname m, removed + 1)
                else (m, removed))
             (cache c, 0) (cache c) in
  (removed, withCache c m).

Section Cache.
Context {W : Type} `{!Resolver W} `{!Clock W}.

(** The source adds a 10 s deadline when the context has none; the
    resolver sees the context, the cache logic does not depend on it. *)
Definition resolveWithTimeout (ctx : Ctx) (hostname : string) (w : W)
  : (list string + Error) * W :=
  let ctx :=
    match ctx with
    | WithTimeout _ _ => ctx
    | _ => WithTimeout ctx (10 * Second)
    end in
  LookupHost ctx hostname w.

Definition Resolve (c : DNSCache) (ctx : Ctx) (hostname : string) (w : W)
  : (list string * option Error) * DNSCache * W :=
  (* Check if IP address (no resolution needed) *)
  if ParseIP hostname then (([hostname], None), c, w)
  else
    (* Check cache *)
    let entry := cache c !! hostname in
    let hit :=
      match entry with
      | Some e => now w <? ExpiresAt e
      | None => false
      end in
    if hit then ((from_option IPs [] entry, None), c, w)
    else
      (* Cache miss or expired - perform resolution *)
      match resolveWithTimeout ctx hostname w with
      | (inr err, w) =>
          (* On error, try to use stale cache if available *)
          match entry with
          | Some e =>
              (* the entry is shared with the map: the increment is
                 seen there *)
              let e' := mkEntry (IPs e) (ExpiresAt e) (TTL e)
                                (wrap64 (ErrorCount e + 1)) in
              ((IPs e, None), withCache c (<[hostname := e']> (cache c)), w)
          | None => (([], Some err), c, w)
          end
      | (inl ips, w) =>
          (* Calculate adaptive TTL based on success/failure history *)
          let ttl := calculateAdaptiveTTL c entry in
          (* Update cache *)
          ((ips, None),
           withCache c
             (<[hostname := mkEntry ips (now w + ttl) ttl 0]> (cache c)),
           w)
      end.

Definition Stats (c : DNSCache) (w : W) : CacheStats := StatsAt c (now w).

Definition CleanupExpired (c : DNSCache) (w : W) : Z * DNSCache :=
  CleanupExpiredAt c (now w).

End Cache.

End DNSCache.

(** ** Worker pool (workerpool.go) *)

Module WorkerPool.

Record WorkerPool := mkPool {
  size : Z;
  running : bool
}.

Record JobResult := mkJobResult {
  jrServer : string;
  jrResponses : list Response;
  jrError : option Error;
  jrDuration : Duration
}.

Definition NewWorkerPool (size : Z) : WorkerPool :=
  let size := if size <=? 0 then 1 else size in
  {| size := size; running := false |}.

Definition workerCount (wp : WorkerPool) (servers : list string) : Z :=
  if size wp >? Z.of_nat (length servers) then Z.of_nat (length servers)
  else size wp.

(** What the scheduler makes of one job.  The workers run concurrently in
    the source; here the scheduler's choices are an explicit input and the
    querier calls are taken in job order. *)
Inductive Fate :=
| Delivered                 (* processed, and the send on ResultCh won *)
| Dropped                   (* processed, but ctx.Done() won the select *)
| CancelSeen (e : CtxErr)   (* the worker saw ctx.Done() first and reported ctx.Err() *)
| Unstarted.                (* every worker had returned before the job *)

Record Schedule := mkSchedule {
  submitCancelled : option CtxErr;  (* ctx.Done() won a select while submitting *)
  fates : list Fate
}.

Section Pool.
Context {W : Type} `{!NTPQuerier W} `{!Clock W}.

Definition processJob (ctx : Ctx) (server : string) (samples : Z) (w : W)
  : JobResult * W :=
  let start := now w in
  let '((responses, err), w) := QueryMultiple ctx server samples w in
  ({| jrServer := server;
      jrResponses := responses;
      jrError := err;
      jrDuration := time_Sub (now w) start |}, w).

(** The results that reach the results channel. *)
Fixpoint worker (ctx : Ctx) (samples : Z) (jobs : list string)
    (fates : list Fate) (w : W) : list JobResult * W :=
  match jobs with
  | [] => ([], w)
  | server :: jobs =>
      match fates with
      | Delivered :: fates =>
          let '(result, w) := processJob ctx server samples w in
          let '(rest, w) := worker ctx samples jobs fates w in
          (result :: rest, w)
      | Dropped :: fates =>
          let '(_, w) := processJob ctx server samples w in
          worker ctx samples jobs fates w
      | CancelSeen e :: fates =>
          let '(rest, w) := worker ctx samples jobs fates w in
          ({| jrServer := server; jrResponses := [];
              jrError := Some (ErrContext e); jrDuration := 0 |} :: rest, w)
      | Unstarted :: fates => worker ctx samples jobs fates w
      | [] => ([], w)
      end
  end.

(** [results[result.Server] = result] for every result received. *)
Definition collect (arrived : list JobResult) : gmap string JobResult :=
  foldl (fun results result => <[jrServer result := result]> results) ∅ arrived.

Definition Execute (wp : WorkerPool) (ctx : Ctx) (servers : list string)
    (samples : Z) (sched : Schedule) (w : W)
  : (gmap string JobResult * option Error) * W :=
  if (length servers =? 0)%nat then ((∅, Some ErrNoServers), w)
  else if running wp then ((∅, Some ErrAlreadyRunning), w)
  else
    let '(arrived, w) := worker ctx samples servers (fates sched) w in
    match submitCancelled sched with
    | Some e => ((∅, Some (ErrContext e)), w)
    | None =>
        let results := collect arrived in
        if (base.size results =? 0)%nat then ((∅, Some ErrNoResults), w)
        else ((results, None), w)
    end.

Definition statsOf (samples : Z) (result : JobResult) : Stats.Statistics :=
  match jrError result with
  | Some _ =>
      (* Create empty stats with error: [&Statistics{SamplesCount: 0}] *)
      {| Stats.MedianOffset := 0; Stats.MeanOffset := 0;
         Stats.StdDevOffset := 0; Stats.Jitter := 0; Stats.Asymmetry := 0;
         Stats.SamplesCount := 0; Stats.PacketLossRatio := 0%Q |}
  | None => Stats.CalculateStatistics (jrResponses result) samples
  end.

Definition QueryAll (wp : WorkerPool) (ctx : Ctx) (servers : list string)
    (samples : Z) (sched : Schedule) (w : W)
  : (gmap string Stats.Statistics * option Error) * W :=
  let '((results, err), w) := Execute wp ctx servers samples sched w in
  match err with
  | Some e => ((∅, Some e), w)
  | None => ((statsOf samples <$> results, None), w)
  end.

Definition Size (wp : WorkerPool) : Z := size wp.

End Pool.

End WorkerPool.

(** ** Pool ([Pool] of package ntp) *)

(** A call either returns or panics (a slice bound or an index out of
    range). *)
Inductive Outcome (A : Type) :=
| Panics
| Returns (a : A).
Arguments Panics {A}.
Arguments Returns {A} a.

Module Pool.

Record Pool := mkPool {
  name : string;
  strategy : string;
  maxServers : Z;
  fallback : string;
  dnsCache : DNSCache.DNSCache;
  workerPool : option WorkerPool.WorkerPool;
  useWorkerPool : bool
}.

Record PoolResponse := mkPoolResponse {
  PoolName : string;
  Servers : list string;
  Responses : list Response;
  ActiveServers : Z;
  TotalServers : Z;
  BestOffset : Duration;
  DNSResolution : Duration
}.

Definition NewPool (name strategy : string) (maxServers : Z) (fallback : string)
  : Pool :=
  let strategy := if String.eqb strategy "" then "best_n"%string else strategy in
  let maxServers := if maxServers =? 0 then 4 else maxServers in
  {| name := name; strategy := strategy; maxServers := maxServers;
     fallback := fallback;
     dnsCache := DNSCache.NewDNSCache (DNSCache.mkConfig 0 0);
     workerPool := None; useWorkerPool := false |}.

Definition EnableWorkerPool (p : Pool) (size : Z) : Pool :=
  let size := if size <=? 0 then 5 else size in
  {| name := name p; strategy := strategy p; maxServers := maxServers p;
     fallback := fallback p; dnsCache := dnsCache p;
     workerPool := Some (WorkerPool.NewWorkerPool size);
     useWorkerPool := true |}.

Definition withDNSCache (p : Pool) (c : DNSCache.DNSCache) : Pool :=
  {| name := name p; strategy := strategy p; maxServers := maxServers p;
     fallback := fallback p; dnsCache := c;
     workerPool := workerPool p; useWorkerPool := useWorkerPool p |}.

(** [findBestOffset]: the offset of smallest absolute value, the first
    one on a tie. *)
Definition findBestOffset (responses : list Response) : Duration :=
  match responses with
  | [] => 0
  | r0 :: rest =>
      fst (foldl (fun '(best, bestAbs) resp =>
                    let abs := mathutil.AbsDuration (Offset resp) in
                    if abs <? bestAbs then (Offset resp, abs) else (best, bestAbs))
                 (Offset r0, mathutil.AbsDuration (Offset r0)) rest)
  end.

Section Pool.
Context {W : Type} `{!NTPQuerier W} `{!Clock W} `{!DNSCache.Resolver W}.

Definition Resolve (p : Pool) (ctx : Ctx) (w : W)
  : Outcome ((list string * Duration * option Error) * Pool * W) :=
  let start := now w in
  (* Use DNS cache for resolution *)
  let '((ips, err), c, w) := DNSCache.Resolve (dnsCache p) ctx (name p) w in
  let p := withDNSCache p c in
  match err with
  | Some _ =>
      (* Try fallback if configured *)
      if negb (String.eqb (fallback p) "")
      then Returns (([fallback p], time_Sub (now w) start, None), p, w)
      else Returns (([], 0, Some ErrResolvePool), p, w)
  | None =>
      let duration := time_Sub (now w) start in
      (* Limit to maxServers *)
      if Z.of_nat (length ips) >? maxServers p then
        if maxServers p <? 0 then Panics      (* ips[:n] with n < 0 *)
        else Returns ((take (Z.to_nat (maxServers p)) ips, duration, None), p, w)
      else Returns ((ips, duration, None), p, w)
  end.

Definition selectServersByStrategy (p : Pool) (servers : list string) (w : W)
  : Outcome (list string) :=
  if String.eqb (strategy p) "all" then Returns servers
  else if String.eqb (strategy p) "round_robin" then
    if (length servers =? 0)%nat then Returns []
    else
      let index := Z.rem (now w / Second) (Z.of_nat (length servers)) in
      if index <? 0 then Panics
      else
        match servers !! Z.to_nat index with
        | Some server => Returns [server]
        | None => Panics
        end
  else Returns servers.

(** The sequential loop, with the error it returns when the context is
    found done.  A querier hands out a response whenever it reports no
    error. *)
Fixpoint querySequential (p : Pool) (ctx : Ctx) (servers : list string)
    (response : PoolResponse) (w : W) : (PoolResponse * option Error) * W :=
  match servers with
  | [] => ((response, None), w)
  | server :: servers =>
      match ctx_err ctx with
      | Some e => ((response, Some (ErrContext e)), w)
      | None =>
          let '((resp, err), w) := Query ctx server w in
          match err, resp with
          | None, Some resp =>
              let response :=
                {| PoolName := PoolName response; Servers := Servers response;
                   Responses := Responses response ++ [resp];
                   ActiveServers := ActiveServers response + 1;
                   TotalServers := TotalServers response;
                   BestOffset := BestOffset response;
                   DNSResolution := DNSResolution response |} in
              (* For best_n strategy, stop after enough successful responses *)
              if String.eqb (strategy p) "best_n"
                 && (ActiveServers response >=? maxServers p)
              then ((response, None), w)
              else querySequential p ctx servers response w
          | _, _ => querySequential p ctx servers response w
          end
      end
  end.

(** Worker-pool results: the first response of every result without
    error.  The source ranges over a Go map, in no fixed order. *)
Definition collectFromResults (response : PoolResponse)
    (results : gmap string WorkerPool.JobResult) : PoolResponse :=
  foldl (fun response '(_, result) =>
           match WorkerPool.jrError result, WorkerPool.jrResponses result with
           | None, first :: _ =>
               {| PoolName := PoolName response; Servers := Servers response;
                  Responses := Responses response ++ [first];
                  ActiveServers := ActiveServers response + 1;
                  TotalServers := TotalServers response;
                  BestOffset := BestOffset response;
                  DNSResolution := DNSResolution response |}
           | _, _ => response
           end)
        response (map_to_list results).

Definition withBestOffset (response : PoolResponse) : PoolResponse :=
  if (0 <? length (Responses response))%nat
  then {| PoolName := PoolName response; Servers := Servers response;
          Responses := Responses response;
          ActiveServers := ActiveServers response;
          TotalServers := TotalServers response;
          BestOffset := findBestOffset (Responses response);
          DNSResolution := DNSResolution response |}
  else response.

Definition Query (p : Pool) (ctx : Ctx) (samples : Z)
    (sched : WorkerPool.Schedule) (w : W)
  : Outcome ((option PoolResponse * option Error) * Pool * W) :=
  (* Resolve pool DNS *)
  match Resolve p ctx w with
  | Panics => Panics
  | Returns ((_, _, Some err), p, w) => Returns ((None, Some err), p, w)
  | Returns ((servers, dnsTime, None), p, w) =>
      let response :=
        {| PoolName := name p;
           Servers := servers;
           Responses := [];
           ActiveServers := 0;
           TotalServers := Z.of_nat (length servers);
           BestOffset := 0;
           DNSResolution := dnsTime |} in
      (* Select servers based on strategy *)
      match selectServersByStrategy p servers w with
      | Panics => Panics
      | Returns selectedServers =>
          (* Use WorkerPool for parallel queries if enabled and strategy is 'all' *)
          let parallel :=
            if useWorkerPool p && String.eqb (strategy p) "all"
            then workerPool p else None in
          match parallel with
          | Some wp =>
              let '((results, err), w) :=
                WorkerPool.Execute wp ctx selectedServers samples sched w in
              let response :=
                match err with
                | Some _ => response          (* logged, not returned *)
                | None => collectFromResults response results
                end in
              Returns ((Some (withBestOffset response), None), p, w)
          | None =>
              (* Sequential query *)
              match querySequential p ctx selectedServers response w with
              | ((response, Some e), w) => Returns ((Some response, Some e), p, w)
              | ((response, None), w) =>
                  Returns ((Some (withBestOffset response), None), p, w)
              end
          end
      end
  end.

End Pool.

End Pool.

(** ** Kernel reader (kernel_linux.go) *)

Module Kernel.

(** Linux kernel time status constants. *)
Definition TIME_OK : Z := 0.
Definition TIME_INS : Z := 1.
Definition TIME_DEL : Z := 2.
Definition TIME_OOP : Z := 3.
Definition TIME_WAIT : Z := 4.
Definition TIME_ERROR : Z := 5.
Definition STA_PLL : Z := 0x0001.
Definition STA_INS : Z := 0x0010.
Definition STA_DEL : Z := 0x0020.
Definition STA_UNSYNC : Z := 0x0040.
Definition STA_PPSSIGNAL : Z := 0x0100.
Definition STA_CLOCKERR : Z := 0x1000.

(** The fields of the kernel's [struct timex] that [Read] copies. *)
Record timex := mkTimex {
  txOffset : Z;
  txFreq : Z;
  txMaxerror : Z;
  txEsterror : Z;
  txStatus : Z;                    (* int32 *)
  txConstant : Z;
  txPrecision : Z;
  txTolerance : Z;
  txTick : Z;
  txPpsfreq : Z;
  txJitter : Z;
  txShift : Z;
  txStabil : Z;
  txJitcnt : Z;
  txCalcnt : Z;
  txErrcnt : Z;
  txStbcnt : Z
}.

Record KernelTimex := mkKernelTimex {
  Offset : Duration;
  Frequency : Z;
  MaxError : Duration;
  EstError : Duration;
  Status : Z;                      (* int32 *)
  Constant : Z;
  Precision : Duration;
  Tolerance : Z;
  Tick : Z;
  PpsFreq : Z;
  PpsJitter : Z;
  Shift : Z;
  Stabil : Z;
  JitCnt : Z;
  CalCnt : Z;
  ErrCnt : Z;
  StbCnt : Z;
  SyncStatus : string;
  StatusCode : Z
}.

(** [getStatusString] converts the numeric status to a string. *)
Definition getStatusString (status : Z) : string :=
  if negb (Z.land status STA_UNSYNC =? 0) then "unsynchronized"
  else if negb (Z.land status STA_CLOCKERR =? 0) then "clock_error"
  else
    let low := Z.land status 0x7 in
    if low =? TIME_OK then "synchronized"
    else if low =? TIME_INS then "leap_insert_pending"
    else if low =? TIME_DEL then "leap_delete_pending"
    else if low =? TIME_OOP then "leap_in_progress"
    else if low =? TIME_WAIT then "leap_occurred"
    else if low =? TIME_ERROR then "error"
    else "unknown".

Definition IsSynchronized (k : KernelTimex) : bool :=
  Z.land (Status k) STA_UNSYNC =? 0.

Definition HasLeapSecond (k : KernelTimex) : bool :=
  negb (Z.land (Status k) STA_INS =? 0) || negb (Z.land (Status k) STA_DEL =? 0).

Definition IsPPSActive (k : KernelTimex) : bool :=
  negb (Z.land (Status k) STA_PPSSIGNAL =? 0).

(** The reader is its [enabled] flag.  [Read] with the outcome of the
    [adjtimex] call as an input: the structure the kernel filled in and the
    error number. *)
Definition Read (enabled : bool) (tx : timex) (errno : Z)
  : option KernelTimex * option string :=
  if negb enabled then (None, Some "kernel reader is disabled"%string)
  else if negb (errno =? 0) then (None, Some "adjtimex syscall failed"%string)
  else
    (Some {| Offset := wrap64 (txOffset tx * Microsecond);
             Frequency := txFreq tx;
             MaxError := wrap64 (txMaxerror tx * Microsecond);
             EstError := wrap64 (txEsterror tx * Microsecond);
             Status := txStatus tx;
             Constant := txConstant tx;
             Precision := wrap64 (txPrecision tx * Microsecond);
             Tolerance := txTolerance tx;
             Tick := txTick tx;
             PpsFreq := txPpsfreq tx;
             PpsJitter := txJitter tx;
             Shift := txShift tx;
             Stabil := txStabil tx;
             JitCnt := txJitcnt tx;
             CalCnt := txCalcnt tx;
             ErrCnt := txErrcnt tx;
             StbCnt := txStbcnt tx;
             SyncStatus := getStatusString (txStatus tx);
             StatusCode := txStatus tx |}, None).

End Kernel.

(** ** Collector registry (package collector) *)

Module Registry.

Section Collectors.
Context {W E : Type}.

(** A [Collector]: its name, whether it is enabled, and what collecting
    does to the world. *)
Record Collector := mkCollector {
  Name : string;
  Enabled : bool;
  Collect : Ctx -> W -> option E * W
}.

(** [CollectAll]: every enabled collector, in order; the errors are
    gathered with the collector's name ("%s: %w") and the first one is
    returned. *)
Definition collectLoop (ctx : Ctx) (collectors : list Collector) (w : W)
  : list (string * E) * W :=
  foldl (fun '(errs, w) c =>
           if negb (Enabled c) then (errs, w)
           else
             match Collect c ctx w with
             | (Some err, w) => (errs ++ [(Name c, err)], w)
             | (None, w) => (errs, w)
             end)
        ([], w) collectors.

Definition CollectAll (collectors : list Collector) (ctx : Ctx) (w : W)
  : option (string * E) * W :=
  let '(errs, w) := collectLoop ctx collectors w in
  (head errs, w).

Definition Count (collectors : list Collector) : Z :=
  Z.of_nat (length collectors).

Definition EnabledCount (collectors : list Collector) : Z :=
  foldl (fun count c => if Enabled c then count + 1 else count) 0 collectors.

(** [CommonCollector.IterateServers]: the per-server function on every
    configured server; its errors are logged and dropped. *)
Definition IterateServers (servers : list string)
    (collectFunc : Ctx -> string -> W -> option E * W) (ctx : Ctx) (w : W)
  : option E * W :=
  (None, foldl (fun w server => snd (collectFunc ctx server w)) w servers).

End Collectors.

Arguments Collector : clear implicits.

End Registry.

(** ** Quality collector (collector/quality.go) *)

Module Quality.

(** What the collector reads of the configuration. *)
Record Config := mkConfig {
  Servers : list string;
  SamplesPerServer : Z;
  AdaptiveEnabled : bool;
  AdaptiveDefaultSamples : Z;
  AdaptiveHighDriftSamples : Z;
  AdaptiveDriftThreshold : Duration;
  AdaptiveMaxDuration : Duration
}.

(** The gauges the collector sets, by server label.  A duration is emitted
    in seconds. *)
Record Metrics := mkMetrics {
  JitterSeconds : gmap string Q;
  StabilitySeconds : gmap string Q;
  AsymmetrySeconds : gmap string Q;
  SamplesCount : gmap string Q;
  PacketLossRatio : gmap string Q
}.

Definition noMetrics : Metrics := mkMetrics ∅ ∅ ∅ ∅ ∅.

Definition Seconds (d : Duration) : Q := (inject_Z d / inject_Z Second)%Q.

Inductive CollectError :=
| AdaptiveSamplingFailed (server : string) (cause : Error)
    (* "failed to adaptively sample server %s: %w" *)
| MultipleQueriesFailed (server : string) (cause : Error).
    (* "failed to query multiple samples from server %s: %w" *)

Definition update (m : Metrics) (server : string) (stats : Stats.Statistics)
  : Metrics :=
  {| JitterSeconds := <[server := Seconds (Stats.Jitter stats)]> (JitterSeconds m);
     StabilitySeconds :=
       <[server := Seconds (Stats.StdDevOffset stats)]> (StabilitySeconds m);
     AsymmetrySeconds :=
       <[server := Seconds (Stats.Asymmetry stats)]> (AsymmetrySeconds m);
     SamplesCount :=
       <[server := inject_Z (Stats.SamplesCount stats)]> (SamplesCount m);
     PacketLossRatio :=
       <[server := Stats.PacketLossRatio stats]> (PacketLossRatio m) |}.

Section Collector.
Context {W : Type} `{!NTPQuerier W} `{!Clock W}.
Variable cfg : Config.

(** The world of the collector: its metrics and the querier's world. *)
Definition collectFromServer (ctx : Ctx) (server : string) (s : Metrics * W)
  : option CollectError * (Metrics * W) :=
  let '(m, w) := s in
  (* Use adaptive sampling if enabled *)
  if AdaptiveEnabled cfg then
    let sampler :=
      Adaptive.NewAdaptiveSampler
        (Adaptive.mkConfig (AdaptiveDefaultSamples cfg)
           (AdaptiveHighDriftSamples cfg) (AdaptiveDriftThreshold cfg)
           (AdaptiveMaxDuration cfg) 0) in
    let '((responses, err), w) := Adaptive.Sample sampler ctx server w in
    match err with
    | Some e => (Some (AdaptiveSamplingFailed server e), (m, w))
    | None =>
        (* Calculate statistics with adaptive sample count *)
        let stats :=
          Stats.CalculateStatistics responses (Z.of_nat (length responses)) in
        (None, (update m server stats, w))
    end
  else
    (* Standard fixed sampling *)
    let '((responses, err), w) :=
      QueryMultiple ctx server (SamplesPerServer cfg) w in
    match err with
    | Some e => (Some (MultipleQueriesFailed server e), (m, w))
    | None =>
        let stats := Stats.CalculateStatistics responses (SamplesPerServer cfg) in
        (None, (update m server stats, w))
    end.

Definition Collect (ctx : Ctx) (s : Metrics * W)
  : option CollectError * (Metrics * W) :=
  Registry.IterateServers (Servers cfg) collectFromServer ctx s.

End Collector.

End Quality.

(** ** The steps of [Validate]

    [Validate] is a sequence of guarded updates of the verdict; the kinds
    of step are named here so that invariants can be carried along it. *)

Definition errorIf (c : bool) (e : Validator.Issue) (penalty : Q)
    (result : Validator.ValidationResult) : Validator.ValidationResult :=
  if c then Validator.addError result e penalty else result.

Definition warningIf (c : bool) (w : Validator.Issue) (penalty : Q)
    (result : Validator.ValidationResult) : Validator.ValidationResult :=
  if c then Validator.addWarning result w penalty else result.

Definition clampLow (result : Validator.ValidationResult)
  : Validator.ValidationResult :=
  if Validator.Qlt_bool (Validator.TrustScore result) 0
  then Validator.setTrustScore result 0%Q else result.

Definition clampHigh (result : Validator.ValidationResult)
  : Validator.ValidationResult :=
  if Validator.Qlt_bool 1 (Validator.TrustScore result)
  then Validator.setTrustScore result 1%Q else result.

(** The checks of [Validate] after the Kiss-of-Death check, in order. *)
Definition laterChecks (v : Validator.Validator) (resp : Response)
    (result : Validator.ValidationResult) : Validator.ValidationResult :=
  clampHigh
    (clampLow
       (warningIf (ReferenceTimeIsZero resp) Validator.ZeroReferenceTime (1 # 10)
          (errorIf (RootDispersion resp <? 0) Validator.NegativeRootDispersion (2 # 10)
             (errorIf (RootDelay resp <? 0) Validator.NegativeRootDelay (2 # 10)
                (warningIf (LeapIndicator resp =? 3) Validator.ClockNotSynchronized (2 # 10)
                   (errorIf (RTT resp <? 0) Validator.NegativeRTT (3 # 10)
                      (warningIf (RTT resp >? 10 * Second)
                         (Validator.HighRTT (RTT resp)) (1 # 10)
                         (warningIf
                            (mathutil.AbsDuration (Offset resp)
                             >? Validator.maxClockSkew v)
                            (Validator.LargeClockOffset (Offset resp)) (2 # 10)
                            result)))))))).

(** The checks of [Validate] up to and including the Kiss-of-Death check. *)
Definition firstChecks (v : Validator.Validator) (resp : Response)
  : Validator.ValidationResult :=
  errorIf (Validator.checkKissOfDeath v && IsKissOfDeath resp)
    (Validator.KissOfDeathReceived (KissCode resp)) (5 # 10)
    (errorIf (Stratum resp >? Validator.maxStratum v)
       (Validator.StratumAboveMaximum (Stratum resp) (Validator.maxStratum v)) (3 # 10)
       (errorIf (Stratum resp <? Validator.minStratum v)
          (Validator.StratumBelowMinimum (Stratum resp) (Validator.minStratum v))
          (3 # 10)
          {| Validator.Valid := true; Validator.Errors := [];
             Validator.Warnings := []; Validator.TrustScore := 1%Q |})).

(** Two invariants of the verdict along the steps: [Valid] says that no
    error was recorded, and the trust score stays under a bound. *)
Definition consistent (r : Validator.ValidationResult) : Prop :=
  Validator.Valid r = true <-> Validator.Errors r = [].

Definition score_le (q : Q) (r : Validator.ValidationResult) : Prop :=
  (Validator.TrustScore r <= q)%Q.

(** ** A scripted world (mock.go)

    [MockNTPClient] with its per-server responses, errors, delays and call
    counts, for a client on which no server is set to flap.  Time passes
    only while a query waits for its delay, and a context with a timeout is
    done once that much time has passed since the call it was made for.
    The world also carries scripted DNS answers and the log of the
    [QueryMultiple] requests it received. *)

Module Mock.

Record World := mkWorld {
  clock : Z;
  responses : gmap string Response;
  errors : gmap string Error;
  delays : gmap string Duration;
  callCounts : gmap string Z;
  hosts : gmap string (list string);
  requests : list (Ctx * string * Z)
}.

(** [m.callCounts[server]++] *)
Definition countCall (w : World) (server : string) : World :=
  {| clock := clock w;
     responses := responses w; errors := errors w; delays := delays w;
     callCounts := <[server := default 0 (callCounts w !! server) + 1]> (callCounts w);
     hosts := hosts w; requests := requests w |}.

Definition setClock (w : World) (t : Z) : World :=
  {| clock := t;
     responses := responses w; errors := errors w; delays := delays w;
     callCounts := callCounts w;
     hosts := hosts w; requests := requests w |}.

Definition logRequest (w : World) (ctx : Ctx) (server : string) (count : Z) : World :=
  {| clock := clock w;
     responses := responses w; errors := errors w; delays := delays w;
     callCounts := callCounts w;
     hosts := hosts w; requests := requests w ++ [(ctx, server, count)] |}.

(** [ctx.Err()] at time [t] for a call entered at time [entered]. *)
Fixpoint ctxErrAt (ctx : Ctx) (entered t : Z) : option CtxErr :=
  match ctx with
  | Background => None
  | Done e => Some e
  | WithTimeout parent timeout =>
      match ctxErrAt parent entered t with
      | Some e => Some e
      | None => if entered + timeout <=? t then Some DeadlineExceeded else None
      end
  end.

(** The instant at which [ctx.Done()] is closed, for a call entered at time
    [entered]; [None] when it never is. *)
Fixpoint ctxDoneAt (ctx : Ctx) (entered : Z) : option Z :=
  match ctx with
  | Background => None
  | Done _ => Some entered
  | WithTimeout parent timeout =>
      match ctxDoneAt parent entered with
      | Some t => Some (Z.min t (entered + timeout))
      | None => Some (entered + timeout)
      end
  end.

(** What the mock answers once the delay is over. *)
Definition answer (server : string) (w : World)
  : (option Response * option Error) * World :=
  match errors w !! server with
  | Some err => ((None, Some err), w)
  | None =>
      match responses w !! server with
      | Some resp => ((Some resp, None), w)
      | None => ((None, Some (ErrOther "server not configured in mock")), w)
      end
  end.

(** [Query] under a context whose timeouts count from [entered].  With a
    delay configured for the server, the query waits for the delay or for
    the end of the context, whichever comes first; a context that ends at
    the very instant the delay is over wins. *)
Definition queryAt (ctx : Ctx) (entered : Z) (server : string) (w : World)
  : (option Response * option Error) * World :=
  let w := countCall w server in
  match delays w !! server with
  | Some delay =>
      let fires := clock w + Z.max 0 delay in
      match ctxErrAt ctx entered fires with
      | Some e =>
          ((None, Some (ErrContext e)),
           setClock w (Z.max (clock w) (default (clock w) (ctxDoneAt ctx entered))))
      | None => answer server (setClock w fires)
      end
  | None => answer server w
  end.

Definition Query (ctx : Ctx) (server : string) (w : World)
  : (option Response * option Error) * World :=
  queryAt ctx (clock w) server w.

Fixpoint queryLoop (n : nat) (ctx : Ctx) (server : string) (entered : Z)
    (acc : list Response) (w : World) : (list Response * option Error) * World :=
  match n with
  | O =>
      if (length acc =? 0)%nat
      then (([], Some (ErrOther "all queries failed")), w)
      else ((acc, None), w)
  | S n =>
      match ctxErrAt ctx entered (clock w) with
      | Some e => ((acc, Some (ErrContext e)), w)
      | None =>
          match queryAt ctx entered server w with
          | ((Some resp, None), w) => queryLoop n ctx server entered (acc ++ [resp]) w
          | (_, w) => queryLoop n ctx server entered acc w
          end
      end
  end.

(** [count] is not negative wherever the mock is used here; on a negative
    count the source panics in [make], which this function does not
    show. *)
Definition QueryMultiple (ctx : Ctx) (server : string) (count : Z) (w : World)
  : (list Response * option Error) * World :=
  let w := logRequest w ctx server count in
  queryLoop (Z.to_nat count) ctx server (clock w) [] w.

#[global] Instance querier : NTPQuerier World :=
  Build_NTPQuerier World Query QueryMultiple.

#[global] Instance wallClock : Clock World := {| now := clock |}.

(** The scripted resolver, in place of the [net] package: the hosts it
    knows resolve, and a name made of digits and dots only stands for an IP
    literal (the scenarios use dotted IPv4 addresses only; [net.ParseIP]
    accepts more, IPv6 literals among them). *)
Definition isLiteral (hostname : string) : bool :=
  negb (String.eqb hostname "")
  && forallb (fun c => (Ascii.nat_of_ascii c =? 46)%nat
                       || ((48 <=? Ascii.nat_of_ascii c)%nat
                           && (Ascii.nat_of_ascii c <=? 57)%nat))
             (String.list_ascii_of_string hostname).

#[global] Instance resolver : DNSCache.Resolver World :=
  {| DNSCache.ParseIP := isLiteral;
     DNSCache.LookupHost := fun _ hostname w =>
       match hosts w !! hostname with
       | Some addrs => (inl addrs, w)
       | None => (inr (ErrOther "no such host"), w)
       end |}.

(** [SetupSuccessfulServer]: the response the mock hands out. *)
Definition successfulResponse (server : string) (offset : Duration) (stratum : Z)
  : Response :=
  {| Server := server; Offset := offset; RTT := 50 * Millisecond;
     Stratum := stratum; ReferenceTimeIsZero := false;
     RootDelay := 10 * Millisecond; RootDispersion := 5 * Millisecond;
     LeapIndicator := 0; ValidateError := None; KissCode := "" |}.

Definition NewMockNTPClient : World :=
  {| clock := 0; responses := ∅; errors := ∅; delays := ∅; callCounts := ∅;
     hosts := ∅; requests := [] |}.

Definition SetupSuccessfulServer (w : World) (server : string)
    (offset : Duration) (stratum : Z) : World :=
  {| clock := clock w;
     responses := <[server := successfulResponse server offset stratum]> (responses w);
     errors := errors w; delays := delays w; callCounts := callCounts w;
     hosts := hosts w; requests := requests w |}.

Definition SetError (w : World) (server : string) (err : Error) : World :=
  {| clock := clock w; responses := responses w;
     errors := <[server := err]> (errors w); delays := delays w;
     callCounts := callCounts w;
     hosts := hosts w; requests := requests w |}.

Definition SetDelay (w : World) (server : string) (delay : Duration) : World :=
  {| clock := clock w; responses := responses w;
     errors := errors w; delays := <[server := delay]> (delays w);
     callCounts := callCounts w;
     hosts := hosts w; requests := requests w |}.

Definition SetHost (w : World) (hostname : string) (addrs : list string) : World :=
  {| clock := clock w; responses := responses w;
     errors := errors w; delays := delays w; callCounts := callCounts w;
     hosts := <[hostname := addrs]> (hosts w); requests := requests w |}.

Definition GetCallCount (w : World) (server : string) : Z :=
  default 0 (callCounts w !! server).

End Mock.

(** * Scenario inputs

    The responses, worlds and configurations at which the properties below
    are exercised. *)

(** The same response with another offset. *)
Definition withOffset (resp : Response) (offset : Duration) : Response :=
  {| Server := Server resp; Offset := offset; RTT := RTT resp;
     Stratum := Stratum resp; ReferenceTimeIsZero := ReferenceTimeIsZero resp;
     RootDelay := RootDelay resp; RootDispersion := RootDispersion resp;
     LeapIndicator := LeapIndicator resp; ValidateError := ValidateError resp;
     KissCode := KissCode resp |}.

(** The warning of the clock-skew check. *)
Definition is_large_offset (w : Validator.Issue) : bool :=
  match w with Validator.LargeClockOffset _ => true | _ => false end.

(** A kiss-of-death reply as the wire client builds it: stratum 0, code
    "RATE". *)
Definition kodResponse : Response :=
  {| Server := "kod.example"; Offset := 0; RTT := 40 * Millisecond;
     Stratum := 0; ReferenceTimeIsZero := false;
     RootDelay := 0; RootDispersion := 0; LeapIndicator := 0;
     ValidateError := None; KissCode := "RATE" |}.

(** A healthy response whose offset is exactly one hour. *)
Definition oneHourResponse : Response :=
  {| Server := "10.0.0.1"; Offset := Hour; RTT := 40 * Millisecond;
     Stratum := 2; ReferenceTimeIsZero := false;
     RootDelay := 8 * Millisecond; RootDispersion := 4 * Millisecond;
     LeapIndicator := 0; ValidateError := None; KissCode := "" |}.

(** The world of [TestWorkerPool_QueryAllWithFailures], reduced to its bad
    server. *)
Definition badServerWorld : Mock.World :=
  Mock.SetError Mock.NewMockNTPClient "bad" (ErrOther "failure").

(** Two well-behaved servers.  In the schedule used with them, the deadline
    of the context fires while the two workers are busy, and both then take
    the [ctx.Done()] branch of their select: no result is sent. *)
Definition twoServerWorld : Mock.World :=
  Mock.SetupSuccessfulServer
    (Mock.SetupSuccessfulServer Mock.NewMockNTPClient "server1" (5 * Millisecond) 2)
    "server2" (10 * Millisecond) 2.

(** A cache holding an entry for "pool.example" that expired at time 5, in a
    world where the name no longer resolves and the clock reads 10. *)
Definition staleCache : DNSCache.DNSCache :=
  {| DNSCache.cache :=
       {[ "pool.example"%string :=
            DNSCache.mkEntry ["192.0.2.7"%string] 5 (5 * Minute) 0 ]};
     DNSCache.minTTL := 5 * Minute;
     DNSCache.maxTTL := 60 * Minute |}.

Definition lateWorld : Mock.World :=
  {| Mock.clock := 10; Mock.responses := ∅; Mock.errors := ∅;
     Mock.delays := ∅; Mock.callCounts := ∅; Mock.hosts := ∅;
     Mock.requests := [] |}.

(** A pool name that resolves to six addresses, with the default limit of
    four servers. *)
Definition sixAddresses : list string :=
  ["192.0.2.1"; "192.0.2.2"; "192.0.2.3"; "192.0.2.4"; "192.0.2.5"; "192.0.2.6"]%string.

Definition poolWorld : Mock.World :=
  Mock.SetHost
    (foldl (fun w addr => Mock.SetupSuccessfulServer w addr (3 * Millisecond) 2)
           Mock.NewMockNTPClient sixAddresses)
    "pool.example" sixAddresses.

Definition examplePool : Pool.Pool := Pool.NewPool "pool.example" "best_n" 0 "".

Definition noSchedule : WorkerPool.Schedule := WorkerPool.mkSchedule None [].

(** The configuration of the scenario: 3 samples, 10 on drift, 50 ms
    threshold, 30 s budget. *)
Definition driftConfig : Adaptive.AdaptiveSamplingConfig :=
  Adaptive.NewAdaptiveSampler
    (Adaptive.mkConfig 3 10 (50 * Millisecond) (30 * Second) 0).

(** A server that is 80 ms off and answers after [d] per query. *)
Definition driftWorld (d : Duration) : Mock.World :=
  Mock.SetDelay
    (Mock.SetupSuccessfulServer Mock.NewMockNTPClient "drift.example"
       (80 * Millisecond) 2) "drift.example" d.

(** The scenario: with 100 ms per query, the first batch of 3 (median 80 ms)
    takes 300 ms; the sampler then asks for 7 more under a 29.7 s timeout,
    the server is queried 10 times in all and 10 samples are returned. *)
Definition scenarioWorld : Mock.World := driftWorld (100 * Millisecond).

Definition firstCall : (list Response * option Error) * Mock.World :=
  QueryMultiple Background "drift.example" 3 scenarioWorld.

Definition secondCall : (list Response * option Error) * Mock.World :=
  QueryMultiple (WithTimeout Background (30 * Second - 300 * Millisecond))
    "drift.example" 7 (snd firstCall).

(** The scenario on the scripted world: "bad.example" fails every query,
    each attempt takes one second; the breakers trip at a failure ratio of
    0.6, stay open for 30 s and count over intervals of 60 s. *)
Definition badExampleWorld : Mock.World :=
  Mock.SetDelay
    (Mock.SetError Mock.NewMockNTPClient "bad.example" (ErrOther "network error"))
    "bad.example" (1 * Second).

Definition tripClient : CircuitBreakerClient.CircuitBreakerClient :=
  CircuitBreakerClient.NewCircuitBreakerClient
    (CircuitBreakerClient.NewCircuitBreakerConfigWithThreshold
       3 (60 * Second) (30 * Second) (6 # 10)).

Definition afterAttempts (n : nat)
  : CircuitBreakerClient.CircuitBreakerClient * Mock.World :=
  Nat.iter n (fun s => snd (CircuitBreakerClient.Query Background "bad.example" s))
           (tripClient, badExampleWorld).

(** * Properties *)

(** ** Statistics *)

Lemma wrap64_id (x : Z) : int_min <= x <= int_max -> wrap64 x = x.
Proof.
  unfold wrap64, int_min, int_max. intros Hx.
  rewrite Z.mod_small; lia.
Qed.

(** The wrapping absolute value is the absolute value, except at the
    smallest duration; it never exceeds it. *)
Lemma AbsDuration_abs (d : Duration) :
  int_min < d -> mathutil.AbsDuration d = Z.abs d.
Proof.
  intros Hd. unfold mathutil.AbsDuration.
  destruct (Z.ltb_spec d 0) as [Hneg|Hpos].
  - rewrite wrap64_id by (unfold int_min, int_max in *; lia). lia.
  - lia.
Qed.

Lemma AbsDuration_le_abs (d : Duration) : mathutil.AbsDuration d <= Z.abs d.
Proof.
  unfold mathutil.AbsDuration.
  destruct (Z.ltb_spec d 0) as [Hneg|Hpos]; [|lia].
  unfold wrap64.
  pose proof (Z.mod_le (- d + 2 ^ 63) (2 ^ 64)). lia.
Qed.

Lemma calculatePacketLoss_spec (received total : Z) :
  0 <= received -> int_min + received <= total <= int_max ->
  Stats.calculatePacketLoss received total = Stats.spec_packet_loss received total.
Proof.
  intros Hr Ht. unfold Stats.calculatePacketLoss, Stats.spec_packet_loss.
  destruct (total =? 0); [reflexivity|].
  rewrite wrap64_id by (unfold int_min, int_max in *; lia).
  destruct (Z.ltb_spec (total - received) 0).
  - now rewrite Z.max_l by lia.
  - now rewrite Z.max_r by lia.
Qed.

Lemma spec_packet_loss_range (received requested : Z) :
  0 <= received ->
  (0 <= Stats.spec_packet_loss received requested <= 1)%Q.
Proof.
  intros Hr. unfold Stats.spec_packet_loss.
  destruct (Z.eqb_spec requested 0) as [->|Hne]; [split; discriminate|].
  destruct requested as [|p|p]; [congruence| |].
  - unfold Qle, Qdiv, Qmult, Qinv, inject_Z; simpl Qnum; simpl Qden. split; lia.
  - rewrite Z.max_l by lia.
    unfold Qle, Qdiv, Qmult, Qinv, inject_Z; simpl. split; lia.
Qed.

(** C1. For a requested count that is not so low that [requested - received]
    leaves the 64-bit range, [CalculateStatistics] returns, for an empty
    batch, the all-zero statistics with packet loss 1; for a non-empty
    batch, packet loss [max(0, requested - received) / requested], and 0
    when nothing was requested; and the packet loss lies in [0,1]. *)
Theorem CalculateStatistics_packet_loss (responses : list Response) (requested : Z) :
  int_min + Z.of_nat (length responses) <= requested <= int_max ->
  let s := Stats.CalculateStatistics responses requested in
  (responses = [] -> s = Stats.mkStatistics 0 0 0 0 0 0 1%Q)
  /\ (responses <> [] ->
      Stats.SamplesCount s = Z.of_nat (length responses)
      /\ Stats.PacketLossRatio s
         = Stats.spec_packet_loss (Z.of_nat (length responses)) requested)
  /\ (0 <= Stats.PacketLossRatio s <= 1)%Q.
Proof.
  intros Hreq s. subst s.
  destruct responses as [|r rs].
  - split; [reflexivity|]. split; [congruence|]. simpl. split; discriminate.
  - assert (Hpl : Stats.PacketLossRatio (Stats.CalculateStatistics (r :: rs) requested)
                  = Stats.spec_packet_loss (Z.of_nat (length (r :: rs))) requested).
    { unfold Stats.CalculateStatistics. cbn [Stats.PacketLossRatio].
      apply calculatePacketLoss_spec; lia. }
    split; [discriminate|]. split.
    + intros _. split; [reflexivity|exact Hpl].
    + rewrite Hpl. apply spec_packet_loss_range. lia.
Qed.

Lemma CalculateStatistics_packet_loss_witness :
  let r := Mock.successfulResponse "a" (3 * Millisecond) 2 in
  Stats.PacketLossRatio (Stats.CalculateStatistics [r; r; r] 5)
  = Stats.spec_packet_loss 3 5.
Proof.
  intros r.
  assert (H : int_min + Z.of_nat (length [r; r; r]) <= 5 <= int_max)
    by (vm_compute; split; discriminate).
  destruct (CalculateStatistics_packet_loss [r; r; r] 5 H) as (_ & Hne & _).
  apply Hne. discriminate.
Defined.

(** ** Worker pool: [QueryAll] *)

(** C2. [QueryAll] on a server whose job ended in an error: the server is
    mapped to the zero statistics, whose packet loss is 0, where
    [CalculateStatistics] on the same (empty) batch reports 1. *)
Theorem QueryAll_failed_server_statistics :
  let '((stats, err), _) :=
    WorkerPool.QueryAll (WorkerPool.NewWorkerPool 2) Background ["bad"] 10
      (WorkerPool.mkSchedule None [WorkerPool.Delivered]) badServerWorld in
  err = None
  /\ stats !! "bad" = Some Stats.zero
  /\ (Stats.PacketLossRatio Stats.zero == 0)%Q
  /\ ~ (Stats.PacketLossRatio Stats.zero == 1)%Q
  /\ (Stats.PacketLossRatio (Stats.CalculateStatistics [] 10) == 1)%Q.
Proof.
  vm_compute. repeat split; try reflexivity; discriminate.
Qed.

(** Whatever the schedule, a result carrying an error is turned into the
    zero statistics. *)
Lemma statsOf_error (samples : Z) (result : WorkerPool.JobResult) (e : Error) :
  WorkerPool.jrError result = Some e ->
  WorkerPool.statsOf samples result = Stats.zero.
Proof. intros H. unfold WorkerPool.statsOf. now rewrite H. Qed.

(** ** Validator *)

(** C4. A kiss-of-death reply (stratum 0, code "RATE") is labelled
    [invalid_stratum] by [GetSuspicionReason], where the ordered list of the
    specification yields [kod_received]; [ValidateStratum], in the same
    file, accepts stratum 0 with a kiss code. *)
Theorem GetSuspicionReason_kod_response :
  Stratum kodResponse = 0
  /\ IsKissOfDeath kodResponse = true
  /\ Validator.spec_GetSuspicionReason Validator.NewValidator kodResponse
     = "kod_received"%string
  /\ Validator.GetSuspicionReason Validator.NewValidator kodResponse
     = "invalid_stratum"%string
  /\ Validator.ValidateStratum (Stratum kodResponse) (KissCode kodResponse) = None.
Proof. repeat split. Qed.

(** [GetSuspicionReason] answers [invalid_stratum] for every response of
    stratum 0; on every other response it returns the first matching tag of
    the specification's ordered list. *)
Lemma GetSuspicionReason_first_match (resp : Response) :
  int_min < Offset resp ->
  Validator.GetSuspicionReason Validator.NewValidator resp
  = (if Stratum resp =? 0 then "invalid_stratum"%string
     else Validator.spec_GetSuspicionReason Validator.NewValidator resp).
Proof.
  intros Hoff.
  unfold Validator.GetSuspicionReason, Validator.spec_GetSuspicionReason.
  rewrite (AbsDuration_abs _ Hoff).
  cbn [Validator.maxStratum Validator.maxClockSkew Validator.NewValidator].
  destruct (Stratum resp =? 0); [reflexivity|].
  cbn [andb]. change (1 * Hour) with Hour. reflexivity.
Qed.

(** The branch for kiss codes is reached only by responses that carry a kiss
    code with a stratum between 1 and 15. *)
Lemma GetSuspicionReason_kod_received (resp : Response) :
  0 <= Stratum resp ->
  Validator.GetSuspicionReason Validator.NewValidator resp = "kod_received"%string ->
  1 <= Stratum resp <= 15.
Proof.
  unfold Validator.GetSuspicionReason.
  cbn [Validator.maxStratum Validator.NewValidator].
  destruct (Z.eqb_spec (Stratum resp) 0); [discriminate|].
  destruct (Z.gtb_spec (Stratum resp) 15); [discriminate|].
  intros Hs _. lia.
Qed.

(** C9, as stated, fails: at exactly one hour no warning is emitted and
    nothing is deducted. *)
Lemma Validate_one_hour_counterexample :
  mathutil.AbsDuration (Offset oneHourResponse) = Hour
  /\ Validator.has_large_offset_warning
       (Validator.Validate Validator.NewValidator oneHourResponse) = false
  /\ Validator.Warnings
       (Validator.Validate Validator.NewValidator oneHourResponse) = []
  /\ (Validator.TrustScore
        (Validator.Validate Validator.NewValidator oneHourResponse) == 1)%Q.
Proof. repeat split. Qed.

(** How the steps of [Validate] act on the presence of the warning. *)

Lemma warned_addError r e p :
  Validator.has_large_offset_warning (Validator.addError r e p)
  = Validator.has_large_offset_warning r.
Proof. reflexivity. Qed.

Lemma warned_addWarning r w p :
  Validator.has_large_offset_warning (Validator.addWarning r w p)
  = Validator.has_large_offset_warning r || is_large_offset w.
Proof.
  unfold Validator.has_large_offset_warning, Validator.addWarning.
  cbn [Validator.Warnings]. rewrite existsb_app. cbn [existsb].
  now rewrite orb_false_r.
Qed.

Lemma warned_setTrustScore r t :
  Validator.has_large_offset_warning (Validator.setTrustScore r t)
  = Validator.has_large_offset_warning r.
Proof. reflexivity. Qed.

Lemma warned_if (c : bool) r1 r2 :
  Validator.has_large_offset_warning (if c then r1 else r2)
  = if c then Validator.has_large_offset_warning r1
    else Validator.has_large_offset_warning r2.
Proof. now destruct c. Qed.

Create Rewrite HintDb warned.
#[local] Hint Rewrite warned_if warned_addError warned_addWarning
  warned_setTrustScore : warned.

Lemma if_same (c : bool) (b : bool) : (if c then b else b) = b.
Proof. now destruct c. Qed.

(** The warning is present exactly when the clock-skew check fires. *)
Lemma warned_Validate (v : Validator.Validator) (resp : Response) :
  Validator.has_large_offset_warning (Validator.Validate v resp)
  = (mathutil.AbsDuration (Offset resp) >? Validator.maxClockSkew v).
Proof.
  unfold Validator.Validate. cbv zeta.
  autorewrite with warned. cbn [is_large_offset].
  change (Validator.has_large_offset_warning
            {| Validator.Valid := true; Validator.Errors := [];
               Validator.Warnings := []; Validator.TrustScore := 1 |})
    with false.
  rewrite !if_same. cbn [orb].
  rewrite !orb_false_r, !if_same.
  now destruct (mathutil.AbsDuration (Offset resp) >? Validator.maxClockSkew v).
Qed.

(** The verdict reads the offset only in the clock-skew check. *)
Lemma Validate_small_offsets (resp : Response) (o1 o2 : Duration) :
  (mathutil.AbsDuration o1 >? Hour) = false ->
  (mathutil.AbsDuration o2 >? Hour) = false ->
  Validator.Validate Validator.NewValidator (withOffset resp o1)
  = Validator.Validate Validator.NewValidator (withOffset resp o2).
Proof.
  intros H1 H2. unfold Validator.Validate.
  cbn [Validator.maxClockSkew Validator.NewValidator Offset withOffset
       Stratum RTT LeapIndicator RootDelay RootDispersion ReferenceTimeIsZero
       KissCode IsKissOfDeath].
  change (1 * Hour) with Hour. rewrite H1, H2. reflexivity.
Qed.

Lemma withOffset_same (resp : Response) : withOffset resp (Offset resp) = resp.
Proof. now destruct resp. Qed.

(** C9, amended. For a response whose |offset| is exactly one hour,
    [Validate] emits no large-clock-offset warning and deducts nothing for
    the offset: the verdict is that of the same response with offset 0, so
    the offset leaves [Valid] as it is.  The warning needs |offset| > 1 h. *)
Theorem Validate_offset_one_hour (resp : Response) :
  Z.abs (Offset resp) = Hour ->
  Validator.has_large_offset_warning
    (Validator.Validate Validator.NewValidator resp) = false
  /\ Validator.Validate Validator.NewValidator resp
     = Validator.Validate Validator.NewValidator (withOffset resp 0).
Proof.
  intros Habs.
  assert (Hwrap : mathutil.AbsDuration (Offset resp) = Hour).
  { rewrite AbsDuration_abs; [exact Habs|].
    assert (Hour = 3600000000000) by reflexivity. unfold int_min. lia. }
  assert (Heq : Validator.Validate Validator.NewValidator resp
                = Validator.Validate Validator.NewValidator (withOffset resp 0)).
  { rewrite <- (withOffset_same resp) at 1.
    apply Validate_small_offsets; [rewrite Hwrap|]; reflexivity. }
  split; [|exact Heq].
  rewrite warned_Validate. rewrite Hwrap. reflexivity.
Qed.

Lemma Validate_offset_one_hour_witness :
  Validator.has_large_offset_warning
    (Validator.Validate Validator.NewValidator oneHourResponse) = false
  /\ Validator.Valid (Validator.Validate Validator.NewValidator oneHourResponse)
     = true.
Proof.
  destruct (Validate_offset_one_hour oneHourResponse eq_refl) as [Hw Hv].
  split; [exact Hw|]. rewrite Hv. reflexivity.
Defined.

(** ** Coherence *)

Section Coherence.
Local Open Scope R_scope.

Lemma exp_nonpos_le_1 (x : R) : x <= 0 -> exp x <= 1.
Proof.
  intros [Hlt | ->].
  - left. rewrite <- exp_0. now apply exp_increasing.
  - right. apply exp_0.
Qed.

(** Past the last knot the raw score is already within [0,1]. *)
Lemma poor_score_clamped (d : R) :
  0 <= d -> Hybrid.clamp01 (0.5 * exp (- 5 * d)) = 0.5 * exp (- 5 * d).
Proof.
  intros Hd. unfold Hybrid.clamp01.
  pose proof (exp_pos (- 5 * d)) as Hpos.
  assert (Hle : exp (- 5 * d) <= 1) by (apply exp_nonpos_le_1; lra).
  rewrite Rmin_right by lra. rewrite Rmax_right by lra. reflexivity.
Qed.

(** C5. [calculateCoherence a b] is the piecewise scale of the
    specification at [d = |a - b|], and [calculateCoherence x x = 1]. *)
Theorem calculateCoherence_piecewise :
  (forall a b : R,
      Hybrid.calculateCoherence a b = Hybrid.spec_coherence (Rabs (a - b)))
  /\ (forall x : R, Hybrid.calculateCoherence x x = 1).
Proof.
  split.
  - intros a b. unfold Hybrid.calculateCoherence, Hybrid.spec_coherence.
    cbv zeta. set (d := Rabs (a - b)).
    assert (Hd : 0 <= d) by apply Rabs_pos.
    unfold Hybrid.perfectThreshold, Hybrid.excellentThreshold,
      Hybrid.goodThreshold, Hybrid.acceptableThreshold, Hybrid.linear.
    destruct (Rlt_dec d 0.001); [reflexivity|].
    destruct (Rlt_dec d 0.005); [lra|].
    destruct (Rlt_dec d 0.010); [lra|].
    destruct (Rlt_dec d 0.050); [lra|].
    rewrite poor_score_clamped by exact Hd.
    replace (- d * 5) with (- 5 * d) by ring.
    pose proof (exp_pos (- 5 * d)).
    destruct (Rlt_dec (0.5 * exp (- 5 * d)) 0); [lra|reflexivity].
  - intros x. unfold Hybrid.calculateCoherence. cbv zeta.
    replace (x - x) with 0 by ring. rewrite Rabs_R0.
    unfold Hybrid.perfectThreshold.
    destruct (Rlt_dec 0 0.001); [lra|lra].
Qed.

(** The knots: the scale is continuous at 1 ms, 5 ms and 10 ms, with the
    values 1, 0.9 and 0.7. *)
Lemma calculateCoherence_knots :
  Hybrid.calculateCoherence 0.001 0 = 1
  /\ Hybrid.calculateCoherence 0.005 0 = 0.9
  /\ Hybrid.calculateCoherence 0.010 0 = 0.7.
Proof.
  unfold Hybrid.calculateCoherence. cbv zeta.
  unfold Hybrid.perfectThreshold, Hybrid.excellentThreshold,
    Hybrid.goodThreshold, Hybrid.acceptableThreshold.
  repeat split.
  - replace (0.001 - 0) with 0.001 by ring. rewrite Rabs_pos_eq by lra.
    destruct (Rlt_dec 0.001 0.001); [lra|].
    destruct (Rlt_dec 0.001 0.005); [lra|lra].
  - replace (0.005 - 0) with 0.005 by ring. rewrite Rabs_pos_eq by lra.
    destruct (Rlt_dec 0.005 0.001); [lra|].
    destruct (Rlt_dec 0.005 0.005); [lra|].
    destruct (Rlt_dec 0.005 0.010); [lra|lra].
  - replace (0.010 - 0) with 0.010 by ring. rewrite Rabs_pos_eq by lra.
    destruct (Rlt_dec 0.010 0.001); [lra|].
    destruct (Rlt_dec 0.010 0.005); [lra|].
    destruct (Rlt_dec 0.010 0.010); [lra|].
    destruct (Rlt_dec 0.010 0.050); [lra|lra].
Qed.

End Coherence.

(** ** DNS cache *)

Section DNSCacheProperties.
Context {W : Type} `{!DNSCache.Resolver W} `{!Clock W}.

(** A fresh entry answers from the cache: no resolution, no change. *)
Lemma Resolve_hit (c : DNSCache.DNSCache) (ctx : Ctx) (hostname : string)
    (w : W) (e : DNSCache.DNSCacheEntry) :
  DNSCache.ParseIP hostname = false ->
  DNSCache.cache c !! hostname = Some e ->
  now w < DNSCache.ExpiresAt e ->
  DNSCache.Resolve c ctx hostname w = ((DNSCache.IPs e, None), c, w).
Proof.
  intros Hip He Hfresh. unfold DNSCache.Resolve. rewrite Hip, He. cbv zeta.
  destruct (Z.ltb_spec (now w) (DNSCache.ExpiresAt e)); [reflexivity|lia].
Qed.

(** C8. When the resolution of a host name fails: with an entry for the
    name in the cache (an expired one, or the resolution would not have been
    tried), [Resolve] increments the entry's error count and returns its
    stale addresses without error; with no entry, it returns the resolution
    error and leaves the cache as it is. *)
Theorem Resolve_stale_on_error (c : DNSCache.DNSCache) (ctx : Ctx)
    (hostname : string) (w w' : W) (err : Error) :
  DNSCache.ParseIP hostname = false ->
  DNSCache.resolveWithTimeout ctx hostname w = (inr err, w') ->
  (forall e : DNSCache.DNSCacheEntry,
      DNSCache.cache c !! hostname = Some e ->
      DNSCache.ExpiresAt e <= now w ->
      0 <= DNSCache.ErrorCount e < int_max ->
      DNSCache.Resolve c ctx hostname w
      = ((DNSCache.IPs e, None),
         DNSCache.withCache c
           (<[hostname := DNSCache.mkEntry (DNSCache.IPs e) (DNSCache.ExpiresAt e)
                            (DNSCache.TTL e) (DNSCache.ErrorCount e + 1)]>
              (DNSCache.cache c)),
         w'))
  /\ (DNSCache.cache c !! hostname = None ->
      DNSCache.Resolve c ctx hostname w = (([], Some err), c, w')).
Proof.
  intros Hip Hfail. split.
  - intros e He Hexp Hcount.
    unfold DNSCache.Resolve. rewrite Hip, He. cbv zeta.
    destruct (Z.ltb_spec (now w) (DNSCache.ExpiresAt e)); [lia|].
    rewrite Hfail.
    rewrite wrap64_id by (unfold int_min, int_max in *; lia).
    reflexivity.
  - intros Hnone. unfold DNSCache.Resolve. rewrite Hip, Hnone. cbv zeta.
    now rewrite Hfail.
Qed.

End DNSCacheProperties.

Lemma Resolve_stale_on_error_witness :
  (let '((ips, err), c', _) :=
     DNSCache.Resolve staleCache Background "pool.example" lateWorld in
   ips = ["192.0.2.7"%string] /\ err = None
   /\ DNSCache.ErrorCount <$> (DNSCache.cache c' !! "pool.example"%string) = Some 1)
  /\ DNSCache.Resolve (DNSCache.NewDNSCache (DNSCache.mkConfig 0 0)) Background
       "pool.example" lateWorld
     = (([], Some (ErrOther "no such host")),
        DNSCache.NewDNSCache (DNSCache.mkConfig 0 0), lateWorld).
Proof.
  assert (Hip : DNSCache.ParseIP "pool.example" = false) by reflexivity.
  assert (Hfail : DNSCache.resolveWithTimeout Background "pool.example" lateWorld
                  = (inr (ErrOther "no such host"), lateWorld)) by reflexivity.
  split.
  - destruct (Resolve_stale_on_error staleCache Background "pool.example"
                lateWorld lateWorld (ErrOther "no such host") Hip Hfail)
      as [Hstale _].
    rewrite (Hstale (DNSCache.mkEntry ["192.0.2.7"%string] 5 (5 * Minute) 0)).
    + cbn [DNSCache.cache DNSCache.withCache]. rewrite lookup_insert_eq.
      repeat split.
    + reflexivity.
    + cbn. lia.
    + vm_compute. split; [discriminate|reflexivity].
  - destruct (Resolve_stale_on_error (DNSCache.NewDNSCache (DNSCache.mkConfig 0 0))
                Background "pool.example" lateWorld lateWorld
                (ErrOther "no such host") Hip Hfail) as [_ Hmiss].
    apply Hmiss. reflexivity.
Defined.

(** ** Worker pool: [Execute] *)

Section WorkerPoolProperties.
Context {W : Type} `{!NTPQuerier W} `{!Clock W}.

Lemma collect_snoc (arrived : list WorkerPool.JobResult) (r : WorkerPool.JobResult) :
  WorkerPool.collect (arrived ++ [r])
  = <[WorkerPool.jrServer r := r]> (WorkerPool.collect arrived).
Proof. unfold WorkerPool.collect. now rewrite foldl_app. Qed.

(** Nothing received, nothing collected; anything received is kept. *)
Lemma collect_empty_iff (arrived : list WorkerPool.JobResult) :
  WorkerPool.collect arrived = ∅ <-> arrived = [].
Proof.
  split; [|now intros ->].
  destruct arrived as [|r0 rest] using rev_ind; [reflexivity|].
  rewrite collect_snoc. intros H.
  exfalso. exact (insert_non_empty _ _ _ H).
Qed.

(** C10. On a non-empty server list [Execute] returns either a non-empty
    result map and no error, or an error and no map; when the pool was
    free, the submission was not interrupted and no job result reached
    the collector, the error is "no results collected". *)
Theorem Execute_results_or_error (wp : WorkerPool.WorkerPool) (ctx : Ctx)
    (servers : list string) (samples : Z) (sched : WorkerPool.Schedule) (w : W) :
  servers <> [] ->
  let results := fst (fst (WorkerPool.Execute wp ctx servers samples sched w)) in
  let err := snd (fst (WorkerPool.Execute wp ctx servers samples sched w)) in
  ((err = None /\ results <> ∅) \/ (exists e, err = Some e /\ results = ∅))
  /\ (WorkerPool.running wp = false ->
      WorkerPool.submitCancelled sched = None ->
      fst (WorkerPool.worker ctx samples servers (WorkerPool.fates sched) w) = [] ->
      err = Some ErrNoResults).
Proof.
  intros Hne results err. subst results err.
  unfold WorkerPool.Execute.
  destruct servers as [|s0 rest]; [congruence|]. cbn [length Nat.eqb].
  destruct (WorkerPool.running wp).
  { split; [right; eauto|discriminate]. }
  destruct (WorkerPool.worker ctx samples (s0 :: rest) (WorkerPool.fates sched) w)
    as [arrived w1] eqn:Hworker.
  destruct (WorkerPool.submitCancelled sched) as [e|].
  { split; [right; eauto|discriminate]. }
  destruct (Nat.eqb_spec (size (WorkerPool.collect arrived)) 0) as [Hz|Hnz];
    cbn [fst snd].
  - split; [right; eauto|reflexivity].
  - split.
    + left. split; [reflexivity|]. intros Hempty. apply Hnz.
      rewrite Hempty. apply map_size_empty.
    + intros _ _ Harr. cbn in Harr. subst arrived. exfalso. apply Hnz.
      apply map_size_empty.
Qed.

End WorkerPoolProperties.

Lemma Execute_results_or_error_witness :
  snd (fst (WorkerPool.Execute (WorkerPool.NewWorkerPool 2)
              (WithTimeout Background (1 * Second))
              ["server1"; "server2"]%string 3
              (WorkerPool.mkSchedule None [WorkerPool.Dropped; WorkerPool.Dropped])
              twoServerWorld))
  = Some ErrNoResults.
Proof.
  assert (Hne : ["server1"; "server2"]%string <> []) by discriminate.
  destruct (Execute_results_or_error (WorkerPool.NewWorkerPool 2)
              (WithTimeout Background (1 * Second))
              ["server1"; "server2"]%string 3
              (WorkerPool.mkSchedule None [WorkerPool.Dropped; WorkerPool.Dropped])
              twoServerWorld Hne) as [_ Hnone].
  apply Hnone; reflexivity.
Defined.

(** ** Pool *)

Section PoolProperties.
Context {W : Type} `{!NTPQuerier W} `{!Clock W} `{!DNSCache.Resolver W}.

(** Querying never touches the total set when the response was built. *)

Lemma querySequential_TotalServers (p : Pool.Pool) (ctx : Ctx)
    (servers : list string) (response : Pool.PoolResponse) (w : W) :
  Pool.TotalServers (fst (fst (Pool.querySequential p ctx servers response w)))
  = Pool.TotalServers response.
Proof.
  revert response w. induction servers as [|server servers IH];
    intros response w; cbn [Pool.querySequential]; [reflexivity|].
  destruct (ctx_err ctx); [reflexivity|].
  destruct (Query ctx server w) as [[resp err] w1].
  destruct err as [e|]; [apply IH|].
  destruct resp as [resp|]; [|apply IH].
  match goal with |- context [if ?c then _ else _] => destruct c end;
    [reflexivity|]. now rewrite IH.
Qed.

Lemma collectFromResults_TotalServers (response : Pool.PoolResponse)
    (results : gmap string WorkerPool.JobResult) :
  Pool.TotalServers (Pool.collectFromResults response results)
  = Pool.TotalServers response.
Proof.
  unfold Pool.collectFromResults.
  generalize (map_to_list results). intros l. revert response.
  induction l as [|[k result] l IH]; intros response; [reflexivity|].
  cbn [foldl]. rewrite IH.
  destruct (WorkerPool.jrError result); [reflexivity|].
  now destruct (WorkerPool.jrResponses result).
Qed.

Lemma withBestOffset_TotalServers (response : Pool.PoolResponse) :
  Pool.TotalServers (Pool.withBestOffset response) = Pool.TotalServers response.
Proof.
  unfold Pool.withBestOffset.
  now destruct (0 <? length (Pool.Responses response))%nat.
Qed.

(** What [Resolve] hands to [Query]: the addresses the name resolved to,
    cut to [maxServers], or the fallback alone. *)
Lemma Resolve_length (p p' : Pool.Pool) (ctx : Ctx) (w w' : W)
    (servers : list string) (d : Duration) :
  Pool.Resolve p ctx w = Returns ((servers, d, None), p', w') ->
  match DNSCache.Resolve (Pool.dnsCache p) ctx (Pool.name p) w with
  | ((ips, None), _, _) =>
      Z.of_nat (length servers) = Z.min (Z.of_nat (length ips)) (Pool.maxServers p)
  | ((_, Some _), _, _) => servers = [Pool.fallback p]
  end.
Proof.
  unfold Pool.Resolve. cbv zeta.
  destruct (DNSCache.Resolve (Pool.dnsCache p) ctx (Pool.name p) w)
    as [[[ips err] c] w1].
  destruct err as [e|].
  - cbn [Pool.fallback Pool.withDNSCache].
    destruct (negb (String.eqb (Pool.fallback p) "")); intros HR; now inversion HR.
  - cbn [Pool.maxServers Pool.withDNSCache].
    destruct (Z.gtb_spec (Z.of_nat (length ips)) (Pool.maxServers p)) as [Hgt|Hle].
    + destruct (Z.ltb_spec (Pool.maxServers p) 0); [discriminate|].
      intros HR; inversion HR; subst. rewrite length_take. lia.
    + intros HR; inversion HR; subst. lia.
Qed.

(** C7, amended. On a successful pool query, [TotalServers] is the length
    of the list [Resolve] returned: the number of resolved addresses cut
    to [max_servers] (the smaller of the two), or 1 when the fallback
    stands in for a failed resolution. *)
Theorem Query_TotalServers (p p' : Pool.Pool) (ctx : Ctx) (samples : Z)
    (sched : WorkerPool.Schedule) (w w' : W) (response : Pool.PoolResponse) :
  Pool.Query p ctx samples sched w = Returns ((Some response, None), p', w') ->
  match DNSCache.Resolve (Pool.dnsCache p) ctx (Pool.name p) w with
  | ((ips, None), _, _) =>
      Pool.TotalServers response
      = Z.min (Z.of_nat (length ips)) (Pool.maxServers p)
  | ((_, Some _), _, _) => Pool.TotalServers response = 1
  end.
Proof.
  unfold Pool.Query.
  destruct (Pool.Resolve p ctx w) as [|[[[[servers d] err] p1] w1]] eqn:Hres;
    [discriminate|].
  destruct err as [e|]; [intros HR; inversion HR|].
  assert (Hp1 : Pool.strategy p1 = Pool.strategy p
                /\ Pool.maxServers p1 = Pool.maxServers p).
  { clear -Hres. unfold Pool.Resolve in Hres. cbv zeta in Hres.
    destruct (DNSCache.Resolve _ _ _ _) as [[[ips err] c] w0].
    destruct err; repeat match type of Hres with
                    | context [if ?c then _ else _] => destruct c
                    end; inversion Hres; subst; now split. }
  pose proof (Resolve_length _ _ _ _ _ _ _ Hres) as Hlen.
  assert (Htotal : Pool.TotalServers response = Z.of_nat (length servers) ->
                   match DNSCache.Resolve (Pool.dnsCache p) ctx (Pool.name p) w with
                   | ((ips, None), _, _) =>
                       Pool.TotalServers response
                       = Z.min (Z.of_nat (length ips)) (Pool.maxServers p)
                   | ((_, Some _), _, _) => Pool.TotalServers response = 1
                   end).
  { intros Ht.
    destruct (DNSCache.Resolve _ _ _ _) as [[[ips err] c] w0].
    destruct err; [subst servers; now rewrite Ht|congruence]. }
  clear Hlen Hres. intros HQ. apply Htotal. clear Htotal. cbv zeta in HQ.
  destruct (Pool.selectServersByStrategy p1 servers w1) as [|selected];
    [discriminate|].
  match type of HQ with
  | context [match ?x with Some _ => _ | None => _ end] => destruct x as [wp|]
  end.
  - destruct (WorkerPool.Execute wp ctx selected samples sched w1)
      as [[results err] w2].
    inversion HQ; subst. rewrite withBestOffset_TotalServers.
    destruct err; [reflexivity|]. now rewrite collectFromResults_TotalServers.
  - match type of HQ with
    | context [Pool.querySequential ?a ?b ?c ?r ?d] =>
        pose proof (querySequential_TotalServers a b c r d) as Hseq;
        destruct (Pool.querySequential a b c r d) as [[resp err] w2]
    end.
    destruct err; inversion HQ; subst.
    rewrite withBestOffset_TotalServers. exact Hseq.
Qed.

End PoolProperties.

(** C7, as stated, fails: six addresses are resolved, four are kept, and
    the successful query reports a total of four. *)
Lemma Query_TotalServers_counterexample :
  fst (fst (fst (DNSCache.Resolve (Pool.dnsCache examplePool) Background
                   "pool.example" poolWorld))) = sixAddresses
  /\ exists response p' w',
      Pool.Query examplePool Background 1 noSchedule poolWorld
      = Returns ((Some response, None), p', w')
      /\ Pool.TotalServers response = 4
      /\ Pool.TotalServers response <> Z.of_nat (length sixAddresses).
Proof.
  split; [reflexivity|].
  destruct (Pool.Query examplePool Background 1 noSchedule poolWorld)
    as [|[[[response err] p'] w']] eqn:HQ; vm_compute in HQ; [discriminate|].
  inversion HQ; subst. eexists _, _, _. split; [reflexivity|].
  split; [reflexivity|discriminate].
Qed.

Lemma Query_TotalServers_witness :
  exists response p' w',
    Pool.Query examplePool Background 1 noSchedule poolWorld
    = Returns ((Some response, None), p', w')
    /\ Pool.TotalServers response = Z.min 6 4.
Proof.
  destruct (Pool.Query examplePool Background 1 noSchedule poolWorld)
    as [|[[[[response|] [err|]] p'] w']] eqn:HQ; vm_compute in HQ;
    try discriminate.
  exists response, p', w'. split; [reflexivity|].
  pose proof (Query_TotalServers examplePool p' Background 1 noSchedule
                poolWorld w' response HQ) as H.
  exact H.
Defined.

(** ** Adaptive sampler *)

(** C6, as stated, fails.  The server answers after 5 s: the first batch
    (median 80 ms) takes 15 s of the 30 s budget, the deadline of the
    second request ends its third query, the querier reports the two
    responses it has together with the deadline error, and [Sample] returns
    the first batch alone. *)
Lemma Sample_partial_batch_counterexample :
  let w0 := driftWorld (5 * Second) in
  let '((first, err1), w1) := QueryMultiple Background "drift.example" 3 w0 in
  let '((second, err2), _) :=
    QueryMultiple (WithTimeout Background (30 * Second - 15 * Second))
      "drift.example" 7 w1 in
  err1 = None
  /\ length first = 3%nat
  /\ mathutil.AbsDuration
       (Stats.MedianOffset (Stats.CalculateStatistics first 3)) = 80 * Millisecond
  /\ time_Sub (now w1) (now w0) = 15 * Second
  /\ length second = 2%nat
  /\ err2 = Some (ErrContext DeadlineExceeded)
  /\ fst (fst (Adaptive.Sample driftConfig Background "drift.example" w0)) = first
  /\ fst (fst (Adaptive.Sample driftConfig Background "drift.example" w0))
     <> first ++ second.
Proof.
  vm_compute. repeat split; try reflexivity. discriminate.
Qed.

Section AdaptiveProperties.
Context {W : Type} `{!NTPQuerier W} `{!Clock W}.
Variable a : Adaptive.AdaptiveSamplingConfig.

(** C6, amended. When the first batch arrives without error, the
    |median offset| the sampler tests exceeds the drift threshold and less
    than [max_duration] has elapsed, the sampler makes exactly one further
    request, for [high_drift_samples - default_samples] samples, under a
    context whose timeout is the remaining budget; it returns the first
    batch followed by the second when that request reports no error, and
    the first batch alone when it reports one.  The value tested is
    [AbsDuration] of the [MedianOffset] of [CalculateStatistics]: the
    median of the offsets in float seconds, cut back to whole
    nanoseconds. *)
Theorem Sample_high_drift (ctx : Ctx) (server : string) (w w1 w2 : W)
    (first second : list Response) (err2 : option Error) :
  let elapsed := time_Sub (now w1) (now w) in
  QueryMultiple ctx server (Adaptive.DefaultSamples a) w = ((first, None), w1) ->
  first <> [] ->
  mathutil.AbsDuration
    (Stats.MedianOffset
       (Stats.CalculateStatistics first (Adaptive.DefaultSamples a)))
    > Adaptive.DriftThreshold a ->
  0 <= elapsed < Adaptive.MaxDuration a ->
  Adaptive.MaxDuration a <= int_max ->
  in_int64 (Adaptive.HighDriftSamples a - Adaptive.DefaultSamples a) ->
  QueryMultiple (WithTimeout ctx (Adaptive.MaxDuration a - elapsed)) server
    (Adaptive.HighDriftSamples a - Adaptive.DefaultSamples a) w1
  = ((second, err2), w2) ->
  Adaptive.Sample a ctx server w
  = ((match err2 with None => first ++ second | Some _ => first end, None), w2).
Proof.
  intros elapsed H1 Hne Hdrift Hel Hmax Hcount H2.
  unfold Adaptive.Sample. cbv zeta. rewrite H1.
  destruct first as [|r0 rest]; [congruence|]. cbn [length Nat.eqb].
  destruct (Z.gtb_spec
              (mathutil.AbsDuration
                 (Stats.MedianOffset
                    (Stats.CalculateStatistics (r0 :: rest)
                       (Adaptive.DefaultSamples a))))
              (Adaptive.DriftThreshold a)) as [_|Hle]; [|lia].
  fold elapsed.
  destruct (Z.ltb_spec elapsed (Adaptive.MaxDuration a)) as [_|Hge]; [|lia].
  rewrite (wrap64_id (Adaptive.HighDriftSamples a - Adaptive.DefaultSamples a))
    by exact Hcount.
  rewrite (wrap64_id (Adaptive.MaxDuration a - elapsed))
    by (unfold int_min, int_max in *; lia).
  rewrite H2. destruct err2 as [e|].
  - reflexivity.
  - rewrite bool_decide_eq_true_2 by reflexivity. cbn [andb].
    destruct second as [|s0 srest]; [|reflexivity].
    cbn [length Nat.ltb Nat.leb]. now rewrite app_nil_r.
Qed.

End AdaptiveProperties.

Lemma Sample_high_drift_witness :
  let result := Adaptive.Sample driftConfig Background "drift.example" scenarioWorld in
  snd (fst result) = None
  /\ length (fst (fst result)) = 10%nat
  /\ Mock.requests (snd result)
     = [(Background, "drift.example"%string, 3);
        (WithTimeout Background (30 * Second - 300 * Millisecond),
         "drift.example"%string, 7)]
  /\ Mock.GetCallCount (snd result) "drift.example" = 10.
Proof.
  intros result. subst result.
  rewrite (Sample_high_drift driftConfig Background "drift.example"
             scenarioWorld (snd firstCall) (snd secondCall)
             (fst (fst firstCall)) (fst (fst secondCall)) None).
  - vm_compute. repeat split; reflexivity.
  - vm_compute. reflexivity.
  - vm_compute. discriminate.
  - vm_compute. reflexivity.
  - vm_compute. split; [discriminate|reflexivity].
  - vm_compute. discriminate.
  - vm_compute. split; discriminate.
  - vm_compute. reflexivity.
Defined.

(** ** Circuit breaker *)

Section BreakerProperties.
Context {W : Type} `{!NTPQuerier W} `{!Clock W}.

(** An open breaker whose timeout has not elapsed rejects the request:
    the request is not run and the breaker is as before. *)
Lemma Execute_open {A : Type} (b : gobreaker.CircuitBreaker)
    (req : W -> (A * option Error) * W) (w : W) (e : Z) :
  gobreaker.state b = gobreaker.StateOpen ->
  gobreaker.expiry b = Some e ->
  now w <= e ->
  gobreaker.Execute b req w = ((None, Some ErrOpenState), b, w).
Proof.
  intros Hst Hexp Hnow.
  unfold gobreaker.Execute, gobreaker.beforeRequest, gobreaker.currentState,
    gobreaker.expired.
  rewrite Hst, Hexp.
  destruct (Z.ltb_spec e (now w)); [lia|]. now rewrite Hst.
Qed.

Lemma store_same (cb : CircuitBreakerClient.CircuitBreakerClient)
    (server : string) (b : gobreaker.CircuitBreaker) :
  CircuitBreakerClient.breakers cb !! server = Some b ->
  CircuitBreakerClient.store cb server b = cb.
Proof.
  intros Hb. destruct cb as [m c]. unfold CircuitBreakerClient.store.
  cbn in *. now rewrite insert_id.
Qed.

(** A failure recorded by a closed breaker inside its interval. *)
Lemma Execute_closed_failure {A : Type} (st : gobreaker.Settings) (g n : Z)
    (exp : option Z) (req : W -> (A * option Error) * W) (w w' : W)
    (r : A) (e : Error) :
  let b := gobreaker.mkBreaker st gobreaker.StateClosed g
             (gobreaker.mkCounts n 0 n 0 n) exp in
  let c' := gobreaker.mkCounts (n + 1) 0 (n + 1) 0 (n + 1) in
  (forall x, exp = Some x -> now w <= x /\ now w' <= x) ->
  req w = ((r, Some e), w') ->
  gobreaker.Execute b req w
  = ((Some r, Some e),
     (if gobreaker.ReadyToTrip st c'
      then gobreaker.mkBreaker st gobreaker.StateOpen (g + 1) gobreaker.noCounts
             (Some (now w' + gobreaker.Timeout st))
      else gobreaker.mkBreaker st gobreaker.StateClosed g c' exp),
     w').
Proof.
  intros b c' Hexp Hreq. subst b c'.
  assert (Hw : gobreaker.expired
                 (gobreaker.mkBreaker st gobreaker.StateClosed g
                    (gobreaker.mkCounts n 0 n 0 n) exp) (now w) = false).
  { unfold gobreaker.expired. cbn. destruct exp as [x|]; [|reflexivity].
    destruct (Hexp x eq_refl). apply Z.ltb_ge. lia. }
  assert (Hw' : forall c, gobreaker.expired
                 (gobreaker.mkBreaker st gobreaker.StateClosed g c exp)
                 (now w') = false).
  { intros c. unfold gobreaker.expired. cbn. destruct exp as [x|]; [|reflexivity].
    destruct (Hexp x eq_refl). apply Z.ltb_ge. lia. }
  unfold gobreaker.Execute, gobreaker.beforeRequest, gobreaker.currentState.
  cbn [gobreaker.state]. rewrite Hw. cbn [gobreaker.state]. rewrite Hreq.
  unfold gobreaker.withCounts at 1.
  cbn [gobreaker.settings gobreaker.generation gobreaker.counts gobreaker.expiry
       gobreaker.state].
  unfold gobreaker.afterRequest, gobreaker.currentState.
  cbn [gobreaker.state]. rewrite Hw'. cbn [gobreaker.generation].
  rewrite Z.eqb_refl.
  rewrite bool_decide_eq_false_2 by discriminate.
  unfold gobreaker.onFailure, gobreaker.withCounts, gobreaker.onFailureCounts,
    gobreaker.onRequest.
  cbn [gobreaker.state gobreaker.settings gobreaker.generation gobreaker.counts
       gobreaker.expiry gobreaker.Requests gobreaker.TotalSuccesses
       gobreaker.TotalFailures gobreaker.ConsecutiveSuccesses
       gobreaker.ConsecutiveFailures].
  destruct (gobreaker.ReadyToTrip st _); reflexivity.
Qed.

(** [Query] of the client, around the breaker's [Execute]. *)
Lemma Query_known (cb : CircuitBreakerClient.CircuitBreakerClient) (ctx : Ctx)
    (server : string) (w w' : W) (b b' : gobreaker.CircuitBreaker)
    (r : option (option Response)) (e : Error) :
  CircuitBreakerClient.breakers cb !! server = Some b ->
  gobreaker.Execute b (Query ctx server) w = ((r, Some e), b', w') ->
  CircuitBreakerClient.Query ctx server (cb, w)
  = ((None, Some (if is_ErrOpenState e then ErrCircuitOpen server e else e)),
     (CircuitBreakerClient.store cb server b', w')).
Proof.
  intros Hb Hex. unfold CircuitBreakerClient.Query,
    CircuitBreakerClient.getBreakerForServer.
  rewrite Hb, Hex. now destruct (is_ErrOpenState e).
Qed.

Lemma QueryMultiple_known (cb : CircuitBreakerClient.CircuitBreakerClient)
    (ctx : Ctx) (server : string) (samples : Z) (w w' : W)
    (b b' : gobreaker.CircuitBreaker) (r : option (list Response)) (e : Error) :
  CircuitBreakerClient.breakers cb !! server = Some b ->
  gobreaker.Execute b (QueryMultiple ctx server samples) w = ((r, Some e), b', w') ->
  CircuitBreakerClient.QueryMultiple ctx server samples (cb, w)
  = (([], Some (if is_ErrOpenState e then ErrCircuitOpen server e else e)),
     (CircuitBreakerClient.store cb server b', w')).
Proof.
  intros Hb Hex. unfold CircuitBreakerClient.QueryMultiple,
    CircuitBreakerClient.getBreakerForServer.
  rewrite Hb, Hex. now destruct (is_ErrOpenState e).
Qed.

(** The first query to a server creates its breaker. *)
Lemma Query_new (cb : CircuitBreakerClient.CircuitBreakerClient) (ctx : Ctx)
    (server : string) (w : W) :
  CircuitBreakerClient.breakers cb !! server = None ->
  let b := fst (CircuitBreakerClient.getBreakerForServer cb server (now w)) in
  CircuitBreakerClient.Query ctx server (cb, w)
  = CircuitBreakerClient.Query ctx server
      (CircuitBreakerClient.store cb server b, w).
Proof.
  intros Hnone b. subst b.
  unfold CircuitBreakerClient.Query, CircuitBreakerClient.getBreakerForServer.
  rewrite Hnone. cbn [fst CircuitBreakerClient.store CircuitBreakerClient.breakers
                      CircuitBreakerClient.config].
  rewrite lookup_insert_eq.
  destruct (gobreaker.Execute _ _ _) as [[[result err] b'] w'].
  unfold CircuitBreakerClient.store.
  cbn [CircuitBreakerClient.breakers CircuitBreakerClient.config].
  rewrite !insert_insert_eq.
  now destruct err as [e|]; [destruct (is_ErrOpenState e)|].
Qed.

End BreakerProperties.

Section BreakerTrip.
Context {W : Type} `{!NTPQuerier W} `{!Clock W}.

(** C3. A request to a target whose breaker is open, its timeout not
    elapsed, fails with the circuit-open error; the wrapped querier is not
    called (the world is returned as it was) and the client is unchanged.
    With threshold 0.6 and timeout 30 s, three consecutive failures of a
    newly seen target inside one closed-state interval leave its breaker
    open, and any request within the next 30 s is rejected in that way. *)
Theorem Query_rejected_when_open :
  (forall (cb : CircuitBreakerClient.CircuitBreakerClient) (ctx : Ctx)
          (server : string) (samples : Z) (w : W)
          (b : gobreaker.CircuitBreaker) (e : Z),
      CircuitBreakerClient.breakers cb !! server = Some b ->
      gobreaker.state b = gobreaker.StateOpen ->
      gobreaker.expiry b = Some e ->
      now w <= e ->
      CircuitBreakerClient.Query ctx server (cb, w)
      = ((None, Some (ErrCircuitOpen server ErrOpenState)), (cb, w))
      /\ CircuitBreakerClient.QueryMultiple ctx server samples (cb, w)
         = (([], Some (ErrCircuitOpen server ErrOpenState)), (cb, w)))
  /\ (forall (maxRequests : Z) (interval : Duration) (ctx : Ctx) (server : string)
             (w0 w1 w2 w3 : W) (r1 r2 r3 : option Response) (e1 e2 e3 : Error),
         maxRequests <> 0 ->
         0 <= interval ->
         Query ctx server w0 = ((r1, Some e1), w1) ->
         Query ctx server w1 = ((r2, Some e2), w2) ->
         Query ctx server w2 = ((r3, Some e3), w3) ->
         now w0 <= now w1 <= now w2 /\ now w2 <= now w3 ->
         interval = 0 \/ now w3 <= now w0 + interval ->
         let cb0 :=
           CircuitBreakerClient.NewCircuitBreakerClient
             (CircuitBreakerClient.NewCircuitBreakerConfigWithThreshold
                maxRequests interval (30 * Second) (6 # 10)) in
         let s1 := snd (CircuitBreakerClient.Query ctx server (cb0, w0)) in
         let s2 := snd (CircuitBreakerClient.Query ctx server s1) in
         let s3 := snd (CircuitBreakerClient.Query ctx server s2) in
         snd s3 = w3
         /\ CircuitBreakerClient.GetState (fst s3) server (now w3)
            = gobreaker.StateOpen
         /\ forall (w4 : W) (samples : Z),
             now w4 <= now w3 + 30 * Second ->
             CircuitBreakerClient.Query ctx server (fst s3, w4)
             = ((None, Some (ErrCircuitOpen server ErrOpenState)), (fst s3, w4))
             /\ CircuitBreakerClient.QueryMultiple ctx server samples (fst s3, w4)
                = (([], Some (ErrCircuitOpen server ErrOpenState)), (fst s3, w4))).
Proof.
  assert (Hopen :
    forall (cb : CircuitBreakerClient.CircuitBreakerClient) (ctx : Ctx)
           (server : string) (samples : Z) (w : W)
           (b : gobreaker.CircuitBreaker) (e : Z),
      CircuitBreakerClient.breakers cb !! server = Some b ->
      gobreaker.state b = gobreaker.StateOpen ->
      gobreaker.expiry b = Some e ->
      now w <= e ->
      CircuitBreakerClient.Query ctx server (cb, w)
      = ((None, Some (ErrCircuitOpen server ErrOpenState)), (cb, w))
      /\ CircuitBreakerClient.QueryMultiple ctx server samples (cb, w)
         = (([], Some (ErrCircuitOpen server ErrOpenState)), (cb, w))).
  { intros cb ctx server samples w b e Hb Hst Hexp Hnow. split.
    - rewrite (Query_known cb ctx server w w b b None ErrOpenState Hb)
        by (eapply Execute_open; eassumption).
      cbn [is_ErrOpenState]. now rewrite store_same.
    - rewrite (QueryMultiple_known cb ctx server samples w w b b None
                 ErrOpenState Hb)
        by (eapply Execute_open; eassumption).
      cbn [is_ErrOpenState]. now rewrite store_same. }
  split; [exact Hopen|].
  intros maxRequests interval ctx server w0 w1 w2 w3 r1 r2 r3 e1 e2 e3
    Hmax Hint Hq1 Hq2 Hq3 Hmono Hwin cb0 s1 s2 s3.
  set (st := CircuitBreakerClient.settingsOf
                 (CircuitBreakerClient.NewCircuitBreakerConfigWithThreshold
                    maxRequests interval (30 * Second) (6 # 10))).
  set (exp0 := if interval =? 0 then None else Some (now w0 + interval)).
  assert (Hexp : forall x, exp0 = Some x -> now w0 <= x /\ now w3 <= x).
  { intros x. subst exp0. destruct (Z.eqb_spec interval 0); [discriminate|].
    intros [= <-]. destruct Hwin; lia. }
  set (B := fun n => gobreaker.mkBreaker st gobreaker.StateClosed 1
                       (gobreaker.mkCounts n 0 n 0 n) exp0).
  set (B3 := gobreaker.mkBreaker st gobreaker.StateOpen 2 gobreaker.noCounts
               (Some (now w3 + 30 * Second))).
  assert (Hcb0 : cb0 = CircuitBreakerClient.mkClient ∅
            (CircuitBreakerClient.NewCircuitBreakerConfigWithThreshold
               maxRequests interval (30 * Second) (6 # 10))).
  { subst cb0. unfold CircuitBreakerClient.NewCircuitBreakerClient.
    cbn [CircuitBreakerClient.MaxRequests
         CircuitBreakerClient.NewCircuitBreakerConfigWithThreshold].
    destruct (Z.eqb_spec maxRequests 0); [contradiction|reflexivity]. }
  (* first failure: the breaker is created, then counts one request *)
  assert (H1 : s1 = (CircuitBreakerClient.store cb0 server (B 1), w1)).
  { subst s1. rewrite Query_new by (rewrite Hcb0; apply lookup_empty).
    assert (Hnew : fst (CircuitBreakerClient.getBreakerForServer cb0 server (now w0))
                   = B 0).
    { rewrite Hcb0. reflexivity. }
    rewrite Hnew.
    erewrite Query_known;
      [|apply lookup_insert_eq
       |apply (Execute_closed_failure st 1 0 exp0 _ w0 w1 r1 e1);
        [intros x Hx; destruct (Hexp x Hx); lia|exact Hq1]].
    cbn [snd]. unfold CircuitBreakerClient.store.
    cbn [CircuitBreakerClient.breakers CircuitBreakerClient.config].
    now rewrite insert_insert_eq. }
  (* second failure *)
  assert (H2 : s2 = (CircuitBreakerClient.store cb0 server (B 2), w2)).
  { subst s2. rewrite H1.
    erewrite Query_known;
      [|apply lookup_insert_eq
       |apply (Execute_closed_failure st 1 1 exp0 _ w1 w2 r2 e2);
        [intros x Hx; destruct (Hexp x Hx); lia|exact Hq2]].
    cbn [snd]. unfold CircuitBreakerClient.store.
    cbn [CircuitBreakerClient.breakers CircuitBreakerClient.config].
    now rewrite insert_insert_eq. }
  (* third failure: 3 of 3 requests failed, the breaker trips *)
  assert (H3 : s3 = (CircuitBreakerClient.store cb0 server B3, w3)).
  { subst s3. rewrite H2.
    erewrite Query_known;
      [|apply lookup_insert_eq
       |apply (Execute_closed_failure st 1 2 exp0 _ w2 w3 r3 e3);
        [intros x Hx; destruct (Hexp x Hx); lia|exact Hq3]].
    cbn [snd]. unfold CircuitBreakerClient.store.
    cbn [CircuitBreakerClient.breakers CircuitBreakerClient.config].
    now rewrite insert_insert_eq. }
  rewrite H3. cbn [fst snd]. split; [reflexivity|]. split.
  - unfold CircuitBreakerClient.GetState, CircuitBreakerClient.store.
    cbn [CircuitBreakerClient.breakers]. rewrite lookup_insert_eq.
    unfold gobreaker.currentState, gobreaker.expired. subst B3.
    cbn [gobreaker.state gobreaker.expiry].
    destruct (Z.ltb_spec (now w3 + 30 * Second) (now w3)); [|reflexivity].
    unfold Second, Millisecond, Microsecond, Nanosecond in *. lia.
  - intros w4 samples Hw4.
    apply (Hopen _ ctx server samples w4 B3 (now w3 + 30 * Second));
      [apply lookup_insert_eq|reflexivity|reflexivity|exact Hw4].
Qed.

End BreakerTrip.

Lemma Query_rejected_when_open_witness :
  CircuitBreakerClient.GetState (fst (afterAttempts 3)) "bad.example"
    (now (snd (afterAttempts 3))) = gobreaker.StateOpen
  /\ fst (CircuitBreakerClient.Query Background "bad.example" (afterAttempts 3))
     = (None, Some (ErrCircuitOpen "bad.example" ErrOpenState))
  /\ Mock.GetCallCount (snd (afterAttempts 3)) "bad.example" = 3
  /\ Mock.GetCallCount (snd (afterAttempts 4)) "bad.example" = 3.
Proof.
  destruct (@Query_rejected_when_open Mock.World _ _) as [_ Htrip].
  pose (w0 := badExampleWorld).
  pose (w1 := snd (Query Background "bad.example" w0)).
  pose (w2 := snd (Query Background "bad.example" w1)).
  pose (w3 := snd (Query Background "bad.example" w2)).
  destruct (Htrip 3 (60 * Second) Background "bad.example"%string w0 w1 w2 w3
              None None None
              (ErrOther "network error") (ErrOther "network error")
              (ErrOther "network error"))
    as (Hw3 & Hstate & Hreject).
  - discriminate.
  - discriminate.
  - reflexivity.
  - reflexivity.
  - reflexivity.
  - vm_compute. repeat split; discriminate.
  - right. vm_compute. discriminate.
  - change (snd (afterAttempts 3) = w3) in Hw3.
    change (CircuitBreakerClient.GetState (fst (afterAttempts 3)) "bad.example"
              (now w3) = gobreaker.StateOpen) in Hstate.
    assert (Hin : now (snd (afterAttempts 3)) <= now w3 + 30 * Second)
      by (vm_compute; discriminate).
    destruct (Hreject (snd (afterAttempts 3)) 1 Hin) as [Hq _].
    change (CircuitBreakerClient.Query Background "bad.example"
              (fst (afterAttempts 3), snd (afterAttempts 3))
            = (None, Some (ErrCircuitOpen "bad.example" ErrOpenState),
               (fst (afterAttempts 3), snd (afterAttempts 3)))) in Hq.
    rewrite <- surjective_pairing in Hq.
    split; [rewrite Hw3; exact Hstate|].
    split; [now rewrite Hq|].
    split; [reflexivity|].
    change (afterAttempts 4)
      with (snd (CircuitBreakerClient.Query Background "bad.example" (afterAttempts 3))).
    rewrite Hq. reflexivity.
Defined.


(** * Further properties *)

(** ** Validator: the verdict *)

(** [Validate] is its checks, in order. *)
Lemma Validate_steps (v : Validator.Validator) (resp : Response) :
  Validator.Validate v resp = laterChecks v resp (firstChecks v resp).
Proof. reflexivity. Qed.

Lemma Qlt_bool_true (x y : Q) : Validator.Qlt_bool x y = true <-> (x < y)%Q.
Proof.
  unfold Validator.Qlt_bool. rewrite negb_true_iff.
  split.
  - intros H. apply Qnot_le_lt. intros Hle. apply Qle_bool_iff in Hle. congruence.
  - intros H. destruct (Qle_bool y x) eqn:E; [|reflexivity].
    apply Qle_bool_iff in E. exfalso. exact (Qlt_not_le _ _ H E).
Qed.

Lemma Qlt_bool_false (x y : Q) : Validator.Qlt_bool x y = false <-> (y <= x)%Q.
Proof.
  unfold Validator.Qlt_bool. rewrite negb_false_iff. apply Qle_bool_iff.
Qed.

Lemma clamp_range (result : Validator.ValidationResult) :
  (0 <= Validator.TrustScore (clampHigh (clampLow result)) <= 1)%Q.
Proof.
  unfold clampHigh, clampLow.
  destruct (Validator.Qlt_bool (Validator.TrustScore result) 0) eqn:Hlow.
  - cbn. split; discriminate.
  - apply Qlt_bool_false in Hlow.
    destruct (Validator.Qlt_bool 1 (Validator.TrustScore result)) eqn:Hhigh.
    + cbn. split; discriminate.
    + apply Qlt_bool_false in Hhigh. now split.
Qed.

(** X4. The trust score of a verdict lies in [0,1], whatever the
    validator's limits and whatever the response. *)
Theorem Validate_trust_score_range (v : Validator.Validator) (resp : Response) :
  (0 <= Validator.TrustScore (Validator.Validate v resp) <= 1)%Q.
Proof. rewrite Validate_steps. unfold laterChecks. apply clamp_range. Qed.

(** How the steps act on [Valid] and [Errors]. *)

Lemma consistent_errorIf c e p r : consistent r -> consistent (errorIf c e p r).
Proof.
  unfold consistent, errorIf. destruct c; [|auto]. intros _. cbn. split.
  - discriminate.
  - intros H. now apply app_eq_nil in H as [_ H].
Qed.

Lemma consistent_warningIf c w p r : consistent r -> consistent (warningIf c w p r).
Proof. unfold consistent, warningIf. now destruct c. Qed.

Lemma consistent_clampLow r : consistent r -> consistent (clampLow r).
Proof. unfold consistent, clampLow. now destruct (Validator.Qlt_bool _ _). Qed.

Lemma consistent_clampHigh r : consistent r -> consistent (clampHigh r).
Proof. unfold consistent, clampHigh. now destruct (Validator.Qlt_bool _ _). Qed.

Lemma Valid_errorIf c e p r :
  Validator.Valid (errorIf c e p r) = negb c && Validator.Valid r.
Proof. unfold errorIf. now destruct c. Qed.

Lemma Valid_warningIf c w p r :
  Validator.Valid (warningIf c w p r) = Validator.Valid r.
Proof. unfold warningIf. now destruct c. Qed.

Lemma Valid_clampLow r : Validator.Valid (clampLow r) = Validator.Valid r.
Proof. unfold clampLow. now destruct (Validator.Qlt_bool _ _). Qed.

Lemma Valid_clampHigh r : Validator.Valid (clampHigh r) = Validator.Valid r.
Proof. unfold clampHigh. now destruct (Validator.Qlt_bool _ _). Qed.

(** What makes a verdict of the default validator valid. *)
Lemma Validate_Valid (resp : Response) :
  Validator.Valid (Validator.Validate Validator.NewValidator resp) = true <->
  1 <= Stratum resp <= 15 /\ KissCode resp = ""%string
  /\ 0 <= RTT resp /\ 0 <= RootDelay resp /\ 0 <= RootDispersion resp.
Proof.
  rewrite Validate_steps. unfold laterChecks, firstChecks.
  rewrite Valid_clampHigh, Valid_clampLow.
  repeat first [ rewrite Valid_warningIf | rewrite Valid_errorIf ].
  cbn [Validator.Valid Validator.NewValidator Validator.minStratum
       Validator.maxStratum Validator.checkKissOfDeath andb].
  unfold IsKissOfDeath. rewrite negb_involutive, andb_true_r.
  rewrite !andb_true_iff, !negb_true_iff.
  rewrite !Z.ltb_ge, Z.gtb_ltb, Z.ltb_ge, String.eqb_eq. tauto.
Qed.

(** X5. A verdict is valid exactly when it lists no error, and that is
    exactly when the stratum is between 1 and 15, there is no kiss code,
    and round-trip time, root delay and root dispersion are not negative;
    no warning condition has a say. *)
Theorem Validate_valid_iff (resp : Response) :
  let result := Validator.Validate Validator.NewValidator resp in
  (Validator.Valid result = true <-> Validator.Errors result = [])
  /\ (Validator.Valid result = true <->
      1 <= Stratum resp <= 15 /\ KissCode resp = ""%string
      /\ 0 <= RTT resp /\ 0 <= RootDelay resp /\ 0 <= RootDispersion resp).
Proof.
  intros result. subst result. split; [|apply Validate_Valid].
  rewrite Validate_steps. unfold laterChecks, firstChecks.
  repeat first [ apply consistent_clampHigh | apply consistent_clampLow
               | apply consistent_warningIf | apply consistent_errorIf ].
  unfold consistent. now cbn.
Qed.

(** Later steps never raise a trust score that is at most [q], [q >= 0]. *)

Lemma score_le_errorIf q c e p r :
  (0 <= p)%Q -> score_le q r -> score_le q (errorIf c e p r).
Proof.
  unfold score_le, errorIf. intros Hp Hr. destruct c; [|exact Hr]. cbn.
  apply Qle_trans with (Validator.TrustScore r); [|exact Hr].
  rewrite <- (Qplus_0_r (Validator.TrustScore r)) at 2.
  unfold Qminus. apply Qplus_le_compat; [apply Qle_refl|].
  rewrite <- (Qopp_involutive 0). apply Qopp_le_compat. exact Hp.
Qed.

Lemma score_le_warningIf q c w p r :
  (0 <= p)%Q -> score_le q r -> score_le q (warningIf c w p r).
Proof.
  unfold score_le, warningIf. intros Hp Hr. destruct c; [|exact Hr]. cbn.
  apply Qle_trans with (Validator.TrustScore r); [|exact Hr].
  rewrite <- (Qplus_0_r (Validator.TrustScore r)) at 2.
  unfold Qminus. apply Qplus_le_compat; [apply Qle_refl|].
  rewrite <- (Qopp_involutive 0). apply Qopp_le_compat. exact Hp.
Qed.

Lemma score_le_clampLow q r : (0 <= q)%Q -> score_le q r -> score_le q (clampLow r).
Proof.
  unfold score_le, clampLow. intros Hq Hr.
  now destruct (Validator.Qlt_bool _ _).
Qed.

Lemma score_le_clampHigh q r : (q <= 1)%Q -> score_le q r -> score_le q (clampHigh r).
Proof.
  unfold score_le, clampHigh. intros Hq Hr.
  destruct (Validator.Qlt_bool _ _) eqn:E; [|exact Hr].
  apply Qlt_bool_true in E. cbn.
  exfalso. apply (Qlt_not_le _ _ E). now apply Qle_trans with q.
Qed.

Lemma score_le_laterChecks q v resp r :
  (0 <= q <= 1)%Q -> score_le q r -> score_le q (laterChecks v resp r).
Proof.
  intros [Hq0 Hq1] Hr. unfold laterChecks.
  apply score_le_clampHigh; [exact Hq1|].
  apply score_le_clampLow; [exact Hq0|].
  repeat first [ apply score_le_warningIf; [discriminate|]
               | apply score_le_errorIf; [discriminate|] ].
  exact Hr.
Qed.

(** X6. A response that carries a kiss code is never valid and its trust
    score is at most 0.5. *)
Theorem Validate_kiss_of_death (resp : Response) :
  KissCode resp <> ""%string ->
  let result := Validator.Validate Validator.NewValidator resp in
  Validator.Valid result = false /\ (Validator.TrustScore result <= 1 # 2)%Q.
Proof.
  intros Hkiss result. subst result.
  assert (Hk : IsKissOfDeath resp = true).
  { unfold IsKissOfDeath. apply negb_true_iff. now apply String.eqb_neq. }
  split.
  - pose proof (Validate_Valid resp) as Hv.
    destruct (Validator.Valid (Validator.Validate Validator.NewValidator resp));
      [|reflexivity].
    destruct Hv as [Hv _]. destruct (Hv eq_refl) as (_ & Hno & _). contradiction.
  - rewrite Validate_steps. apply score_le_laterChecks; [split; discriminate|].
    unfold firstChecks, score_le.
    cbn [Validator.checkKissOfDeath Validator.NewValidator andb].
    rewrite Hk. unfold errorIf at 1. cbn [Validator.addError Validator.TrustScore].
    assert (Hone : score_le 1
              (errorIf (Stratum resp >? Validator.maxStratum Validator.NewValidator)
                 (Validator.StratumAboveMaximum (Stratum resp)
                    (Validator.maxStratum Validator.NewValidator)) (3 # 10)
                 (errorIf (Stratum resp <? Validator.minStratum Validator.NewValidator)
                    (Validator.StratumBelowMinimum (Stratum resp)
                       (Validator.minStratum Validator.NewValidator)) (3 # 10)
                    {| Validator.Valid := true; Validator.Errors := [];
                       Validator.Warnings := []; Validator.TrustScore := 1 |}))).
    { repeat (apply score_le_errorIf; [discriminate|]). unfold score_le. cbn.
      apply Qle_refl. }
    unfold score_le in Hone.
    set (t := Validator.TrustScore _) in *.
    unfold Qle in *. cbn in *. lia.
Qed.

Lemma Validate_kiss_of_death_witness :
  Validator.Valid (Validator.Validate Validator.NewValidator kodResponse) = false
  /\ (Validator.TrustScore (Validator.Validate Validator.NewValidator kodResponse)
      <= 1 # 2)%Q.
Proof.
  assert (H : KissCode kodResponse <> ""%string) by discriminate.
  exact (Validate_kiss_of_death kodResponse H).
Defined.

(** X7. [IsSuspicious] holds of a response exactly when
    [GetSuspicionReason] finds a reason for it: the reason computed for a
    suspicious response is never [unknown], and every other response gets
    [unknown]. *)
Theorem IsSuspicious_iff_reason (resp : Response) :
  IsSuspicious resp = true <->
  Validator.GetSuspicionReason Validator.NewValidator resp <> "unknown"%string.
Proof.
  unfold IsSuspicious, Validator.GetSuspicionReason.
  cbn [Validator.maxStratum Validator.maxClockSkew Validator.NewValidator].
  change SuspiciousOffsetThreshold with (1 * Hour).
  change MaxAcceptableRTT with (10 * Second).
  destruct (Stratum resp =? 0); cbn [orb]; [split; [discriminate|reflexivity]|].
  destruct (Stratum resp >? 15); [split; [discriminate|reflexivity]|].
  destruct (IsKissOfDeath resp); [split; [discriminate|reflexivity]|].
  destruct (IsValid resp); cbn [negb].
  - destruct (mathutil.AbsDuration (Offset resp) >? 1 * Hour);
      [split; [discriminate|reflexivity]|].
    destruct (RTT resp >? 10 * Second); [split; [discriminate|reflexivity]|].
    split; [discriminate|congruence].
  - destruct (mathutil.AbsDuration (Offset resp) >? 1 * Hour);
      [split; [discriminate|reflexivity]|].
    destruct (RTT resp >? 10 * Second); split; first [discriminate|reflexivity].
Qed.

(** X8. [CalculateTrustScore] stays in [0,1]; it is 0 for a nil response
    and for every response of stratum 0 or above 15. *)
Theorem CalculateTrustScore_range (resp : option Response) :
  (0 <= Validator.CalculateTrustScore resp <= 1)%Q
  /\ (match resp with
      | None => True
      | Some r => Stratum r = 0 \/ 15 < Stratum r
      end -> Validator.CalculateTrustScore resp = 0%Q).
Proof.
  split.
  - destruct resp as [r|]; [|cbn; split; discriminate].
    unfold Validator.CalculateTrustScore. cbv zeta.
    destruct ((Stratum r =? 0) || (Stratum r >? 15)); [split; discriminate|].
    match goal with
    | |- context [Validator.Qlt_bool ?t 0] => set (score := t)
    end.
    destruct (Validator.Qlt_bool score 0) eqn:Hlow.
    + cbn. split; discriminate.
    + apply Qlt_bool_false in Hlow.
      destruct (Validator.Qlt_bool 1 score) eqn:Hhigh.
      * split; discriminate.
      * apply Qlt_bool_false in Hhigh. now split.
  - destruct resp as [r|]; [|reflexivity].
    intros Hs. unfold Validator.CalculateTrustScore. cbv zeta.
    assert (Hc : (Stratum r =? 0) || (Stratum r >? 15) = true).
    { apply orb_true_iff. destruct Hs as [Hs|Hs].
      - left. now apply Z.eqb_eq.
      - right. rewrite Z.gtb_ltb. now apply Z.ltb_lt. }
    now rewrite Hc.
Qed.

Lemma CalculateTrustScore_range_witness :
  Validator.CalculateTrustScore (Some kodResponse) = 0%Q.
Proof.
  destruct (CalculateTrustScore_range (Some kodResponse)) as [_ H].
  apply H. left. reflexivity.
Defined.

(** ** Adaptive sampler: the paths without a second request *)

Section AdaptiveMore.
Context {W : Type} `{!NTPQuerier W} `{!Clock W}.
Variable a : Adaptive.AdaptiveSamplingConfig.

(** X9. [Sample] makes a single request when the first one fails (the
    error is returned with no samples), when it brings no sample, when the
    |median offset| does not exceed the drift threshold, or when the time
    budget is used up; in the last three cases the first batch is returned
    as it came. *)
Theorem Sample_single_request (ctx : Ctx) (server : string) (w w1 : W)
    (first : list Response) (err1 : option Error) :
  QueryMultiple ctx server (Adaptive.DefaultSamples a) w = ((first, err1), w1) ->
  (forall e, err1 = Some e ->
             Adaptive.Sample a ctx server w = (([], Some e), w1))
  /\ (err1 = None ->
      first = []
      \/ Z.abs (Stats.MedianOffset
                  (Stats.CalculateStatistics first (Adaptive.DefaultSamples a)))
         <= Adaptive.DriftThreshold a
      \/ Adaptive.MaxDuration a <= time_Sub (now w1) (now w) ->
      Adaptive.Sample a ctx server w = ((first, None), w1)).
Proof.
  intros H1. unfold Adaptive.Sample. cbv zeta. rewrite H1. split.
  - intros e ->. reflexivity.
  - intros -> Hcase.
    destruct first as [|r0 rest]; [reflexivity|]. cbn [length Nat.eqb].
    pose proof (AbsDuration_le_abs
                  (Stats.MedianOffset
                     (Stats.CalculateStatistics (r0 :: rest)
                        (Adaptive.DefaultSamples a)))) as Habs.
    destruct (Z.gtb_spec
                (mathutil.AbsDuration
                   (Stats.MedianOffset
                      (Stats.CalculateStatistics (r0 :: rest)
                         (Adaptive.DefaultSamples a))))
                (Adaptive.DriftThreshold a)) as [Hgt|Hle]; [|reflexivity].
    destruct (Z.ltb_spec (time_Sub (now w1) (now w)) (Adaptive.MaxDuration a))
      as [Hlt|Hge]; [|reflexivity].
    destruct Hcase as [Hnil|[Hmed|Hmax]]; [discriminate|lia|lia].
Qed.

(** X10. Once the first request has succeeded, [Sample] reports no error
    and returns the first batch, possibly followed by more samples: no
    sample of the first phase is lost. *)
Theorem Sample_keeps_first_batch (ctx : Ctx) (server : string) (w w1 : W)
    (first : list Response) :
  QueryMultiple ctx server (Adaptive.DefaultSamples a) w = ((first, None), w1) ->
  exists (extra : list Response) (w2 : W),
    Adaptive.Sample a ctx server w = ((first ++ extra, None), w2).
Proof.
  intros H1. unfold Adaptive.Sample. cbv zeta. rewrite H1.
  destruct (length first =? 0)%nat;
    [exists [], w1; now rewrite app_nil_r|].
  destruct (_ >? Adaptive.DriftThreshold a);
    [|exists [], w1; now rewrite app_nil_r].
  destruct (_ <? Adaptive.MaxDuration a);
    [|exists [], w1; now rewrite app_nil_r].
  destruct (QueryMultiple _ server _ w1) as [[extra err2] w2].
  destruct (bool_decide (err2 = None) && (0 <? length extra)%nat).
  - now exists extra, w2.
  - exists [], w2. now rewrite app_nil_r.
Qed.



End AdaptiveMore.


Lemma Sample_single_request_witness :
  exists first w1,
    Adaptive.Sample driftConfig Background "server1" twoServerWorld
    = ((first, None), w1)
    /\ length first = 3%nat.
Proof.
  destruct (QueryMultiple Background "server1" 3 twoServerWorld)
    as [[first err1] w1] eqn:HQ.
  destruct (Sample_single_request driftConfig Background "server1"
              twoServerWorld w1 first err1 HQ) as [_ Hok].
  vm_compute in HQ. inversion HQ; subst first err1 w1; clear HQ.
  eexists _, _. split.
  - apply Hok; [reflexivity|]. right. left. vm_compute. discriminate.
  - reflexivity.
Defined.

Lemma Sample_keeps_first_batch_witness :
  exists extra w2,
    Adaptive.Sample driftConfig Background "drift.example" scenarioWorld
    = ((fst (fst firstCall) ++ extra, None), w2).
Proof.
  apply (Sample_keeps_first_batch driftConfig Background "drift.example"
           scenarioWorld (snd firstCall) (fst (fst firstCall))).
  vm_compute. reflexivity.
Defined.

(** The configuration a sampler is built with, field by field. *)
Lemma NewAdaptiveSampler_fields (config : Adaptive.AdaptiveSamplingConfig) :
  Adaptive.NewAdaptiveSampler config
  = Adaptive.mkConfig
      (if Adaptive.DefaultSamples config =? 0 then 3
       else Adaptive.DefaultSamples config)
      (if Adaptive.HighDriftSamples config =? 0 then 10
       else Adaptive.HighDriftSamples config)
      (if Adaptive.DriftThreshold config =? 0 then 50 * Millisecond
       else Adaptive.DriftThreshold config)
      (if Adaptive.MaxDuration config =? 0 then 30 * Second
       else Adaptive.MaxDuration config)
      (if Qeq_bool (Adaptive.ConfidenceLevel config) 0 then 95 # 100
       else Adaptive.ConfidenceLevel config).
Proof.
  destruct config as [d h t m [n dd]].
  destruct d, h, t, m, n; reflexivity.
Qed.

(** X12. [NewAdaptiveSampler] replaces exactly the zero fields of the
    configuration by the defaults 3, 10, 50 ms, 30 s and 0.95, and keeps
    every other field: the result has no zero field, building a sampler
    from it again changes nothing, and a configuration is returned as it
    is exactly when none of its five fields is zero. *)
Theorem NewAdaptiveSampler_defaults (config : Adaptive.AdaptiveSamplingConfig) :
  let c := Adaptive.NewAdaptiveSampler config in
  Adaptive.DefaultSamples c
  = (if Adaptive.DefaultSamples config =? 0 then 3
     else Adaptive.DefaultSamples config)
  /\ Adaptive.HighDriftSamples c
     = (if Adaptive.HighDriftSamples config =? 0 then 10
        else Adaptive.HighDriftSamples config)
  /\ Adaptive.DriftThreshold c
     = (if Adaptive.DriftThreshold config =? 0 then 50 * Millisecond
        else Adaptive.DriftThreshold config)
  /\ Adaptive.MaxDuration c
     = (if Adaptive.MaxDuration config =? 0 then 30 * Second
        else Adaptive.MaxDuration config)
  /\ Adaptive.ConfidenceLevel c
     = (if Qeq_bool (Adaptive.ConfidenceLevel config) 0 then 95 # 100
        else Adaptive.ConfidenceLevel config)
  /\ Adaptive.DefaultSamples c <> 0 /\ Adaptive.HighDriftSamples c <> 0
  /\ Adaptive.DriftThreshold c <> 0 /\ Adaptive.MaxDuration c <> 0
  /\ ~ (Adaptive.ConfidenceLevel c == 0)%Q
  /\ Adaptive.NewAdaptiveSampler c = c
  /\ (c = config <->
      Adaptive.DefaultSamples config <> 0 /\ Adaptive.HighDriftSamples config <> 0
      /\ Adaptive.DriftThreshold config <> 0 /\ Adaptive.MaxDuration config <> 0
      /\ ~ (Adaptive.ConfidenceLevel config == 0)%Q).
Proof.
  intros c. subst c. rewrite !NewAdaptiveSampler_fields.
  cbn [Adaptive.DefaultSamples Adaptive.HighDriftSamples Adaptive.DriftThreshold
       Adaptive.MaxDuration Adaptive.ConfidenceLevel].
  repeat (split; [reflexivity|]).
  split; [destruct (Z.eqb_spec (Adaptive.DefaultSamples config) 0);
          [discriminate|assumption]|].
  split; [destruct (Z.eqb_spec (Adaptive.HighDriftSamples config) 0);
          [discriminate|assumption]|].
  split; [destruct (Z.eqb_spec (Adaptive.DriftThreshold config) 0);
          [discriminate|assumption]|].
  split; [destruct (Z.eqb_spec (Adaptive.MaxDuration config) 0);
          [discriminate|assumption]|].
  split.
  { destruct (Qeq_bool (Adaptive.ConfidenceLevel config) 0) eqn:Hcl;
      [discriminate|].
    intros Hq. apply Qeq_bool_iff in Hq. congruence. }
  split.
  { destruct config as [d h t m [n dd]].
    destruct d, h, t, m, n; reflexivity. }
  destruct config as [d h t m cl].
  cbn [Adaptive.DefaultSamples Adaptive.HighDriftSamples Adaptive.DriftThreshold
       Adaptive.MaxDuration Adaptive.ConfidenceLevel].
  split.
  - intros Heq. injection Heq as Hd Hh Ht Hm Hcl.
    repeat split.
    + destruct (Z.eqb_spec d 0); [subst d; discriminate|assumption].
    + destruct (Z.eqb_spec h 0); [subst h; discriminate|assumption].
    + destruct (Z.eqb_spec t 0); [subst t; discriminate|assumption].
    + destruct (Z.eqb_spec m 0); [subst m; discriminate|assumption].
    + intros Hq. apply Qeq_bool_iff in Hq. rewrite Hq in Hcl.
      rewrite <- Hcl in Hq. discriminate.
  - intros (Hd & Hh & Ht & Hm & Hcl).
    apply Z.eqb_neq in Hd, Hh, Ht, Hm. rewrite Hd, Hh, Ht, Hm.
    destruct (Qeq_bool cl 0) eqn:Hq; [|reflexivity].
    apply Qeq_bool_iff in Hq. contradiction.
Qed.

(** ** Circuit-breaker client: one breaker per server *)

Section BreakerMore.
Context {W : Type} `{!NTPQuerier W} `{!Clock W}.

Lemma getBreakerForServer_other (cb : CircuitBreakerClient.CircuitBreakerClient)
    (server other : string) (t : Z) :
  server <> other ->
  CircuitBreakerClient.breakers
    (snd (CircuitBreakerClient.getBreakerForServer cb server t)) !! other
  = CircuitBreakerClient.breakers cb !! other.
Proof.
  intros Hne. unfold CircuitBreakerClient.getBreakerForServer.
  destruct (CircuitBreakerClient.breakers cb !! server); [reflexivity|].
  cbn. now rewrite lookup_insert_ne.
Qed.

(** X13. A request for one server leaves the breaker of every other server
    as it was, whatever the outcome: [Query] and [QueryMultiple] touch the
    breaker of their own target only. *)
Theorem Query_other_breakers (cb : CircuitBreakerClient.CircuitBreakerClient)
    (ctx : Ctx) (server other : string) (samples : Z) (w : W) :
  server <> other ->
  CircuitBreakerClient.breakers
    (fst (snd (CircuitBreakerClient.Query ctx server (cb, w)))) !! other
  = CircuitBreakerClient.breakers cb !! other
  /\ CircuitBreakerClient.breakers
       (fst (snd (CircuitBreakerClient.QueryMultiple ctx server samples (cb, w))))
       !! other
     = CircuitBreakerClient.breakers cb !! other.
Proof.
  intros Hne.
  pose proof (getBreakerForServer_other cb server other (now w) Hne) as Hget.
  split.
  - unfold CircuitBreakerClient.Query.
    destruct (CircuitBreakerClient.getBreakerForServer cb server (now w))
      as [breaker cb1].
    destruct (gobreaker.Execute breaker (Query ctx server) w)
      as [[[result err] breaker'] w'].
    cbn [snd] in Hget.
    destruct err as [e|]; [destruct (is_ErrOpenState e)|];
      cbn [fst snd CircuitBreakerClient.store CircuitBreakerClient.breakers];
      now rewrite lookup_insert_ne.
  - unfold CircuitBreakerClient.QueryMultiple.
    destruct (CircuitBreakerClient.getBreakerForServer cb server (now w))
      as [breaker cb1].
    destruct (gobreaker.Execute breaker (QueryMultiple ctx server samples) w)
      as [[[result err] breaker'] w'].
    cbn [snd] in Hget.
    destruct err as [e|]; [destruct (is_ErrOpenState e)|];
      cbn [fst snd CircuitBreakerClient.store CircuitBreakerClient.breakers];
      now rewrite lookup_insert_ne.
Qed.

End BreakerMore.

Lemma Query_other_breakers_witness :
  CircuitBreakerClient.breakers
    (fst (snd (CircuitBreakerClient.Query Background "good.example"
                 (afterAttempts 3)))) !! "bad.example"%string
  = CircuitBreakerClient.breakers (fst (afterAttempts 3)) !! "bad.example"%string.
Proof.
  assert (Hne : "good.example"%string <> "bad.example"%string) by discriminate.
  destruct (Query_other_breakers (fst (afterAttempts 3)) Background
              "good.example" "bad.example" 1 (snd (afterAttempts 3)) Hne)
    as [Hq _].
  rewrite <- surjective_pairing in Hq. exact Hq.
Defined.

(** X14. The trip rule installed by both configuration constructors: with
    at least one request counted, it fires exactly when at least three
    requests were counted and the failures reach the threshold's share of
    them; it never fires on fewer than three requests. *)
Theorem tripAt_iff (failureThreshold : Q) (counts : gobreaker.Counts) :
  0 < gobreaker.Requests counts ->
  (CircuitBreakerClient.tripAt failureThreshold counts = true <->
   3 <= gobreaker.Requests counts
   /\ (failureThreshold * inject_Z (gobreaker.Requests counts)
       <= inject_Z (gobreaker.TotalFailures counts))%Q).
Proof.
  intros Hpos. unfold CircuitBreakerClient.tripAt. cbv zeta.
  rewrite andb_true_iff, Z.geb_le, Qle_bool_iff.
  assert (Hq : (0 < inject_Z (gobreaker.Requests counts))%Q).
  { unfold Qlt, inject_Z. cbn. lia. }
  split; intros [H3 Hr]; (split; [exact H3|]).
  - apply (Qmult_le_compat_r _ _ (inject_Z (gobreaker.Requests counts))) in Hr;
      [|now apply Qlt_le_weak].
    eapply Qle_trans; [exact Hr|].
    unfold Qdiv. rewrite <- Qmult_assoc.
    rewrite (Qmult_comm (/ _)), Qmult_inv_r, Qmult_1_r; [apply Qle_refl|].
    intros Heq. rewrite Heq in Hq. discriminate.
  - now apply Qle_shift_div_l.
Qed.

Lemma tripAt_iff_witness :
  CircuitBreakerClient.tripAt (6 # 10) (gobreaker.mkCounts 10 4 6 0 0) = true
  /\ CircuitBreakerClient.tripAt (6 # 10) (gobreaker.mkCounts 10 5 5 0 0) = false.
Proof.
  split.
  - apply (tripAt_iff (6 # 10) (gobreaker.mkCounts 10 4 6 0 0)).
    + reflexivity.
    + split; [discriminate|]. cbn. discriminate.
  - destruct (CircuitBreakerClient.tripAt (6 # 10) (gobreaker.mkCounts 10 5 5 0 0))
      eqn:E; [|reflexivity].
    apply (tripAt_iff (6 # 10) (gobreaker.mkCounts 10 5 5 0 0)) in E;
      [|reflexivity].
    destruct E as [_ E]. exfalso. revert E. cbn. unfold Qle. cbn. lia.
Defined.

(** ** DNS cache: literals, refresh, clean-up *)

Section DNSCacheMore.
Context {W : Type} `{!DNSCache.Resolver W} `{!Clock W}.

(** X15. [Resolve] touches the entry of the name it is asked for and
    nothing else: the entries of all other names and the TTL bounds are
    kept, and a name that has an entry still has one afterwards (a failed
    refresh keeps the stale entry).  An IP literal bypasses the cache
    altogether: it is returned as it is, without a resolution. *)
Theorem Resolve_frame (c : DNSCache.DNSCache) (ctx : Ctx) (hostname : string)
    (w : W) :
  let c' := snd (fst (DNSCache.Resolve c ctx hostname w)) in
  (forall other, other <> hostname ->
     DNSCache.cache c' !! other = DNSCache.cache c !! other)
  /\ (is_Some (DNSCache.cache c !! hostname) ->
      is_Some (DNSCache.cache c' !! hostname))
  /\ DNSCache.minTTL c' = DNSCache.minTTL c
  /\ DNSCache.maxTTL c' = DNSCache.maxTTL c
  /\ (DNSCache.ParseIP hostname = true ->
      DNSCache.Resolve c ctx hostname w = (([hostname], None), c, w)).
Proof.
  intros c'. subst c'. unfold DNSCache.Resolve. cbv zeta.
  destruct (DNSCache.ParseIP hostname).
  { cbn [fst snd]. repeat split; auto. }
  destruct (match DNSCache.cache c !! hostname with
            | Some e => now w <? DNSCache.ExpiresAt e
            | None => false
            end).
  { cbn [fst snd]. repeat split; auto. discriminate. }
  destruct (DNSCache.resolveWithTimeout ctx hostname w) as [[ips|err] w1].
  - cbn [fst snd DNSCache.cache DNSCache.withCache DNSCache.minTTL DNSCache.maxTTL].
    repeat split; try discriminate.
    + intros other Hne. now rewrite lookup_insert_ne.
    + intros _. rewrite lookup_insert_eq. eauto.
  - destruct (DNSCache.cache c !! hostname) as [e|] eqn:He.
    + cbn [fst snd DNSCache.cache DNSCache.withCache DNSCache.minTTL
           DNSCache.maxTTL].
      repeat split; try discriminate.
      * intros other Hne. now rewrite lookup_insert_ne.
      * intros _. rewrite lookup_insert_eq. eauto.
    + cbn [fst snd]. rewrite He. repeat split; auto. discriminate.
Qed.

(** X16. A successful resolution of a missing or expired name stores the
    addresses with error count 0 and the adaptive TTL, and returns them;
    until that TTL has passed, every further [Resolve] of the name answers
    with the same addresses from the cache, without resolving and without
    changing the cache. *)
Theorem Resolve_refresh_then_hit (c : DNSCache.DNSCache) (ctx : Ctx)
    (hostname : string) (w w1 : W) (ips : list string) :
  DNSCache.ParseIP hostname = false ->
  match DNSCache.cache c !! hostname with
  | Some e => DNSCache.ExpiresAt e <= now w
  | None => True
  end ->
  DNSCache.resolveWithTimeout ctx hostname w = (inl ips, w1) ->
  let ttl := DNSCache.calculateAdaptiveTTL c (DNSCache.cache c !! hostname) in
  let c1 :=
    DNSCache.withCache c
      (<[hostname := DNSCache.mkEntry ips (now w1 + ttl) ttl 0]> (DNSCache.cache c)) in
  DNSCache.Resolve c ctx hostname w = ((ips, None), c1, w1)
  /\ forall (ctx' : Ctx) (w2 : W),
      now w2 < now w1 + ttl ->
      DNSCache.Resolve c1 ctx' hostname w2 = ((ips, None), c1, w2).
Proof.
  intros Hip Hstale Hres ttl c1. split.
  - unfold DNSCache.Resolve. rewrite Hip. cbv zeta.
    destruct (DNSCache.cache c !! hostname) as [e|] eqn:He.
    + destruct (Z.ltb_spec (now w) (DNSCache.ExpiresAt e)); [lia|].
      now rewrite Hres.
    + now rewrite Hres.
  - intros ctx' w2 Hfresh. unfold DNSCache.Resolve. rewrite Hip. cbv zeta.
    subst c1. cbn [DNSCache.cache DNSCache.withCache].
    rewrite lookup_insert_eq. cbn [DNSCache.ExpiresAt DNSCache.IPs from_option].
    destruct (Z.ltb_spec (now w2) (now w1 + ttl)); [reflexivity|lia].
Qed.

(** X17. The TTL chosen on a refresh: the midpoint of the bounds for a name
    seen for the first time, the lower bound after failed refreshes, the
    upper bound otherwise; with ordered non-negative bounds it lies between
    them. *)
Theorem calculateAdaptiveTTL_bounds (c : DNSCache.DNSCache)
    (entry : option DNSCache.DNSCacheEntry) :
  0 <= DNSCache.minTTL c <= DNSCache.maxTTL c ->
  DNSCache.maxTTL c <= int_max / 2 ->
  DNSCache.minTTL c <= DNSCache.calculateAdaptiveTTL c entry <= DNSCache.maxTTL c
  /\ (entry = None ->
      DNSCache.calculateAdaptiveTTL c entry
      = (DNSCache.minTTL c + DNSCache.maxTTL c) / 2)
  /\ (forall e, entry = Some e -> 0 < DNSCache.ErrorCount e ->
                DNSCache.calculateAdaptiveTTL c entry = DNSCache.minTTL c)
  /\ (forall e, entry = Some e -> DNSCache.ErrorCount e <= 0 ->
                DNSCache.calculateAdaptiveTTL c entry = DNSCache.maxTTL c).
Proof.
  intros Hord Hmax. unfold DNSCache.calculateAdaptiveTTL. cbv zeta.
  assert (Hhalf : int_max / 2 = 4611686018427387903) by reflexivity.
  assert (Hsum : wrap64 (DNSCache.minTTL c + DNSCache.maxTTL c)
                 = DNSCache.minTTL c + DNSCache.maxTTL c).
  { apply wrap64_id. unfold int_min, int_max. lia. }
  rewrite Hsum.
  assert (Hq : Z.quot (DNSCache.minTTL c + DNSCache.maxTTL c) 2
               = (DNSCache.minTTL c + DNSCache.maxTTL c) / 2)
    by (apply Z.quot_div_nonneg; lia).
  rewrite Hq.
  assert (Hmid : DNSCache.minTTL c
                 <= (DNSCache.minTTL c + DNSCache.maxTTL c) / 2
                 <= DNSCache.maxTTL c).
  { split; [apply Z.div_le_lower_bound|apply Z.div_le_upper_bound]; lia. }
  split; [|split; [|split]].
  - destruct entry as [e|]; [|exact Hmid].
    destruct (DNSCache.ErrorCount e >? 0); lia.
  - now intros ->.
  - intros e -> He. destruct (Z.gtb_spec (DNSCache.ErrorCount e) 0); [reflexivity|lia].
  - intros e -> He. destruct (Z.gtb_spec (DNSCache.ErrorCount e) 0); [lia|reflexivity].
Qed.

(** X18. After [Invalidate], a failed resolution of the name is reported as
    an error: there is no stale entry to fall back on.  The entries of the
    other names are untouched. *)
Theorem Invalidate_then_failure (c : DNSCache.DNSCache) (ctx : Ctx)
    (hostname : string) (w w' : W) (err : Error) :
  DNSCache.ParseIP hostname = false ->
  DNSCache.resolveWithTimeout ctx hostname w = (inr err, w') ->
  DNSCache.Resolve (DNSCache.Invalidate c hostname) ctx hostname w
  = (([], Some err), DNSCache.Invalidate c hostname, w')
  /\ forall other, other <> hostname ->
       DNSCache.cache (DNSCache.Invalidate c hostname) !! other
       = DNSCache.cache c !! other.
Proof.
  intros Hip Hfail. split.
  - unfold DNSCache.Resolve. rewrite Hip. cbv zeta.
    cbn [DNSCache.Invalidate DNSCache.cache DNSCache.withCache].
    rewrite lookup_delete_eq. now rewrite Hfail.
  - intros other Hne. cbn. now rewrite lookup_delete_ne.
Qed.

End DNSCacheMore.

Lemma Resolve_frame_witness :
  DNSCache.Resolve staleCache Background "192.0.2.7" lateWorld
  = ((["192.0.2.7"%string], None), staleCache, lateWorld).
Proof.
  destruct (Resolve_frame staleCache Background "192.0.2.7" lateWorld)
    as (_ & _ & _ & _ & Hip).
  apply Hip. reflexivity.
Defined.

Lemma Resolve_refresh_then_hit_witness :
  let w := Mock.SetHost lateWorld "pool.example" ["192.0.2.8"%string] in
  let c1 := snd (fst (DNSCache.Resolve staleCache Background "pool.example" w)) in
  fst (fst (DNSCache.Resolve staleCache Background "pool.example" w))
  = (["192.0.2.8"%string], None)
  /\ DNSCache.Resolve c1 Background "pool.example" lateWorld
     = ((["192.0.2.8"%string], None), c1, lateWorld).
Proof.
  intros w c1.
  destruct (Resolve_refresh_then_hit staleCache Background "pool.example" w w
              ["192.0.2.8"%string]) as [Hfirst Hagain].
  - reflexivity.
  - vm_compute. discriminate.
  - reflexivity.
  - subst c1. rewrite Hfirst. cbn [fst snd]. split; [reflexivity|].
    apply Hagain. vm_compute. reflexivity.
Defined.

Lemma calculateAdaptiveTTL_bounds_witness :
  5 * Minute
  <= DNSCache.calculateAdaptiveTTL (DNSCache.NewDNSCache (DNSCache.mkConfig 0 0)) None
  <= 60 * Minute.
Proof.
  apply (calculateAdaptiveTTL_bounds
           (DNSCache.NewDNSCache (DNSCache.mkConfig 0 0)) None).
  - vm_compute. split; discriminate.
  - vm_compute. discriminate.
Defined.

Lemma Invalidate_then_failure_witness :
  DNSCache.Resolve (DNSCache.Invalidate staleCache "pool.example") Background
    "pool.example" lateWorld
  = (([], Some (ErrOther "no such host")),
     DNSCache.Invalidate staleCache "pool.example", lateWorld).
Proof.
  apply (Invalidate_then_failure staleCache Background "pool.example"
           lateWorld lateWorld (ErrOther "no such host")); reflexivity.
Defined.

(** The pass of [CleanupExpired] over a part [m] of the cache [full]. *)
Lemma cleanup_fold (full : gmap string DNSCache.DNSCacheEntry) (t : Z)
    (m : gmap string DNSCache.DNSCacheEntry) :
  let r :=
    map_fold (fun hostname entry '(m, removed) =>
                if DNSCache.ExpiresAt entry <? t
                then (delete hostname m, removed + 1)
                else (m, removed))
             (full, 0) m in
  (forall k, fst r !! k
             = match m !! k with
               | Some e => if DNSCache.ExpiresAt e <? t then None else full !! k
               | None => full !! k
               end)
  /\ snd r
     = Z.of_nat (size (filter (fun kv => DNSCache.ExpiresAt (snd kv) < t) m)).
Proof.
  apply (map_fold_weak_ind
           (fun (r : gmap string DNSCache.DNSCacheEntry * Z) m =>
              (forall k, fst r !! k
                         = match m !! k with
                           | Some e =>
                               if DNSCache.ExpiresAt e <? t then None else full !! k
                           | None => full !! k
                           end)
              /\ snd r
                 = Z.of_nat
                     (size (filter (fun kv => DNSCache.ExpiresAt (snd kv) < t) m)))).
  - split; [intros k; now rewrite lookup_empty|].
    now rewrite map_filter_empty, map_size_empty.
  - intros i x m0 [m' n] Hnone [Hlook Hcount]. cbn [fst snd] in *.
    destruct (Z.ltb_spec (DNSCache.ExpiresAt x) t) as [Hexp|Hfresh]; cbn [fst snd].
    + split.
      * intros k. destruct (decide (i = k)) as [->|Hne].
        -- rewrite lookup_delete_eq, lookup_insert_eq.
           destruct (Z.ltb_spec (DNSCache.ExpiresAt x) t); [reflexivity|lia].
        -- rewrite lookup_delete_ne, lookup_insert_ne by done. apply Hlook.
      * rewrite map_filter_insert_True by exact Hexp.
        rewrite map_size_insert_None.
        -- rewrite Hcount. lia.
        -- apply map_lookup_filter_None_2. now left.
    + split.
      * intros k. destruct (decide (i = k)) as [->|Hne].
        -- rewrite lookup_insert_eq.
           destruct (Z.ltb_spec (DNSCache.ExpiresAt x) t); [lia|].
           rewrite Hlook, Hnone. reflexivity.
        -- rewrite lookup_insert_ne by done. apply Hlook.
      * rewrite map_filter_insert_not' ; [exact Hcount|cbn; lia|].
        intros y Hy. congruence.
Qed.

(** X19. [CleanupExpired] deletes exactly the entries whose expiry lies
    strictly before the current time (an entry expiring at this very
    instant stays), leaves the others as they are, and returns the number
    of entries it deleted. *)
Theorem CleanupExpired_spec (c : DNSCache.DNSCache) (t : Z) :
  let removed := fst (DNSCache.CleanupExpiredAt c t) in
  let c' := snd (DNSCache.CleanupExpiredAt c t) in
  (forall hostname,
      DNSCache.cache c' !! hostname
      = match DNSCache.cache c !! hostname with
        | Some e => if DNSCache.ExpiresAt e <? t then None else Some e
        | None => None
        end)
  /\ removed = Z.of_nat (size (DNSCache.cache c)) - Z.of_nat (size (DNSCache.cache c'))
  /\ DNSCache.minTTL c' = DNSCache.minTTL c
  /\ DNSCache.maxTTL c' = DNSCache.maxTTL c.
Proof.
  intros removed c'. subst removed c'. unfold DNSCache.CleanupExpiredAt.
  pose proof (cleanup_fold (DNSCache.cache c) t (DNSCache.cache c)) as Hfold.
  cbv zeta in Hfold.
  destruct (map_fold _ (DNSCache.cache c, 0) (DNSCache.cache c)) as [m n].
  cbn [fst snd] in *. destruct Hfold as [Hlook Hcount].
  cbn [DNSCache.cache DNSCache.withCache DNSCache.minTTL DNSCache.maxTTL].
  assert (Hm : forall k, m !! k
               = match DNSCache.cache c !! k with
                 | Some e => if DNSCache.ExpiresAt e <? t then None else Some e
                 | None => None
                 end).
  { intros k. rewrite Hlook. destruct (DNSCache.cache c !! k) eqn:Hk; [|reflexivity].
    now destruct (DNSCache.ExpiresAt d <? t). }
  split; [exact Hm|]. split; [|split; reflexivity].
  assert (Hkept : m = filter (fun kv => ~ DNSCache.ExpiresAt (snd kv) < t)
                         (DNSCache.cache c)).
  { apply map_eq. intros k. rewrite Hm. symmetry.
    destruct (DNSCache.cache c !! k) as [e|] eqn:Hk.
    - destruct (Z.ltb_spec (DNSCache.ExpiresAt e) t) as [Hexp|Hfresh].
      + apply map_lookup_filter_None_2. right. intros y Hy. cbn.
        assert (y = e) by congruence. subst. tauto.
      + apply map_lookup_filter_Some_2; [exact Hk|cbn; lia].
    - apply map_lookup_filter_None_2. now left. }
  rewrite Hcount.
  rewrite <- (map_filter_union_complement
                (fun kv => DNSCache.ExpiresAt (snd kv) < t) (DNSCache.cache c)) at 2.
  rewrite map_size_disj_union by apply map_disjoint_filter_complement.
  rewrite <- Hkept. lia.
Qed.

(** X20. The counters of [Stats] add up: every entry is counted once, as
    valid or as expired. *)
Theorem Stats_counts_add_up (c : DNSCache.DNSCache) (t : Z) :
  let s := DNSCache.StatsAt c t in
  DNSCache.valid_entries s + DNSCache.expired_entries s = DNSCache.total_entries s
  /\ 0 <= DNSCache.valid_entries s /\ 0 <= DNSCache.expired_entries s
  /\ DNSCache.total_entries s = Z.of_nat (size (DNSCache.cache c)).
Proof.
  intros s. subst s. unfold DNSCache.StatsAt. cbv zeta.
  assert (Hfold :
    let r := map_fold (fun (_ : string) entry '(valid, expired) =>
                         if t <? DNSCache.ExpiresAt entry then (valid + 1, expired)
                         else (valid, expired + 1))
                      (0, 0) (DNSCache.cache c) in
    fst r + snd r = Z.of_nat (size (DNSCache.cache c)) /\ 0 <= fst r /\ 0 <= snd r).
  { apply (map_fold_weak_ind
             (fun (r : Z * Z) (m : gmap string DNSCache.DNSCacheEntry) =>
                fst r + snd r = Z.of_nat (size m) /\ 0 <= fst r /\ 0 <= snd r)).
    - rewrite map_size_empty. cbn. lia.
    - intros i x m [v e] Hnone (Hsum & Hv & He). cbn [fst snd] in *.
      rewrite map_size_insert_None by exact Hnone.
      destruct (t <? DNSCache.ExpiresAt x); cbn [fst snd]; lia. }
  cbv zeta in Hfold.
  destruct (map_fold _ (0, 0) (DNSCache.cache c)) as [v e].
  cbn [fst snd DNSCache.valid_entries DNSCache.expired_entries
       DNSCache.total_entries] in *.
  lia.
Qed.

Section WorkerPoolMore.
Context {W : Type} `{!NTPQuerier W} `{!Clock W}.

Lemma processJob_server (ctx : Ctx) (server : string) (samples : Z) (w : W) :
  WorkerPool.jrServer (fst (WorkerPool.processJob ctx server samples w)) = server.
Proof.
  unfold WorkerPool.processJob. cbv zeta.
  now destruct (QueryMultiple ctx server samples w) as [[responses err] w1].
Qed.

(** Every result a worker sends carries the name of one of the jobs. *)
Lemma worker_servers (ctx : Ctx) (samples : Z) (jobs : list string) :
  forall (fates : list WorkerPool.Fate) (w : W) (r : WorkerPool.JobResult),
    r ∈ fst (WorkerPool.worker ctx samples jobs fates w) ->
    WorkerPool.jrServer r ∈ jobs.
Proof.
  induction jobs as [|server jobs IH]; intros fates w r; cbn [WorkerPool.worker].
  - intros Hin. now apply elem_of_nil in Hin.
  - destruct fates as [|[| |e|] fates].
    + intros Hin. now apply elem_of_nil in Hin.
    + pose proof (processJob_server ctx server samples w) as Hs.
      destruct (WorkerPool.processJob ctx server samples w) as [result w1].
      specialize (IH fates w1 r).
      destruct (WorkerPool.worker ctx samples jobs fates w1) as [rest w2].
      cbn [fst] in *. intros [->|Hin]%elem_of_cons.
      * rewrite Hs. apply list_elem_of_here.
      * apply list_elem_of_further. now apply IH.
    + destruct (WorkerPool.processJob ctx server samples w) as [result w1].
      intros Hin. apply list_elem_of_further. now apply (IH fates w1).
    + specialize (IH fates w r).
      destruct (WorkerPool.worker ctx samples jobs fates w) as [rest w2].
      cbn [fst] in *. intros [->|Hin]%elem_of_cons.
      * apply list_elem_of_here.
      * apply list_elem_of_further. now apply IH.
    + intros Hin. apply list_elem_of_further. now apply (IH fates w).
Qed.

(** An entry of the result map is a received result, under its own name. *)
Lemma collect_lookup (arrived : list WorkerPool.JobResult) (k : string)
    (r : WorkerPool.JobResult) :
  WorkerPool.collect arrived !! k = Some r ->
  r ∈ arrived /\ WorkerPool.jrServer r = k.
Proof.
  induction arrived as [|r0 arrived IH] using rev_ind.
  - unfold WorkerPool.collect. cbn. now rewrite lookup_empty.
  - rewrite collect_snoc. intros Hlook.
    destruct (decide (WorkerPool.jrServer r0 = k)) as [Heq|Hne].
    + subst k. rewrite lookup_insert_eq in Hlook.
      assert (r0 = r) by congruence. subst r0.
      split; [|reflexivity]. apply elem_of_app. right. apply list_elem_of_here.
    + rewrite lookup_insert_ne in Hlook by exact Hne.
      destruct (IH Hlook) as [Hin Hk]. split; [|exact Hk].
      apply elem_of_app. now left.
Qed.

(** Every received result has an entry under its name. *)
Lemma collect_covers (arrived : list WorkerPool.JobResult) (r : WorkerPool.JobResult) :
  r ∈ arrived -> is_Some (WorkerPool.collect arrived !! WorkerPool.jrServer r).
Proof.
  induction arrived as [|r0 arrived IH] using rev_ind.
  - intros Hin. now apply elem_of_nil in Hin.
  - rewrite collect_snoc. intros Hin.
    destruct (decide (WorkerPool.jrServer r0 = WorkerPool.jrServer r)) as [Heq|Hne].
    + rewrite Heq, lookup_insert_eq. eauto.
    + rewrite lookup_insert_ne by exact Hne. apply IH.
      apply elem_of_app in Hin as [Hin|Hin]; [exact Hin|].
      apply list_elem_of_singleton in Hin. congruence.
Qed.



(** X21. Every entry of the map [Execute] returns is stored under the
    server name its result carries, and that name is one of the requested
    servers. *)
Theorem Execute_keys (wp : WorkerPool.WorkerPool) (ctx : Ctx)
    (servers : list string) (samples : Z) (sched : WorkerPool.Schedule) (w : W)
    (k : string) (r : WorkerPool.JobResult) :
  fst (fst (WorkerPool.Execute wp ctx servers samples sched w)) !! k = Some r ->
  WorkerPool.jrServer r = k /\ k ∈ servers.
Proof.
  unfold WorkerPool.Execute.
  destruct (length servers =? 0)%nat; [cbn; now rewrite lookup_empty|].
  destruct (WorkerPool.running wp); [cbn; now rewrite lookup_empty|].
  pose proof (worker_servers ctx samples servers (WorkerPool.fates sched) w) as Hw.
  destruct (WorkerPool.worker ctx samples servers (WorkerPool.fates sched) w)
    as [arrived w1].
  cbn [fst] in Hw.
  destruct (WorkerPool.submitCancelled sched); [cbn; now rewrite lookup_empty|].
  destruct (size (WorkerPool.collect arrived) =? 0)%nat;
    [cbn; now rewrite lookup_empty|].
  cbn [fst]. intros Hlook. apply collect_lookup in Hlook as [Hin Hk].
  split; [exact Hk|]. rewrite <- Hk. now apply Hw.
Qed.

(** With every job delivered, the worker sends one result per job. *)
Lemma worker_all_delivered (ctx : Ctx) (samples : Z) (jobs : list string) :
  forall (w : W) (s : string),
    s ∈ jobs ->
    exists r,
      r ∈ fst (WorkerPool.worker ctx samples jobs
                 (replicate (length jobs) WorkerPool.Delivered) w)
      /\ WorkerPool.jrServer r = s.
Proof.
  induction jobs as [|server jobs IH]; intros w s Hin.
  - now apply elem_of_nil in Hin.
  - cbn [length replicate WorkerPool.worker].
    pose proof (processJob_server ctx server samples w) as Hs.
    destruct (WorkerPool.processJob ctx server samples w) as [result w1].
    specialize (IH w1 s).
    destruct (WorkerPool.worker ctx samples jobs
                (replicate (length jobs) WorkerPool.Delivered) w1) as [rest w2].
    cbn [fst] in *. apply elem_of_cons in Hin as [->|Hin].
    + exists result. split; [apply list_elem_of_here|exact Hs].
    + destruct (IH Hin) as (r & Hr & Hrs). exists r.
      split; [now apply list_elem_of_further|exact Hrs].
Qed.

(** X22. When the pool is free, the submission is not interrupted and
    every job's result is delivered, [Execute] on a non-empty server list
    reports no error and the map has an entry for every requested server:
    a server whose queries failed is present with its error, not missing. *)
Theorem Execute_all_delivered (wp : WorkerPool.WorkerPool) (ctx : Ctx)
    (servers : list string) (samples : Z) (w : W) :
  servers <> [] ->
  WorkerPool.running wp = false ->
  let sched :=
    WorkerPool.mkSchedule None (replicate (length servers) WorkerPool.Delivered) in
  snd (fst (WorkerPool.Execute wp ctx servers samples sched w)) = None
  /\ forall s, s ∈ servers ->
       exists r,
         fst (fst (WorkerPool.Execute wp ctx servers samples sched w)) !! s = Some r
         /\ WorkerPool.jrServer r = s.
Proof.
  intros Hne Hfree sched. subst sched. unfold WorkerPool.Execute.
  destruct servers as [|s0 rest]; [congruence|].
  replace (length (s0 :: rest) =? 0)%nat with false by reflexivity.
  rewrite Hfree. cbn [WorkerPool.fates WorkerPool.submitCancelled].
  pose proof (worker_all_delivered ctx samples (s0 :: rest) w) as Hall.
  destruct (WorkerPool.worker ctx samples (s0 :: rest)
              (replicate (length (s0 :: rest)) WorkerPool.Delivered) w)
    as [arrived w1].
  cbn [fst] in Hall.
  assert (Hcov : forall s, s ∈ s0 :: rest ->
            exists r, WorkerPool.collect arrived !! s = Some r
                      /\ WorkerPool.jrServer r = s).
  { intros s Hin. destruct (Hall s Hin) as (r & Hr & Hrs).
    destruct (collect_covers arrived r Hr) as [r' Hr'].
    rewrite Hrs in Hr'. exists r'. split; [exact Hr'|].
    now apply collect_lookup in Hr' as [_ ?]. }
  destruct (Nat.eqb_spec (size (WorkerPool.collect arrived)) 0) as [Hz|Hnz].
  - exfalso. apply map_size_empty_inv in Hz.
    destruct (Hcov s0 (list_elem_of_here _ _)) as (r & Hr & _).
    rewrite Hz, lookup_empty in Hr. discriminate.
  - cbn [fst snd]. split; [reflexivity|exact Hcov].
Qed.

(** An error of [Execute] comes with no map. *)
Lemma Execute_error_empty (wp : WorkerPool.WorkerPool) (ctx : Ctx)
    (servers : list string) (samples : Z) (sched : WorkerPool.Schedule) (w : W)
    (e : Error) :
  snd (fst (WorkerPool.Execute wp ctx servers samples sched w)) = Some e ->
  fst (fst (WorkerPool.Execute wp ctx servers samples sched w)) = ∅.
Proof.
  unfold WorkerPool.Execute.
  destruct (length servers =? 0)%nat; [reflexivity|].
  destruct (WorkerPool.running wp); [reflexivity|].
  destruct (WorkerPool.worker ctx samples servers (WorkerPool.fates sched) w)
    as [arrived w1].
  destruct (WorkerPool.submitCancelled sched); [reflexivity|].
  destruct (size (WorkerPool.collect arrived) =? 0)%nat; [reflexivity|].
  discriminate.
Qed.

(** X23. [QueryAll] turns the outcome of [Execute] into statistics and
    nothing else: the error and the final world are those of [Execute], and
    the statistics map has an entry for a server exactly when the result
    map has one.  The entry of a job that failed has zero samples; the
    entry of a job that succeeded counts the responses of that job. *)
Theorem QueryAll_follows_Execute (wp : WorkerPool.WorkerPool) (ctx : Ctx)
    (servers : list string) (samples : Z) (sched : WorkerPool.Schedule) (w : W) :
  let executed := WorkerPool.Execute wp ctx servers samples sched w in
  let queried := WorkerPool.QueryAll wp ctx servers samples sched w in
  snd (fst queried) = snd (fst executed)
  /\ snd queried = snd executed
  /\ forall s,
       match fst (fst executed) !! s with
       | None => fst (fst queried) !! s = None
       | Some r =>
           exists stats,
             fst (fst queried) !! s = Some stats
             /\ Stats.SamplesCount stats
                = match WorkerPool.jrError r with
                  | Some _ => 0
                  | None => Z.of_nat (length (WorkerPool.jrResponses r))
                  end
       end.
Proof.
  intros executed queried. subst executed queried. unfold WorkerPool.QueryAll.
  pose proof (Execute_error_empty wp ctx servers samples sched w) as Hshape.
  destruct (WorkerPool.Execute wp ctx servers samples sched w)
    as [[results err] w1].
  cbn [fst snd] in *. destruct err as [e|]; cbn [fst snd].
  - split; [reflexivity|]. split; [reflexivity|]. intros s.
    rewrite (Hshape e eq_refl), lookup_empty. apply lookup_empty.
  - split; [reflexivity|]. split; [reflexivity|]. intros s.
    rewrite lookup_fmap. destruct (results !! s) as [r|]; [|reflexivity].
    cbn. eexists. split; [reflexivity|]. unfold WorkerPool.statsOf.
    destruct (WorkerPool.jrError r); [reflexivity|].
    unfold Stats.CalculateStatistics.
    destruct (WorkerPool.jrResponses r); reflexivity.
Qed.

End WorkerPoolMore.

Lemma Execute_keys_witness :
  exists r,
    fst (fst (WorkerPool.Execute (WorkerPool.NewWorkerPool 2) Background
                ["server1"; "server2"]%string 1
                (WorkerPool.mkSchedule None [WorkerPool.Delivered; WorkerPool.Delivered])
                twoServerWorld)) !! "server1"%string = Some r
    /\ WorkerPool.jrServer r = "server1"%string.
Proof.
  destruct (fst (fst (WorkerPool.Execute (WorkerPool.NewWorkerPool 2) Background
                        ["server1"; "server2"]%string 1
                        (WorkerPool.mkSchedule None
                           [WorkerPool.Delivered; WorkerPool.Delivered])
                        twoServerWorld)) !! "server1"%string) as [r|] eqn:Hr.
  - exists r. split; [reflexivity|].
    exact (proj1 (Execute_keys _ _ _ _ _ _ _ _ Hr)).
  - vm_compute in Hr. discriminate.
Defined.

Lemma Execute_all_delivered_witness :
  snd (fst (WorkerPool.Execute (WorkerPool.NewWorkerPool 2) Background
              ["server1"; "server2"]%string 1
              (WorkerPool.mkSchedule None (replicate 2 WorkerPool.Delivered))
              twoServerWorld)) = None.
Proof.
  assert (Hne : ["server1"; "server2"]%string <> []) by discriminate.
  exact (proj1 (Execute_all_delivered (WorkerPool.NewWorkerPool 2) Background
                  ["server1"; "server2"]%string 1 twoServerWorld Hne eq_refl)).
Defined.

(** The running pair of [findBestOffset]: the best offset so far with its
    absolute value, minimal among the offsets seen. *)
Lemma findBestOffset_loop (rest : list Response) :
  forall (seen : list Response) (best : Duration),
    (exists r, r ∈ seen /\ Offset r = best) ->
    (forall r, r ∈ seen ->
       mathutil.AbsDuration best <= mathutil.AbsDuration (Offset r)) ->
    let final :=
      fst (foldl (fun '(best, bestAbs) resp =>
                    let abs := mathutil.AbsDuration (Offset resp) in
                    if abs <? bestAbs then (Offset resp, abs) else (best, bestAbs))
                 (best, mathutil.AbsDuration best) rest) in
    (exists r, r ∈ seen ++ rest /\ Offset r = final)
    /\ (forall r, r ∈ seen ++ rest ->
          mathutil.AbsDuration final <= mathutil.AbsDuration (Offset r)).
Proof.
  induction rest as [|resp rest IH]; intros seen best Hmem Hmin.
  - cbn. rewrite app_nil_r. now split.
  - cbn [foldl]. cbv zeta.
    replace (seen ++ resp :: rest) with ((seen ++ [resp]) ++ rest)
      by now rewrite <- app_assoc.
    destruct (Z.ltb_spec (mathutil.AbsDuration (Offset resp))
                (mathutil.AbsDuration best)) as [Hlt|Hge].
    + apply IH.
      * exists resp. split; [|reflexivity].
        apply elem_of_app. right. apply list_elem_of_here.
      * intros r [Hin|Hin]%elem_of_app.
        -- specialize (Hmin r Hin). lia.
        -- apply list_elem_of_singleton in Hin. subst r. lia.
    + apply IH.
      * destruct Hmem as (r & Hr & Hoff). exists r.
        split; [apply elem_of_app; now left|exact Hoff].
      * intros r [Hin|Hin]%elem_of_app.
        -- now apply Hmin.
        -- apply list_elem_of_singleton in Hin. subst r. lia.
Qed.

(** X24. On a non-empty list, [findBestOffset] returns the offset of one of
    the responses, and no response has an offset with a smaller
    [AbsDuration].  That is the offset of smallest absolute value as long as
    no offset is the smallest duration; the smallest duration, whose
    negation wraps to itself, is returned whenever it is among the
    offsets. *)
Theorem findBestOffset_minimal (responses : list Response) :
  responses <> [] ->
  (exists r, r ∈ responses /\ Offset r = Pool.findBestOffset responses)
  /\ (forall r, r ∈ responses ->
        mathutil.AbsDuration (Pool.findBestOffset responses)
        <= mathutil.AbsDuration (Offset r))
  /\ ((forall r, r ∈ responses -> int_min < Offset r) ->
      forall r, r ∈ responses ->
        Z.abs (Pool.findBestOffset responses) <= Z.abs (Offset r))
  /\ ((forall r, r ∈ responses -> in_int64 (Offset r)) ->
      (exists r, r ∈ responses /\ Offset r = int_min) ->
      Pool.findBestOffset responses = int_min).
Proof.
  intros Hne.
  assert (Hloop :
    (exists r, r ∈ responses /\ Offset r = Pool.findBestOffset responses)
    /\ (forall r, r ∈ responses ->
          mathutil.AbsDuration (Pool.findBestOffset responses)
          <= mathutil.AbsDuration (Offset r))).
  { destruct responses as [|r0 rest]; [congruence|].
    unfold Pool.findBestOffset.
    apply (findBestOffset_loop rest [r0] (Offset r0)).
    - exists r0. split; [apply list_elem_of_here|reflexivity].
    - intros r Hin. apply list_elem_of_singleton in Hin. subst r. lia. }
  destruct Hloop as [Hmem Hmin].
  split; [exact Hmem|]. split; [exact Hmin|]. split.
  - intros Hall r Hr. destruct Hmem as (best & Hbest & Hoff).
    specialize (Hmin r Hr).
    rewrite <- Hoff in *.
    rewrite !AbsDuration_abs in Hmin by now apply Hall.
    exact Hmin.
  - intros Hrange (r & Hr & Hoff). destruct Hmem as (best & Hbest & Hbo).
    specialize (Hmin r Hr). rewrite Hoff in Hmin. rewrite <- Hbo in *.
    specialize (Hrange best Hbest).
    change (mathutil.AbsDuration int_min) with int_min in Hmin.
    unfold mathutil.AbsDuration in Hmin. unfold in_int64 in Hrange.
    destruct (Z.ltb_spec (Offset best) 0) as [Hneg|Hpos].
    + destruct (Z.eq_dec (Offset best) int_min) as [Heq|Hneq]; [exact Heq|].
      rewrite wrap64_id in Hmin by (unfold int_min, int_max in *; lia).
      unfold int_min in *. lia.
    + unfold int_min in *. lia.
Qed.

Section PoolMore.
Context {W : Type} `{!NTPQuerier W} `{!Clock W} `{!DNSCache.Resolver W}.

(** X25. Once the clock is at or past the epoch, [selectServersByStrategy]
    never indexes out of range.  It returns servers of the given list only:
    under "round_robin" exactly one of them, the one at index
    [unix seconds mod len] (none when the list is empty), and under every
    other strategy the list as it is. *)
Theorem selectServersByStrategy_selection (p : Pool.Pool) (servers : list string)
    (w : W) :
  0 <= now w ->
  exists selected,
    Pool.selectServersByStrategy p servers w = Returns selected
    /\ (forall s, s ∈ selected -> s ∈ servers)
    /\ (Pool.strategy p = "round_robin"%string ->
        match servers with
        | [] => selected = []
        | _ => exists s,
                 selected = [s]
                 /\ servers !! Z.to_nat ((now w / Second) mod Z.of_nat (length servers))
                    = Some s
        end)
    /\ (Pool.strategy p <> "round_robin"%string -> selected = servers).
Proof.
  intros Hnow. unfold Pool.selectServersByStrategy.
  destruct (String.eqb_spec (Pool.strategy p) "all") as [Hall|Hnall].
  { exists servers. split; [reflexivity|]. split; [auto|].
    split; [rewrite Hall; discriminate|reflexivity]. }
  destruct (String.eqb_spec (Pool.strategy p) "round_robin") as [Hrr|Hnrr].
  2:{ exists servers. split; [reflexivity|]. split; [auto|].
      split; [congruence|reflexivity]. }
  destruct servers as [|s0 rest].
  { exists []. cbn. split; [reflexivity|]. split; [auto|]. split; auto. }
  replace (length (s0 :: rest) =? 0)%nat with false by reflexivity.
  set (n := Z.of_nat (length (s0 :: rest))).
  assert (Hn : 0 < n) by (subst n; cbn [length]; lia).
  assert (Hsec : 0 <= now w / Second).
  { apply Z.div_pos; [exact Hnow|reflexivity]. }
  rewrite Z.rem_mod_nonneg by lia.
  pose proof (Z.mod_pos_bound (now w / Second) n Hn) as Hidx.
  destruct (Z.ltb_spec ((now w / Second) mod n) 0) as [Hneg|_]; [lia|].
  destruct ((s0 :: rest) !! Z.to_nat ((now w / Second) mod n)) as [server|] eqn:Hlook.
  - exists [server]. split; [reflexivity|]. split.
    + intros s Hin. apply list_elem_of_singleton in Hin. subst s.
      now apply list_elem_of_lookup_2 in Hlook.
    + split; [|congruence]. intros _. exists server. split; reflexivity.
  - exfalso. apply lookup_ge_None in Hlook. subst n. lia.
Qed.






End PoolMore.

Lemma findBestOffset_minimal_witness :
  let responses :=
    [Mock.successfulResponse "a" (5 * Millisecond) 2;
     Mock.successfulResponse "b" (-2 * Millisecond) 2] in
  exists r, r ∈ responses /\ Offset r = Pool.findBestOffset responses.
Proof.
  intros responses.
  assert (Hne : responses <> []) by discriminate.
  exact (proj1 (findBestOffset_minimal responses Hne)).
Defined.

Lemma selectServersByStrategy_selection_witness :
  exists selected,
    Pool.selectServersByStrategy
      (Pool.NewPool "pool.example" "round_robin" 0 "") sixAddresses poolWorld
    = Returns selected
    /\ forall s, s ∈ selected -> s ∈ sixAddresses.
Proof.
  destruct (selectServersByStrategy_selection
              (Pool.NewPool "pool.example" "round_robin" 0 "") sixAddresses
              poolWorld) as (selected & Hsel & Hin & _).
  - vm_compute. discriminate.
  - exists selected. split; assumption.
Defined.


Section CoherenceMore.
Local Open Scope R_scope.

(** The score as a function of the divergence. *)
Lemma calculateCoherence_of_divergence (a b : R) :
  Hybrid.calculateCoherence a b = Hybrid.calculateCoherence (Rabs (a - b)) 0.
Proof.
  unfold Hybrid.calculateCoherence. cbv zeta.
  replace (Rabs (a - b) - 0) with (Rabs (a - b)) by ring.
  now rewrite Rabs_Rabsolu.
Qed.

Lemma calculateCoherence_antitone (d d' : R) :
  0 <= d <= d' ->
  Hybrid.calculateCoherence d' 0 <= Hybrid.calculateCoherence d 0.
Proof.
  intros [Hd Hle]. unfold Hybrid.calculateCoherence. cbv zeta.
  replace (d - 0) with d by ring. replace (d' - 0) with d' by ring.
  rewrite !Rabs_pos_eq by lra.
  unfold Hybrid.perfectThreshold, Hybrid.excellentThreshold,
    Hybrid.goodThreshold, Hybrid.acceptableThreshold.
  pose proof (exp_pos (- d * 5)) as Hpos.
  pose proof (exp_pos (- d' * 5)) as Hpos'.
  assert (Hone : exp (- d' * 5) <= 1) by (apply exp_nonpos_le_1; lra).
  assert (Hmono : exp (- d' * 5) <= exp (- d * 5)).
  { destruct (Req_dec d d') as [->|Hne]; [lra|].
    left. apply exp_increasing. lra. }
  destruct (Rlt_dec d 0.001); destruct (Rlt_dec d' 0.001); try lra;
  destruct (Rlt_dec d 0.005); destruct (Rlt_dec d' 0.005); try lra;
  destruct (Rlt_dec d 0.010); destruct (Rlt_dec d' 0.010); try lra;
  destruct (Rlt_dec d 0.050); destruct (Rlt_dec d' 0.050); try lra;
  destruct (Rlt_dec (0.5 * exp (- d * 5)) 0);
  destruct (Rlt_dec (0.5 * exp (- d' * 5)) 0); lra.
Qed.

(** X27. The coherence score depends on the two offsets only through their
    distance: it is symmetric, lies in [0, 1], and never increases when the
    offsets move further apart.  (Over the reals the score is never 0; the
    float of the source reaches 0 once [exp] underflows, so only the closed
    range is stated.) *)
Theorem calculateCoherence_monotone (a b a' b' : R) :
  Hybrid.calculateCoherence a b = Hybrid.calculateCoherence b a
  /\ 0 <= Hybrid.calculateCoherence a b <= 1
  /\ (Rabs (a - b) <= Rabs (a' - b') ->
      Hybrid.calculateCoherence a' b' <= Hybrid.calculateCoherence a b).
Proof.
  split; [|split].
  - rewrite (calculateCoherence_of_divergence a b),
      (calculateCoherence_of_divergence b a).
    now rewrite Rabs_minus_sym.
  - rewrite (calculateCoherence_of_divergence a b).
    pose proof (Rabs_pos (a - b)) as Hd. set (d := Rabs (a - b)) in *.
    unfold Hybrid.calculateCoherence. cbv zeta.
    replace (d - 0) with d by ring. rewrite Rabs_pos_eq by lra.
    unfold Hybrid.perfectThreshold, Hybrid.excellentThreshold,
      Hybrid.goodThreshold, Hybrid.acceptableThreshold.
    pose proof (exp_pos (- d * 5)) as Hpos.
    assert (Hone : exp (- d * 5) <= 1) by (apply exp_nonpos_le_1; lra).
    destruct (Rlt_dec d 0.001); [lra|].
    destruct (Rlt_dec d 0.005); [lra|].
    destruct (Rlt_dec d 0.010); [lra|].
    destruct (Rlt_dec d 0.050); [lra|].
    destruct (Rlt_dec (0.5 * exp (- d * 5)) 0); lra.
  - intros Hle.
    rewrite (calculateCoherence_of_divergence a b),
      (calculateCoherence_of_divergence a' b').
    apply calculateCoherence_antitone. split; [apply Rabs_pos|exact Hle].
Qed.

End CoherenceMore.

Lemma calculateCoherence_monotone_witness :
  (Hybrid.calculateCoherence 1 0 <= Hybrid.calculateCoherence 0 0)%R.
Proof.
  destruct (calculateCoherence_monotone 0 0 1 0) as (_ & _ & Hmono).
  apply Hmono. replace (0 - 0)%R with 0%R by ring. rewrite Rabs_R0.
  apply Rabs_pos.
Defined.

(** The status bits [getStatusString] looks at: [STA_UNSYNC],
    [STA_CLOCKERR] and the three low bits. *)
Lemma land_status_bits (status : Z) :
  Z.land status 0x1047 = 0
  <-> Z.land status Kernel.STA_UNSYNC = 0
      /\ Z.land status Kernel.STA_CLOCKERR = 0
      /\ Z.land status 0x7 = 0.
Proof.
  change 0x1047 with (Z.lor Kernel.STA_UNSYNC (Z.lor Kernel.STA_CLOCKERR 0x7)).
  rewrite !Z.land_lor_distr_r, !Z.lor_eq_0_iff. tauto.
Qed.

Lemma getStatusString_unsynchronized (status : Z) :
  Kernel.getStatusString status = "unsynchronized"%string
  <-> Z.land status Kernel.STA_UNSYNC <> 0.
Proof.
  unfold Kernel.getStatusString. cbv zeta.
  destruct (Z.eqb_spec (Z.land status Kernel.STA_UNSYNC) 0) as [Hz|Hnz];
    cbn [negb]; [|tauto].
  split; [|congruence]. intros Hs. exfalso. revert Hs.
  destruct (negb _); [discriminate|].
  repeat (match goal with |- context [if ?c then _ else _] => destruct c end;
          [discriminate|]).
  discriminate.
Qed.

Lemma getStatusString_synchronized (status : Z) :
  Kernel.getStatusString status = "synchronized"%string
  <-> Z.land status 0x1047 = 0.
Proof.
  rewrite land_status_bits. unfold Kernel.getStatusString. cbv zeta.
  destruct (Z.eqb_spec (Z.land status Kernel.STA_UNSYNC) 0) as [Hu|Hu]; cbn [negb].
  2:{ split; [discriminate|tauto]. }
  destruct (Z.eqb_spec (Z.land status Kernel.STA_CLOCKERR) 0) as [Hc|Hc]; cbn [negb].
  2:{ split; [discriminate|tauto]. }
  destruct (Z.eqb_spec (Z.land status 7) Kernel.TIME_OK) as [Hl|Hl].
  { unfold Kernel.TIME_OK in Hl. tauto. }
  split; [|unfold Kernel.TIME_OK in Hl; tauto]. intros Hs. exfalso. revert Hs.
  repeat (match goal with |- context [if ?c then _ else _] => destruct c end;
          [discriminate|]).
  discriminate.
Qed.

(** X28. [Read] returns a state only when the reader is enabled and the
    system call reported no error, and then without an error.  In that
    state the status text is "unsynchronized" exactly when [IsSynchronized]
    is false, and "synchronized" exactly when [STA_UNSYNC], [STA_CLOCKERR]
    and the three low bits of the status word are all clear; the status
    code is the status word itself. *)
Theorem Read_sync_status (enabled : bool) (tx : Kernel.timex) (errno : Z)
    (k : Kernel.KernelTimex) (err : option string) :
  Kernel.Read enabled tx errno = (Some k, err) ->
  err = None /\ enabled = true /\ errno = 0
  /\ Kernel.StatusCode k = Kernel.Status k
  /\ Kernel.Status k = Kernel.txStatus tx
  /\ (Kernel.SyncStatus k = "unsynchronized"%string
      <-> Kernel.IsSynchronized k = false)
  /\ (Kernel.SyncStatus k = "synchronized"%string
      <-> Z.land (Kernel.Status k) 0x1047 = 0).
Proof.
  unfold Kernel.Read. destruct enabled; cbn [negb]; [|discriminate].
  destruct (Z.eqb_spec errno 0) as [Herrno|Herrno]; cbn [negb]; [|discriminate].
  intros HR. inversion HR; subst k err; clear HR.
  cbn [Kernel.StatusCode Kernel.Status Kernel.SyncStatus].
  repeat (split; [reflexivity|]).
  split; [exact Herrno|]. repeat (split; [reflexivity|]).
  split.
  - rewrite getStatusString_unsynchronized. unfold Kernel.IsSynchronized.
    cbn [Kernel.Status].
    destruct (Z.eqb_spec (Z.land (Kernel.txStatus tx) Kernel.STA_UNSYNC) 0);
      split; congruence.
  - apply getStatusString_synchronized.
Qed.

Lemma Read_sync_status_witness :
  exists k,
    Kernel.Read true
      (Kernel.mkTimex 125 0 16000 500 8193 2 1 500 10000 0 0 0 0 0 0 0 0) 0
    = (Some k, None)
    /\ Kernel.StatusCode k = Kernel.Status k.
Proof.
  destruct (Kernel.Read true
              (Kernel.mkTimex 125 0 16000 500 8193 2 1 500 10000 0 0 0 0 0 0 0 0) 0)
    as [[k|] err] eqn:HR; [|vm_compute in HR; discriminate].
  destruct (Read_sync_status _ _ _ _ _ HR) as (Herr & _ & _ & Hcode & _).
  subst err. exists k. split; [reflexivity|exact Hcode].
Defined.

Section RegistryMore.
Context {W E : Type}.

Lemma collectLoop_acc (ctx : Ctx) (collectors : list (Registry.Collector W E)) :
  forall (errs : list (string * E)) (w : W),
    foldl (fun '(errs, w) c =>
             if negb (Registry.Enabled c) then (errs, w)
             else
               match Registry.Collect c ctx w with
               | (Some err, w) => (errs ++ [(Registry.Name c, err)], w)
               | (None, w) => (errs, w)
               end)
          (errs, w) collectors
    = (errs ++ fst (Registry.collectLoop ctx collectors w),
       snd (Registry.collectLoop ctx collectors w)).
Proof.
  unfold Registry.collectLoop.
  induction collectors as [|c collectors IH]; intros errs w; cbn [foldl].
  - cbn. now rewrite app_nil_r.
  - destruct (Registry.Enabled c); cbn [negb].
    + destruct (Registry.Collect c ctx w) as [[err|] w1].
      * rewrite IH. rewrite (IH ([] ++ _)). cbn [fst snd app].
        now rewrite <- app_assoc.
      * apply IH.
    + apply IH.
Qed.

Lemma collectLoop_app (ctx : Ctx) (first second : list (Registry.Collector W E))
    (w : W) :
  Registry.collectLoop ctx (first ++ second) w
  = (fst (Registry.collectLoop ctx first w)
       ++ fst (Registry.collectLoop ctx second
                 (snd (Registry.collectLoop ctx first w))),
     snd (Registry.collectLoop ctx second
            (snd (Registry.collectLoop ctx first w)))).
Proof.
  unfold Registry.collectLoop at 1. rewrite foldl_app.
  fold (Registry.collectLoop ctx first w).
  destruct (Registry.collectLoop ctx first w) as [errs1 w1].
  apply collectLoop_acc.
Qed.

(** X29. [CollectAll] runs every collector of the registry even after one
    has failed: collecting over two lists in a row leaves the world that
    collecting over the second list leaves when started where the first
    ended, and the error reported is that of the first list if it has one,
    otherwise that of the second.  Disabled collectors take no part. *)
Theorem CollectAll_app (first second : list (Registry.Collector W E)) (ctx : Ctx)
    (w : W) :
  Registry.CollectAll (first ++ second) ctx w
  = (match fst (Registry.CollectAll first ctx w) with
     | Some err => Some err
     | None =>
         fst (Registry.CollectAll second ctx (snd (Registry.CollectAll first ctx w)))
     end,
     snd (Registry.CollectAll second ctx (snd (Registry.CollectAll first ctx w))))
  /\ Registry.CollectAll (filter (fun c : Registry.Collector W E => Registry.Enabled c = true) first) ctx w
     = Registry.CollectAll first ctx w.
Proof.
  split.
  - unfold Registry.CollectAll. rewrite collectLoop_app.
    destruct (Registry.collectLoop ctx first w) as [errs1 w1]. cbn [fst snd].
    destruct (Registry.collectLoop ctx second w1) as [errs2 w2]. cbn [fst snd].
    now destruct errs1.
  - unfold Registry.CollectAll.
    assert (Hloop : forall cs w0,
              Registry.collectLoop ctx
                (filter (fun c : Registry.Collector W E => Registry.Enabled c = true) cs) w0
              = Registry.collectLoop ctx cs w0).
    { induction cs as [|c cs IH]; intros w0; [reflexivity|].
      rewrite filter_cons.
      destruct (decide (Registry.Enabled c = true)) as [Hen|Hdis].
      - change (c :: filter (fun c : Registry.Collector W E =>
                               Registry.Enabled c = true) cs)
          with ([c] ++ filter (fun c : Registry.Collector W E =>
                                 Registry.Enabled c = true) cs).
        change (c :: cs) with ([c] ++ cs).
        now rewrite !collectLoop_app, !IH.
      - assert (Hoff : Registry.Enabled c = false)
          by now destruct (Registry.Enabled c).
        change (c :: cs) with ([c] ++ cs). rewrite collectLoop_app, IH.
        assert (Hone : Registry.collectLoop ctx [c] w0 = ([], w0)).
        { unfold Registry.collectLoop. cbn [foldl]. now rewrite Hoff. }
        rewrite Hone. cbn [fst snd app].
        now destruct (Registry.collectLoop ctx cs w0). }
    now rewrite Hloop.
Qed.

End RegistryMore.

Section QualityMore.
Context {W : Type} `{!NTPQuerier W} `{!Clock W}.

Lemma CalculateStatistics_count (responses : list Response) (total : Z) :
  Stats.SamplesCount (Stats.CalculateStatistics responses total)
  = Z.of_nat (length responses).
Proof. now destruct responses. Qed.

(** All samples accounted for: with as many expected as received, the
    loss is 0; with none at all it is reported as 1. *)
Lemma CalculateStatistics_adaptive_loss (responses : list Response) :
  (Stats.PacketLossRatio
     (Stats.CalculateStatistics responses (Z.of_nat (length responses)))
   == if (length responses =? 0)%nat then 1 else 0)%Q.
Proof.
  destruct responses as [|r0 rest]; [reflexivity|].
  unfold Stats.CalculateStatistics, Stats.PacketLossRatio,
    Stats.calculatePacketLoss. cbv zeta.
  replace (length (r0 :: rest) =? 0)%nat with false by reflexivity.
  destruct (Z.eqb_spec (Z.of_nat (length (r0 :: rest))) 0); [reflexivity|].
  rewrite Z.sub_diag. change (wrap64 0) with 0. cbn [Z.ltb Z.compare].
  unfold Qdiv. now rewrite Qmult_0_l.
Qed.

(** X30. [collectFromServer] of the quality collector samples the server
    once, adaptively or with the fixed count, and sets gauges only on
    success and only under the label of its server: on an error the
    metrics are untouched and the error is returned.  On success the
    samples gauge is the number of responses that sampling returned, and
    the packet-loss gauge is that of their statistics: under adaptive
    sampling 0, except with no response at all, where it is 1. *)
Theorem collectFromServer_gauges (cfg : Quality.Config) (ctx : Ctx)
    (server : string) (m : Quality.Metrics) (w : W) :
  let sampled :=
    if Quality.AdaptiveEnabled cfg
    then Adaptive.Sample
           (Adaptive.NewAdaptiveSampler
              (Adaptive.mkConfig (Quality.AdaptiveDefaultSamples cfg)
                 (Quality.AdaptiveHighDriftSamples cfg)
                 (Quality.AdaptiveDriftThreshold cfg)
                 (Quality.AdaptiveMaxDuration cfg) 0))
           ctx server w
    else QueryMultiple ctx server (Quality.SamplesPerServer cfg) w in
  let responses := fst (fst sampled) in
  let result := Quality.collectFromServer cfg ctx server (m, w) in
  let m' := fst (snd result) in
  snd (snd result) = snd sampled
  /\ match snd (fst sampled) with
     | Some e =>
         fst result
         = Some (if Quality.AdaptiveEnabled cfg
                 then Quality.AdaptiveSamplingFailed server e
                 else Quality.MultipleQueriesFailed server e)
         /\ m' = m
     | None =>
         fst result = None
         /\ (forall other, other <> server ->
               Quality.JitterSeconds m' !! other = Quality.JitterSeconds m !! other
               /\ Quality.StabilitySeconds m' !! other
                  = Quality.StabilitySeconds m !! other
               /\ Quality.AsymmetrySeconds m' !! other
                  = Quality.AsymmetrySeconds m !! other
               /\ Quality.SamplesCount m' !! other = Quality.SamplesCount m !! other
               /\ Quality.PacketLossRatio m' !! other
                  = Quality.PacketLossRatio m !! other)
         /\ Quality.SamplesCount m' !! server
            = Some (inject_Z (Z.of_nat (length responses)))
         /\ exists loss : Q,
              Quality.PacketLossRatio m' !! server = Some loss
              /\ (Quality.AdaptiveEnabled cfg = true ->
                  (loss == if (length responses =? 0)%nat then 1 else 0)%Q)
              /\ (Quality.AdaptiveEnabled cfg = false ->
                  loss = Stats.PacketLossRatio
                           (Stats.CalculateStatistics responses
                              (Quality.SamplesPerServer cfg)))
     end.
Proof.
  intros sampled responses result m'. subst sampled responses result m'.
  unfold Quality.collectFromServer.
  assert (Hother : forall stats other, other <> server ->
    Quality.JitterSeconds (Quality.update m server stats) !! other
    = Quality.JitterSeconds m !! other
    /\ Quality.StabilitySeconds (Quality.update m server stats) !! other
       = Quality.StabilitySeconds m !! other
    /\ Quality.AsymmetrySeconds (Quality.update m server stats) !! other
       = Quality.AsymmetrySeconds m !! other
    /\ Quality.SamplesCount (Quality.update m server stats) !! other
       = Quality.SamplesCount m !! other
    /\ Quality.PacketLossRatio (Quality.update m server stats) !! other
       = Quality.PacketLossRatio m !! other).
  { intros stats other Hne. unfold Quality.update. cbn.
    rewrite !lookup_insert_ne by congruence. repeat split. }
  destruct (Quality.AdaptiveEnabled cfg).
  - cbv zeta.
    destruct (Adaptive.Sample _ ctx server w) as [[responses serr] w1].
    destruct serr as [e|]; cbn [fst snd].
    { split; [reflexivity|]. split; reflexivity. }
    split; [reflexivity|]. split; [reflexivity|]. split; [apply Hother|].
    unfold Quality.update.
    cbn [Quality.SamplesCount Quality.PacketLossRatio].
    rewrite !lookup_insert_eq, CalculateStatistics_count.
    split; [reflexivity|]. eexists. split; [reflexivity|].
    split; [|discriminate].
    intros _. apply CalculateStatistics_adaptive_loss.
  - destruct (QueryMultiple ctx server (Quality.SamplesPerServer cfg) w)
      as [[responses qerr] w1].
    destruct qerr as [e|]; cbn [fst snd].
    { split; [reflexivity|]. split; reflexivity. }
    split; [reflexivity|]. split; [reflexivity|]. split; [apply Hother|].
    unfold Quality.update.
    cbn [Quality.SamplesCount Quality.PacketLossRatio].
    rewrite !lookup_insert_eq, CalculateStatistics_count.
    split; [reflexivity|]. eexists. split; [reflexivity|].
    split; [discriminate|]. intros _. reflexivity.
Qed.

End QualityMore.
